(** * Donation payment pipeline: charge creation, webhook reconciliation,
      live notification.

    A shallow embedding of the JavaScript services
    (DonationService, PixService, the Donation model, SSEService and the
    webhook router) together with the properties proved about them.

    Conventions of the embedding.
    - A JavaScript property that may be [undefined] is an [option]; [None]
      stands for [undefined].  Strings are sequences of ASCII characters.
      What a request body carries is a JSON value ([JS.value]); an element
      of a JSON array that is [null] is [None].
    - A number read from text is kept in decimal ([JS.number]); the one
      expression whose result depends on rounding, the conversion of a
      store timestamp to a [Date], is computed in doubles ([Double]).
    - An [async] method is a computation in the monad [M] below: it threads
      the world (document store, gateway traffic, notification hub) and
      either returns a value or throws.
    - Everything outside the process (the payment gateway, the partner
      registry, the document store's failures, the server clock, the uuid
      generator) is an oracle collected in the record [Env]. *)

From Stdlib Require Import ZArith String Ascii List Bool Lia DecimalString Sorted.
From stdpp Require Import base strings gmap list fin_maps.
Import ListNotations.

Local Open Scope string_scope.
Local Open Scope Z_scope.

(* ===================================================================== *)
(** ** JavaScript primitives used by the services *)
(* ===================================================================== *)

Module JS.

(** A JavaScript number.  [Finite m e] is the double nearest to
    [m * 10^e]; both zeros are [Finite 0 _]. *)
Inductive number :=
| NaN
| Infinity (negative : bool)
| Finite (m e : Z).

(** The decimal [m * 10^e] rounds to a zero double: its magnitude is at
    most half the least subnormal, [2^-1075] (ties go to even, hence to
    zero). *)
Definition rounds_to_zero (m e : Z) : bool :=
  if m =? 0 then true
  else if 0 <=? e then false
  else Z.abs m * 2 ^ 1075 <=? 10 ^ (- e).

Definition is_zero (n : number) : bool :=
  match n with
  | Finite m e => rounds_to_zero m e
  | _ => false
  end.

Definition is_NaN (n : number) : bool :=
  match n with NaN => true | _ => false end.

(** [!n] for a number: NaN and the zeros are falsy. *)
Definition falsy_number (n : number) : bool := is_NaN n || is_zero n.

(** [n <= 0]. Every comparison with NaN is false. *)
Definition le_zero (n : number) : bool :=
  match n with
  | NaN => false
  | Infinity negative => negative
  | Finite m e => (m <=? 0) || rounds_to_zero m e
  end.

(** The values a parsed JSON body may carry in a property, [Undefined] for
    a property that is absent. An object or an array is kept as the string
    it converts to ([String(v)]), which is all that is read of it; an
    object whose conversion throws (one with a [toString] member of its
    own) is left out. *)
Inductive value :=
| Undefined
| Null
| Bool (b : bool)
| Num (n : number)
| Str (s : string)
| Obj (text : string).

(** [!s] for a string: only the empty string is falsy. *)
Definition falsy_string (s : string) : bool :=
  match s with EmptyString => true | _ => false end.

(** [!o] for a property holding a string or undefined. *)
Definition falsy_opt (o : option string) : bool :=
  match o with
  | None => true
  | Some s => falsy_string s
  end.

(** [!v]. *)
Definition falsy (v : value) : bool :=
  match v with
  | Undefined | Null => true
  | Bool b => negb b
  | Num n => falsy_number n
  | Str s => falsy_string s
  | Obj _ => false
  end.

Definition is_digit (c : ascii) : bool :=
  let n := nat_of_ascii c in (48 <=? n)%nat && (n <=? 57)%nat.

Definition digit_value (c : ascii) : Z := Z.of_nat (nat_of_ascii c) - 48.

(** White space and line terminators skipped by [parseFloat]:
    TAB, LF, VT, FF, CR and SP. *)
Definition is_space (c : ascii) : bool :=
  let n := nat_of_ascii c in
  ((9 <=? n)%nat && (n <=? 13)%nat) || (n =? 32)%nat.

Fixpoint trimStart (s : string) : string :=
  match s with
  | String c r => if is_space c then trimStart r else s
  | EmptyString => s
  end.

(** The longest prefix of decimal digits, and what follows it. *)
Fixpoint take_digits (s : string) : list ascii * string :=
  match s with
  | String c r =>
      if is_digit c
      then let '(ds, rest) := take_digits r in (c :: ds, rest)
      else ([], s)
  | EmptyString => ([], s)
  end.

Definition digits_value (ds : list ascii) : Z :=
  fold_left (fun acc c => 10 * acc + digit_value c) ds 0.

(** An optional sign: whether it is a minus, and what follows it. *)
Definition take_sign (s : string) : bool * string :=
  match s with
  | String "+" r => (false, r)
  | String "-" r => (true, r)
  | _ => (false, s)
  end.

(** The exponent part [e|E] [+|-] digits, when it is complete;
    otherwise it does not belong to the literal and counts as 0. *)
Definition exponent_part (s : string) : Z :=
  match s with
  | String c r =>
      if (Ascii.eqb c "e" || Ascii.eqb c "E")%char
      then
        let '(negative, r') := take_sign r in
        match take_digits r' with
        | ([], _) => 0
        | (ds, _) => if negative then - digits_value ds else digits_value ds
        end
      else 0
  | EmptyString => 0
  end.

(** [parseFloat] on a string: the longest prefix of the trimmed input
    that is a StrDecimalLiteral, NaN when there is none. *)
Definition parseFloatString (s : string) : number :=
  let '(negative, t1) := take_sign (trimStart s) in
  if String.prefix "Infinity" t1 then Infinity negative
  else
    let '(ip, t2) := take_digits t1 in
    let '(fp, t3) :=
      match t2 with
      | String "." r => take_digits r
      | _ => ([], t2)
      end in
    match (ip ++ fp)%list with
    | [] => NaN
    | ds =>
        let m := digits_value ds in
        Finite (if negative then - m else m)
               (exponent_part t3 - Z.of_nat (List.length fp))
    end.

(** [parseFloat(v)]: the argument is first converted to a string.
    "undefined", "null", "true" and "false" are not numeric literals; a
    number prints to a literal that reads back as the same number. *)
Definition parseFloat (v : value) : number :=
  match v with
  | Undefined | Null | Bool _ => NaN
  | Num n => n
  | Str s => parseFloatString s
  | Obj text => parseFloatString text
  end.

(** [s.replace(/\D/g, "")]: drop every character that is not a digit. *)
Fixpoint removeNonDigits (s : string) : string :=
  match s with
  | String c r =>
      if is_digit c then String c (removeNonDigits r) else removeNonDigits r
  | EmptyString => EmptyString
  end.

(** Some character of [s] is not a decimal digit. *)
Fixpoint has_non_digit (s : string) : bool :=
  match s with
  | String c r => negb (is_digit c) || has_non_digit r
  | EmptyString => false
  end.

End JS.

(* ===================================================================== *)
(** ** utils/Errors.js *)
(* ===================================================================== *)

Module Errors.

(** The four error classes, each extending [Error] directly, and any other
    thrown value (a [TypeError], say).  [response] tells whether the thrown
    value has a truthy [response] property; the four classes never set
    one. *)
Inductive error :=
| ValidationError (message : string)
| NotFoundError (message : string)
| DatabaseError (message : string)
| ExternalError (message : string)
| OtherError (name message : string) (response : bool).

Definition name (e : error) : string :=
  match e with
  | ValidationError _ => "ValidationError"
  | NotFoundError _ => "NotFoundError"
  | DatabaseError _ => "DatabaseError"
  | ExternalError _ => "ExternalError"
  | OtherError n _ _ => n
  end.

Definition message (e : error) : string :=
  match e with
  | ValidationError m | NotFoundError m | DatabaseError m
  | ExternalError m | OtherError _ m _ => m
  end.

Definition statusCode (e : error) : option Z :=
  match e with
  | NotFoundError _ => Some 404
  | ValidationError _ => Some 409
  | DatabaseError _ => Some 500
  | ExternalError _ => Some 502
  | OtherError _ _ _ => None
  end.

(** [error.response] as a condition. *)
Definition has_response (e : error) : bool :=
  match e with
  | OtherError _ _ r => r
  | _ => false
  end.

(** [`${error}`], that is [Error.prototype.toString]. *)
Definition toString (e : error) : string :=
  if JS.falsy_string (message e) then name e
  else name e ++ ": " ++ message e.

Definition isValidationError (e : error) : bool :=
  match e with ValidationError _ => true | _ => false end.
Definition isNotFoundError (e : error) : bool :=
  match e with NotFoundError _ => true | _ => false end.
Definition isDatabaseError (e : error) : bool :=
  match e with DatabaseError _ => true | _ => false end.
Definition isExternalError (e : error) : bool :=
  match e with ExternalError _ => true | _ => false end.

End Errors.
Export Errors.

(** [a || d] on a string property: the first truthy operand. *)
Definition or_else (a : option string) (d : string) : string :=
  match a with
  | Some s => if JS.falsy_string s then d else s
  | None => d
  end.

(** [a || b] where both may be undefined. *)
Definition or_opt {A} (falsyA : A -> bool) (a b : option A) : option A :=
  match a with
  | Some x => if falsyA x then b else a
  | None => b
  end.

(** A property interpolated in a template literal. *)
Definition show (a : option string) : string :=
  match a with Some s => s | None => "undefined" end.

(* ===================================================================== *)
(** ** The payment gateway's data *)
(* ===================================================================== *)

Module Valor.
Record t := { original : option string }.
End Valor.

Module Devedor.
Record t := { cpf : option string; nome : option string }.

(** [JSON.stringify] of the payer object (no escaping of the strings). *)
Definition stringify (d : option t) : string :=
  match d with
  | None => "undefined"
  | Some d =>
      let q := String (ascii_of_nat 34) EmptyString in
      let member k v :=
        match v with
        | Some s => [q ++ k ++ q ++ ":" ++ q ++ s ++ q]
        | None => []
        end in
      "{" ++ String.concat "," (member "cpf" (cpf d) ++ member "nome" (nome d))%list
          ++ "}"
  end.
End Devedor.

Module Loc.
Record t := { id : option Z }.
End Loc.

Module Calendario.
Record t := { criacao : option string }.
End Calendario.

(** A charge as the gateway reports it, on creation and on detail. *)
Module Charge.
Record t := {
  txid : option string;
  status : option string;
  valor : option Valor.t;
  devedor : option Devedor.t;
  loc : option Loc.t;
  location : option string;
  pixCopiaECola : option string;
  calendario : option Calendario.t
}.
End Charge.

(** The body of a create-charge request. [valor_original] is the number
    that [toFixed(2)] renders; the rendering is not modelled. *)
Module PixBody.
Record t := {
  calendario_expiracao : Z;
  devedor_cpf : string;
  devedor_nome : option string;
  valor_original : JS.number;
  chave : option string;
  solicitacaoPagador : string
}.
End PixBody.

(** What the gateway SDK throws. *)
Module EfiError.
Record api := {
  api_nome : option string;
  api_name : option string;
  api_mensagem : option string;
  api_message : option string;
  api_json : string            (* JSON.stringify(apiError) *)
}.
Record response := {
  data : option api;
  status : string              (* `${error.response.status}` *)
}.
Record t := {
  resp : option response;
  message : option string;
  json : string                (* JSON.stringify(error) *)
}.
End EfiError.

(** Requests that left the process towards the gateway. *)
Inductive EfiRequest :=
| PixCreateCharge (txid : string) (body : PixBody.t)
| PixDetailCharge (txid : string).

(* ===================================================================== *)
(** ** Timestamps of the store and JavaScript dates *)
(* ===================================================================== *)

(** Arithmetic on finite doubles (binary64, rounding to nearest, ties to
    even), for the one expression of the services that depends on it. *)
Module Double.

(** The value of a finite double, as the fraction [num / den] with
    [den > 0]. *)
Record t := { num : Z; den : Z }.

(** [floor (log2 (n / d))] for positive [n] and [d]. *)
Definition ilog2 (n d : Z) : Z :=
  if d <=? n then Z.log2 (n / d)
  else - Z.log2_up ((d + n - 1) / n).

(** The integer nearest to [n / d], the even one of two equally near. *)
Definition nearest_even (n d : Z) : Z :=
  let q := n / d in
  match 2 * (n mod d) ?= d with
  | Lt => q
  | Gt => q + 1
  | Eq => if Z.even q then q else q + 1
  end.

(** The double nearest to [n / d], for [d > 0]: a multiple of [2^u], where
    [u] leaves 53 significant bits and is at least -1074. *)
Definition round (n d : Z) : t :=
  if n =? 0 then {| num := 0; den := 1 |}
  else
    let u := Z.max (ilog2 (Z.abs n) d - 52) (-1074) in
    if 0 <=? u
    then {| num := nearest_even n (d * 2 ^ u) * 2 ^ u; den := 1 |}
    else {| num := nearest_even (n * 2 ^ (- u)) d; den := 2 ^ (- u) |}.

(** The number an integer property holds. *)
Definition of_Z (z : Z) : t := round z 1.

Definition mul (a b : t) : t := round (num a * num b) (den a * den b).

Definition add (a b : t) : t :=
  round (num a * den b + num b * den a) (den a * den b).

(** [a / b] for a divisor that is not zero. *)
Definition div (a b : t) : t :=
  round (num a * den b * Z.sgn (num b)) (den a * Z.abs (num b)).

(** The integer part, towards zero. *)
Definition truncate (a : t) : Z := Z.quot (num a) (den a).

End Double.

(** An instant of the store. The store keeps [_seconds] within the years 1
    to 9999 and [_nanoseconds] below 10^9 ([store_timestamp] below). *)
Record Timestamp := { _seconds : Z; _nanoseconds : Z }.

(** A [Date] is a whole number of milliseconds since the epoch. *)
Definition Date := Z.

(** [new Date(seconds * 1000 + nanoseconds / 1_000_000)]: the sum is
    computed in doubles and the time value is its integer part. For the
    instants of the store no result overflows or leaves the range of
    dates, so neither is modelled. *)
Definition newDate (seconds nanoseconds : Z) : Date :=
  Double.truncate
    (Double.add (Double.mul (Double.of_Z seconds) (Double.of_Z 1000))
                (Double.div (Double.of_Z nanoseconds) (Double.of_Z 1000000))).

(** [admin.firestore.Timestamp.fromDate]. *)
Definition Timestamp_fromDate (d : Date) : Timestamp :=
  {| _seconds := d / 1000; _nanoseconds := (d mod 1000) * 1000000 |}.

(** What a constructor may receive as [createdAt]. *)
Inductive TimeValue :=
| TimeUndefined
| ServerTimestampSentinel          (* FieldValue.serverTimestamp() *)
| TimeOfStore (t : Timestamp)
| TimeOfDate (d : Date).

(* ===================================================================== *)
(** ** The document store and the partner registry *)
(* ===================================================================== *)

Definition DocId := nat.

(** A document of the "donations" collection. *)
Module Doc.
Record t := {
  donorCPF : option string;
  donorName : option string;
  donorCIM : option string;
  amount : JS.number;
  txId : option string;
  locId : option Z;
  qrCode : option string;
  copyPaste : option string;
  status : option string;
  createdAt : Timestamp
}.
End Doc.

Module Partner.
Record t := {
  id : DocId;
  cpf : option string;
  name : option string;
  cim : option string
}.
End Partner.

(* ===================================================================== *)
(** ** service/SSEService.js: the notification hub *)
(* ===================================================================== *)

Module SSEService.

(** A connection is one request/response pair; a timer is the handle
    returned by [setInterval]. *)
Definition ConnId := nat.
Definition TimerId := nat.

(** The object handed to [notifyDonationPaid], with every property the
    method reads. *)
Record Notice := {
  txid : option string;
  txId : option string;
  amount : option JS.number;
  valor : option JS.number;
  donorName : option string;
  infoPagador : option string;
  pagador : option string;
  createdAt : option Date;
  horario : option Date;
  status : option string
}.

(** [eventData.donation]. *)
Record DonationPaid := {
  ev_txid : option string;
  ev_valor : option JS.number;
  ev_pagador : string;
  ev_horario : option Date;
  ev_status : option string
}.

(** What [res.write] is called with. *)
Inductive Chunk :=
| Established (txId : string)     (* data: Conexão SSE estabelecida ... *)
| Ping                            (* ": ping\n\n" *)
| EventLine                       (* "event: donationPaid\n" *)
| EventData (d : DonationPaid).   (* data: {"type":"donationPaid",...} *)

Record Client := { res : ConnId; keepAlive : TimerId }.

(** [clients] is the [Map] of the service. [intervals] holds the running
    timers and the connection each one pings, [listeners] the closures
    registered with [req.on("close", ...)]: each one captured its [txId]
    and its own [keepAlive]. [written] is the log of [res.write]. *)
Record Hub := {
  clients : gmap string Client;
  intervals : gmap TimerId ConnId;
  nextTimer : TimerId;
  listeners : list (ConnId * (string * TimerId));
  written : list (ConnId * Chunk)
}.

Definition empty : Hub :=
  {| clients := ∅; intervals := ∅; nextTimer := 0%nat;
     listeners := []; written := [] |}.

Definition write (c : ConnId) (k : Chunk) (h : Hub) : Hub :=
  {| clients := clients h; intervals := intervals h;
     nextTimer := nextTimer h; listeners := listeners h;
     written := (written h ++ [(c, k)])%list |}.

Definition addClient (txId : string) (conn : ConnId) (h : Hub) : Hub :=
  let h1 := write conn (Established txId) h in
  let keepAlive := nextTimer h1 in
  {| clients := <[txId := {| res := conn; keepAlive := keepAlive |}]> (clients h1);
     intervals := <[keepAlive := conn]> (intervals h1);
     nextTimer := S keepAlive;
     listeners := (listeners h1 ++ [(conn, (txId, keepAlive))])%list;
     written := written h1 |}.

(** The body of one close listener. *)
Definition onClose (txId : string) (keepAlive : TimerId) (h : Hub) : Hub :=
  {| clients := delete txId (clients h);
     intervals := delete keepAlive (intervals h);   (* clearInterval *)
     nextTimer := nextTimer h;
     listeners := listeners h;
     written := written h |}.

(** Running, from hub [h], those of the listeners [ls] that were registered
    on the request of connection [conn]. *)
Definition runListeners (conn : ConnId) (ls : list (ConnId * (string * TimerId)))
    (h : Hub) : Hub :=
  fold_left
    (fun acc l =>
       if Nat.eqb (fst l) conn then onClose (fst (snd l)) (snd (snd l)) acc
       else acc)
    ls h.

(** The request of connection [conn] emits "close". *)
Definition close (conn : ConnId) (h : Hub) : Hub :=
  runListeners conn (listeners h) h.

(** Timer [t] fires. *)
Definition tick (t : TimerId) (h : Hub) : Hub :=
  match intervals h !! t with
  | Some conn => write conn Ping h
  | None => h
  end.

Definition notifyOne (h : Hub) (donation : Notice) : Hub :=
  let client :=
    match txid donation with
    | Some k => clients h !! k
    | None => None
    end in
  match client with
  | Some client =>
      let eventData :=
        {| ev_txid := txId donation;
           ev_valor := or_opt JS.falsy_number (amount donation) (valor donation);
           ev_pagador :=
             or_else (donorName donation)
                     (or_else (infoPagador donation) "Desconhecido");
           ev_horario :=
             match createdAt donation with
             | Some d => Some d
             | None => horario donation
             end;
           ev_status := status donation |} in
      write (res client) (EventData eventData) (write (res client) EventLine h)
  | None => h
  end.

Definition notifyDonationPaid (donations : list Notice) (h : Hub) : Hub :=
  match donations with
  | [] => h
  | _ => fold_left notifyOne donations h
  end.

(** The [donationPaid] events written to connection [c]. *)
Definition deliveries (c : ConnId) (h : Hub) : list DonationPaid :=
  omap (fun w =>
          match w with
          | (c', EventData d) => if Nat.eqb c' c then Some d else None
          | _ => None
          end) (written h).

End SSEService.

(* ===================================================================== *)
(** ** The world, its oracles, and the monad of async methods *)
(* ===================================================================== *)

(** Everything the process cannot decide by itself. A query or a write of
    the store fails when its oracle gives the text of the failure. *)
Record Env := {
  efi_pixDetailCharge : string -> EfiError.t + Charge.t;
  efi_pixCreateCharge : string -> PixBody.t -> EfiError.t + Charge.t;
  uuidv4 : string;
  GN_PIX_KEY : option string;
  partners_where_cpf : string -> string + option Partner.t;
  donations_query_error : string -> option string;
  donations_write_error : Doc.t -> option string;
  serverTimestamp : Timestamp
}.

Record World := {
  donations : list (DocId * Doc.t);      (* the "donations" collection *)
  efi_requests : list EfiRequest;        (* requests sent to the gateway *)
  hub : SSEService.Hub                   (* the sseService singleton *)
}.

Inductive result (A : Type) :=
| Return (a : A)
| Throw (e : error).
Arguments Return {A} a.
Arguments Throw {A} e.

Definition M (A : Type) : Type := World -> result A * World.

Definition ret {A} (a : A) : M A := fun w => (Return a, w).

Definition throw {A} (e : error) : M A := fun w => (Throw e, w).

Definition bind {A B} (m : M A) (k : A -> M B) : M B :=
  fun w =>
    match m w with
    | (Return a, w') => k a w'
    | (Throw e, w') => (Throw e, w')
    end.

(** [try { m } catch (error) { h error }]. *)
Definition try_catch {A} (m : M A) (h : error -> M A) : M A :=
  fun w =>
    match m w with
    | (Return a, w') => (Return a, w')
    | (Throw e, w') => h e w'
    end.

Definition get_donations : M (list (DocId * Doc.t)) :=
  fun w => (Return (donations w), w).

Definition put_donations (ds : list (DocId * Doc.t)) : M unit :=
  fun w => (Return tt, {| donations := ds; efi_requests := efi_requests w;
                          hub := hub w |}).

Definition send_efi (r : EfiRequest) : M unit :=
  fun w => (Return tt, {| donations := donations w;
                          efi_requests := (efi_requests w ++ [r])%list;
                          hub := hub w |}).

Definition with_hub (f : SSEService.Hub -> SSEService.Hub) : M unit :=
  fun w => (Return tt, {| donations := donations w;
                          efi_requests := efi_requests w;
                          hub := f (hub w) |}).

Declare Scope async_scope.
Delimit Scope async_scope with async.
Notation "'let!' x ':=' m 'in' k" := (bind m (fun x => k))
  (at level 10, x name, m at level 100, k at level 200) : async_scope.
Notation "'await!' m 'in' k" := (bind m (fun _ => k))
  (at level 10, m at level 100, k at level 200) : async_scope.
Local Open Scope async_scope.

(* ===================================================================== *)
(** ** models/Donation.js *)
(* ===================================================================== *)

Module Donation.

Record t := {
  id : option DocId;
  donorCPF : option string;
  donorName : option string;
  donorCIM : option string;
  amount : JS.number;
  txId : option string;
  locId : option Z;
  qrCode : option string;
  copyPaste : option string;
  status : option string;
  createdAt : option Date
}.

Definition convertToDate (timestamp : TimeValue) : option Date :=
  match timestamp with
  | TimeOfStore ts => Some (newDate (_seconds ts) (_nanoseconds ts))
  | TimeOfDate d => Some d
  | TimeUndefined | ServerTimestampSentinel => None
  end.

(** [new DonationModel({ id: doc.id, ...doc.data() })]. *)
Definition ofDoc (i : DocId) (d : Doc.t) : t :=
  {| id := Some i;
     donorCPF := Doc.donorCPF d;
     donorName := Doc.donorName d;
     donorCIM := Doc.donorCIM d;
     amount := JS.parseFloat (JS.Num (Doc.amount d));
     txId := Doc.txId d;
     locId := Doc.locId d;
     qrCode := Doc.qrCode d;
     copyPaste := Doc.copyPaste d;
     status := Doc.status d;
     createdAt := convertToDate (TimeOfStore (Doc.createdAt d)) |}.

Definition set_status (s : option string) (d : t) : t :=
  {| id := id d; donorCPF := donorCPF d; donorName := donorName d;
     donorCIM := donorCIM d; amount := amount d; txId := txId d;
     locId := locId d; qrCode := qrCode d; copyPaste := copyPaste d;
     status := s; createdAt := createdAt d |}.

Definition set_id (i : DocId) (d : t) : t :=
  {| id := Some i; donorCPF := donorCPF d; donorName := donorName d;
     donorCIM := donorCIM d; amount := amount d; txId := txId d;
     locId := locId d; qrCode := qrCode d; copyPaste := copyPaste d;
     status := status d; createdAt := createdAt d |}.

(** [dataToSave], with the instant that ends up in [createdAt]. *)
Definition dataToSave (this : t) (created : Timestamp) : Doc.t :=
  {| Doc.donorCPF := donorCPF this;
     Doc.donorName := donorName this;
     Doc.donorCIM := donorCIM this;
     Doc.amount := amount this;
     Doc.txId := txId this;
     Doc.locId := locId this;
     Doc.qrCode := qrCode this;
     Doc.copyPaste := copyPaste this;
     Doc.status := status this;
     Doc.createdAt := created |}.

(** [doc(id).set(data, { merge: true })]: every field of [data] replaces
    the stored one; the document is created when it does not exist. *)
Fixpoint set_merge (i : DocId) (data : Doc.t) (ds : list (DocId * Doc.t))
  : list (DocId * Doc.t) :=
  match ds with
  | [] => [(i, data)]
  | (j, old) :: rest =>
      if Nat.eqb j i then (j, data) :: rest
      else (j, old) :: set_merge i data rest
  end.

(** The id the store assigns to an added document: one not in use. *)
Definition fresh_id (ds : list (DocId * Doc.t)) : DocId :=
  S (fold_right Nat.max 0%nat (map fst ds)).

(** [save()]: returns [this] as the call leaves it. *)
Definition save (env : Env) (this : t) : M t :=
  let created :=
    match createdAt this with
    | Some d => Timestamp_fromDate d
    | None => serverTimestamp env
    end in
  match id this with
  | Some i =>
      let data := dataToSave this created in
      match donations_write_error env data with
      | Some msg => throw (DatabaseError ("Erro ao salvar a doação: " ++ msg))
      | None =>
          let! ds := get_donations in
          await! put_donations (set_merge i data ds) in
          ret this
      end
  | None =>
      let data := dataToSave this (serverTimestamp env) in
      match donations_write_error env data with
      | Some msg => throw (DatabaseError ("Erro ao salvar a doação: " ++ msg))
      | None =>
          let! ds := get_donations in
          let i := fresh_id ds in
          await! put_donations (ds ++ [(i, data)])%list in
          ret (set_id i this)
      end
  end.

End Donation.

(* ===================================================================== *)
(** ** service/PixService.js: the gateway client *)
(* ===================================================================== *)

Module PixService.

Record PixData := {
  amount : JS.value;
  donorCPF : string;
  donorName : option string
}.

(** The result of [createImmediatePixCharge]. [locId] and [createdAt]
    are [chargeResponse.loc] and [chargeResponse.calendario]: the left
    operand of each [||] is the one returned whenever it is truthy. *)
Record ChargeDetails := {
  txId : string;
  locId : Loc.t;
  qrCode : string;
  copyPaste : string;
  createdAt : Calendario.t
}.

(** [s.replace(/-/g, "")]. *)
Fixpoint removeDashes (s : string) : string :=
  match s with
  | String c r =>
      if Ascii.eqb c "-" then removeDashes r else String c (removeDashes r)
  | EmptyString => EmptyString
  end.

Definition typeError (property : string) : error :=
  OtherError "TypeError"
    ("Cannot read properties of undefined (reading '" ++ property ++ "')")
    false.

Definition incomplete : string :=
  "Falha ao obter dados Pix essenciais da Efí. Resposta incompleta ou inesperada.".

(** The body of the [try] once the gateway has answered. *)
Definition readChargeResponse (chargeResponse : Charge.t) : M ChargeDetails :=
  let txId := Charge.txid chargeResponse in
  match Charge.loc chargeResponse with
  | None => throw (typeError "id")
  | Some locId =>
      let qrCodeImage := Charge.location chargeResponse in
      let copyPastePix := Charge.pixCopiaECola chargeResponse in
      match Charge.calendario chargeResponse with
      | None => throw (typeError "criacao")
      | Some createdAt =>
          match txId, qrCodeImage, copyPastePix with
          | Some txId, Some qrCodeImage, Some copyPastePix =>
              if JS.falsy_string txId || JS.falsy_string qrCodeImage
                 || JS.falsy_string copyPastePix
              then throw (ExternalError incomplete)
              else ret {| txId := txId; locId := locId;
                          qrCode := qrCodeImage; copyPaste := copyPastePix;
                          createdAt := createdAt |}
          | _, _, _ => throw (ExternalError incomplete)
          end
      end
  end.

Definition createImmediatePixCharge (env : Env) (pixData : PixData)
  : M ChargeDetails :=
  let uniqueTxId := removeDashes (uuidv4 env) in
  let pixBody :=
    {| PixBody.calendario_expiracao := 3600;
       PixBody.devedor_cpf := donorCPF pixData;
       PixBody.devedor_nome := donorName pixData;
       PixBody.valor_original := JS.parseFloat (amount pixData);
       PixBody.chave := GN_PIX_KEY env;
       PixBody.solicitacaoPagador :=
         "Doação Realizada por: " ++ show (donorName pixData) |} in
  await! send_efi (PixCreateCharge uniqueTxId pixBody) in
  match efi_pixCreateCharge env uniqueTxId pixBody with
  | inl error =>
      throw (ExternalError
               ("Erro interno ao preparar Pix: "
                  ++ or_else (EfiError.message error) (EfiError.json error)))
  | inr chargeResponse =>
      try_catch (readChargeResponse chargeResponse)
        (fun error =>
           (* the message of what was thrown above is never empty *)
           throw (ExternalError
                    ("Erro interno ao preparar Pix: " ++ Errors.message error)))
  end.

Definition getPixDetails (env : Env) (txId : string) : M Charge.t :=
  await! send_efi (PixDetailCharge txId) in
  match efi_pixDetailCharge env txId with
  | inr response => ret response
  | inl error =>
      match EfiError.resp error with
      | Some r =>
          match EfiError.data r with
          | Some apiError =>
              let errorName :=
                or_else (EfiError.api_nome apiError)
                  (or_else (EfiError.api_name apiError)
                           "Erro desconhecido da API") in
              let errorDetail :=
                or_else (EfiError.api_mensagem apiError)
                  (or_else (EfiError.api_message apiError)
                           (EfiError.api_json apiError)) in
              throw (ExternalError
                       ("Erro API Efí ao consultar Pix: " ++ errorName ++ " - "
                          ++ errorDetail ++ " (Status: "
                          ++ EfiError.status r ++ ")"))
          | None =>
              throw (ExternalError
                       ("Erro inesperado ao consultar Pix: "
                          ++ or_else (EfiError.message error)
                                     "Erro desconhecido"))
          end
      | None =>
          throw (ExternalError
                   ("Erro inesperado ao consultar Pix: "
                      ++ or_else (EfiError.message error) "Erro desconhecido"))
      end
  end.

End PixService.

(* ===================================================================== *)
(** ** service/PartnerService.js: lookup by exact tax id *)
(* ===================================================================== *)

Module PartnerService.

Definition findByExactCPF (env : Env) (cpf : string) : M (option Partner.t) :=
  match partners_where_cpf env cpf with
  | inr found => ret found
  | inl error => throw (DatabaseError ("Erro ao buscar parceiro: " ++ error))
  end.

End PartnerService.

(* ===================================================================== *)
(** ** service/DonationService.js *)
(* ===================================================================== *)

(** An element of the [pix] array of an inbound notification that is not
    [null]. Only [txid] is ever read; a number, a string or a boolean has
    none. *)
Module PixPayload.
Record t := { txid : option string; status : option string }.
End PixPayload.

Module DonationService.

(** [data] as destructured by [createDonation]: each property is whatever
    the request body carried. *)
Record DonationData := {
  donorCPF : JS.value;
  amount : JS.value
}.

(** What [createDonation] hands back: presentation data of the charge. *)
Record ChargePresentation := {
  r_donorCPF : string;
  r_donorName : option string;
  r_donorCIM : option string;
  r_amount : JS.number;
  r_txId : string;
  r_locId : Loc.t;
  r_qrCode : string;
  r_copyPaste : string;
  r_status : string;
  r_createdAt : Calendario.t
}.

(** What [donorCPF.replace(...)] throws when the tax id is not a string. *)
Definition notAFunction : error :=
  OtherError "TypeError" "donorCPF.replace is not a function" false.

(** [a === b] on a string property. *)
Definition strict_eqb (a b : option string) : bool :=
  match a, b with
  | Some x, Some y => String.eqb x y
  | None, None => true
  | _, _ => false
  end.

Definition createDonation (env : Env) (data : DonationData)
  : M ChargePresentation :=
  let amount := amount data in
  if JS.falsy (donorCPF data) || JS.falsy amount
  then throw (ValidationError "Todos os campos são obrigatórios!")
  else if JS.le_zero (JS.parseFloat amount)
  then throw (ValidationError "O valor da doação deve ser maior que 0.")
  else
    match donorCPF data with
    | JS.Str donorCPF =>
        let cleanedCPF := JS.removeNonDigits donorCPF in
        if negb (Nat.eqb (String.length cleanedCPF) 11)
        then throw (ValidationError "CPF Inválido!")
        else
          let! existsPartner :=
            PartnerService.findByExactCPF env cleanedCPF in
          match existsPartner with
          | None => throw (NotFoundError "CPF não cadastrado")
          | Some existsPartner =>
              let donorName := Partner.name existsPartner in
              let donorCIM := Partner.cim existsPartner in
              try_catch
                (let! pixChargeDetails :=
                   PixService.createImmediatePixCharge env
                     {| PixService.amount := amount;
                        PixService.donorCPF := cleanedCPF;
                        PixService.donorName := donorName |} in
                 ret {| r_donorCPF := donorCPF;
                        r_donorName := donorName;
                        r_donorCIM := donorCIM;
                        r_amount := JS.parseFloat amount;
                        r_txId := PixService.txId pixChargeDetails;
                        r_locId := PixService.locId pixChargeDetails;
                        r_qrCode := PixService.qrCode pixChargeDetails;
                        r_copyPaste := PixService.copyPaste pixChargeDetails;
                        r_status := "AGUARDANDO_PAGAMENTO";
                        r_createdAt := PixService.createdAt pixChargeDetails |})
                (fun error =>
                   if isValidationError error || isDatabaseError error
                   then throw error
                   else throw (ExternalError
                                 ("Falha ao gerar cobrança Pix: "
                                    ++ Errors.toString error)))
          end
    | _ =>
        (* a number, a boolean, an object or an array has no [replace] *)
        throw notAFunction
    end.

(** The first document whose [txId] equals the one asked for. *)
Fixpoint where_txId (txId : string) (ds : list (DocId * Doc.t))
  : option (DocId * Doc.t) :=
  match ds with
  | [] => None
  | (i, d) :: rest =>
      if strict_eqb (Doc.txId d) (Some txId) then Some (i, d)
      else where_txId txId rest
  end.

Definition findByTxId (env : Env) (txId : string) : M (option Donation.t) :=
  match donations_query_error env txId with
  | Some error =>
      throw (DatabaseError ("Erro ao buscar doação por TxId: " ++ error))
  | None =>
      let! ds := get_donations in
      match where_txId txId ds with
      | Some (i, d) => ret (Some (Donation.ofDoc i d))
      | None => ret None
      end
  end.

(** The body of the [try] of [handlePixWebhook]. *)
Definition reconcile (env : Env) (txId : string) (donation : option Donation.t)
  : M (option Donation.t) :=
  let! efiChargeDetails := PixService.getPixDetails env txId in
  let officialStatus := Charge.status efiChargeDetails in
  match Charge.valor efiChargeDetails with
  | None => throw (PixService.typeError "original")
  | Some valor =>
      let valorOriginal := Valor.original valor in
      let devedorEfi := Charge.devedor efiChargeDetails in
      let isPaymentConfirmed := strict_eqb officialStatus (Some "CONCLUIDA") in
      if isPaymentConfirmed then
        match donation with
        | Some donation =>
            if negb (strict_eqb (Donation.status donation) (Some "PAGA"))
            then
              let! saved :=
                Donation.save env (Donation.set_status (Some "PAGA") donation) in
              ret (Some saved)
            else ret (Some donation)
        | None =>
            let donorCPFFromEfi :=
              match devedorEfi with Some d => Devedor.cpf d | None => None end in
            let donorNameFromEfi :=
              match devedorEfi with Some d => Devedor.nome d | None => None end in
            let amountFromEfi :=
              JS.parseFloat
                (match valorOriginal with
                 | Some s => JS.Str s
                 | None => JS.Undefined
                 end) in
            match donorCPFFromEfi with
            | Some cpf =>
                if JS.falsy_string cpf || JS.falsy_opt donorNameFromEfi
                   || JS.falsy_number amountFromEfi
                then
                  throw (ValidationError
                           ("Dados insuficientes ou inválidos da EFI para criar nova doação: "
                              ++ Devedor.stringify devedorEfi ++ " - R$ "
                              ++ show valorOriginal))
                else
                  let! existsPartner :=
                    PartnerService.findByExactCPF env cpf in
                  let donorCIM :=
                    match existsPartner with
                    | Some p =>
                        if JS.falsy_opt (Partner.cim p) then None
                        else Partner.cim p
                    | None => None
                    end in
                  let newDonation :=
                    {| Donation.id := None;
                       Donation.donorCPF := donorCPFFromEfi;
                       Donation.donorName := donorNameFromEfi;
                       Donation.donorCIM := donorCIM;
                       Donation.amount := JS.parseFloat (JS.Num amountFromEfi);
                       Donation.txId := Charge.txid efiChargeDetails;
                       Donation.locId :=
                         match Charge.loc efiChargeDetails with
                         | Some l => Loc.id l
                         | None => None
                         end;
                       Donation.qrCode := Charge.location efiChargeDetails;
                       Donation.copyPaste := Charge.pixCopiaECola efiChargeDetails;
                       Donation.status := Some "PAGA";
                       Donation.createdAt :=
                         Donation.convertToDate ServerTimestampSentinel |} in
                  let! saved := Donation.save env newDonation in
                  ret (Some saved)
            | None =>
                throw (ValidationError
                         ("Dados insuficientes ou inválidos da EFI para criar nova doação: "
                            ++ Devedor.stringify devedorEfi ++ " - R$ "
                            ++ show valorOriginal))
            end
        end
      else
        match donation with
        | Some donation =>
            if negb (strict_eqb (Donation.status donation) officialStatus)
            then
              let! saved :=
                Donation.save env (Donation.set_status officialStatus donation) in
              ret (Some saved)
            else ret (Some donation)
        | None => ret None
        end
  end.

(** The [catch] clause of [handlePixWebhook]. *)
Definition rethrow {A} (txId : string) (error : error) : M A :=
  if isValidationError error || isNotFoundError error
     || isDatabaseError error
  then throw error
  else if has_response error
  then throw (ExternalError
                ("Erro ao obter detalhes da cobrança Pix: "
                   ++ Errors.toString error))
  else throw (DatabaseError
                ("Erro inesperado ao processar transação " ++ txId)).

Definition handlePixWebhook (env : Env) (rawWebhookPayload : PixPayload.t)
  : M (option Donation.t) :=
  match PixPayload.txid rawWebhookPayload with
  | None =>
      throw (ValidationError "Id de transação ausente no payload do webhook")
  | Some txId =>
      if JS.falsy_string txId
      then throw (ValidationError "Id de transação ausente no payload do webhook")
      else
        let! donation := findByTxId env txId in
        try_catch (reconcile env txId donation) (rethrow txId)
  end.

End DonationService.

(* ===================================================================== *)
(** ** routes/Webhook.js: POST /api/webhook/pix *)
(* ===================================================================== *)

Module Webhook.

Record Response := { statusCode : Z; body : string }.

(** The three accumulators of the loop. *)
Record Tally := {
  successfulProcesses : nat;
  failedTxIds : list string;
  processedDonationsForSSE : list SSEService.Notice
}.

Definition notice (donation : Donation.t) : SSEService.Notice :=
  {| SSEService.txid := Donation.txId donation;
     SSEService.txId := None;
     SSEService.amount := None;
     SSEService.valor := Some (Donation.amount donation);
     SSEService.donorName := None;
     SSEService.infoPagador := None;
     SSEService.pagador := Donation.donorName donation;
     SSEService.createdAt := None;
     SSEService.horario := Donation.createdAt donation;
     SSEService.status := Donation.status donation |}.

(** What reading [pixPayload.txid] throws when the element is [null]. *)
Definition nullElement : error :=
  OtherError "TypeError" "Cannot read properties of null (reading 'txid')" false.

(** One turn of [for (const pixPayload of pixNotificationData)]. The
    element is [None] when it is [null]; its [txid] is read before the
    [try]. *)
Definition processOne (env : Env) (acc : Tally) (pixPayload : option PixPayload.t)
  : M Tally :=
  match pixPayload with
  | None => throw nullElement
  | Some pixPayload =>
      match PixPayload.txid pixPayload with
      | None => ret acc                               (* continue *)
      | Some txId =>
          if JS.falsy_string txId then ret acc        (* continue *)
          else
            try_catch
              (let! donation :=
                 DonationService.handlePixWebhook env pixPayload in
               let pushed :=
                 match donation with
                 | Some donation =>
                     if DonationService.strict_eqb (Donation.status donation)
                                                   (Some "PAGA")
                     then (processedDonationsForSSE acc ++ [notice donation])%list
                     else processedDonationsForSSE acc
                 | None => processedDonationsForSSE acc
                 end in
               ret {| successfulProcesses := S (successfulProcesses acc);
                      failedTxIds := failedTxIds acc;
                      processedDonationsForSSE := pushed |})
              (fun error =>
                 ret {| successfulProcesses := successfulProcesses acc;
                        failedTxIds := (failedTxIds acc ++ [txId])%list;
                        processedDonationsForSSE :=
                          processedDonationsForSSE acc |})
      end
  end.

Fixpoint processAll (env : Env) (acc : Tally) (pix : list (option PixPayload.t))
  : M Tally :=
  match pix with
  | [] => ret acc
  | pixPayload :: rest =>
      let! acc' := processOne env acc pixPayload in
      processAll env acc' rest
  end.

Definition show_nat (n : nat) : string :=
  NilZero.string_of_uint (Nat.to_uint n).

(** The text sent once the loop is over. *)
Definition summary (successes : nat) (failed : list string) : string :=
  match successes, failed with
  | S _, [] => "Pix recebido e processado com sucesso."
  | S _, _ :: _ =>
      "Pix recebido. " ++ show_nat successes
        ++ " processados com sucesso. Falha em "
        ++ show_nat (List.length failed) ++ " transações: ["
        ++ String.concat ", " failed ++ "]."
  | O, _ =>
      "Nenhuma notificação Pix válida para processamento encontrada ou todas falharam."
  end.

(** The parsed request body: [pix] is [Some l] when [req.body.pix] is an
    array, [None] when it is anything else or absent. An element of the
    array is [None] when it is [null]. *)
Record Body := { pix : option (list (option PixPayload.t)) }.

(** The handler of the route. [body] is [None] when the request carries
    no parsed body, so that [req.body] is undefined. *)
Definition postPix (env : Env) (body : option Body) : M Response :=
  try_catch
    (match body with
     | None => throw (PixService.typeError "pix")
     | Some body =>
         match pix body with
         | None | Some [] =>
             ret {| statusCode := 200;
                    body := "Nenhum dado de notificação processado." |}
         | Some pixNotificationData =>
             let! acc :=
               processAll env
                 {| successfulProcesses := 0; failedTxIds := [];
                    processedDonationsForSSE := [] |}
                 pixNotificationData in
             await!
               match processedDonationsForSSE acc with
               | [] => ret tt
               | ds => with_hub (SSEService.notifyDonationPaid ds)
               end in
             ret {| statusCode := 200;
                    body := summary (successfulProcesses acc) (failedTxIds acc) |}
         end
     end)
    (fun error =>
       ret {| statusCode := 500;
              body := "Erro interno ao processar o webhook." |}).

End Webhook.

(* ===================================================================== *)
(** ** Runs of the system *)
(* ===================================================================== *)

(** What can happen to the process, each with the oracles in force while it
    is served. A run serves its requests one at a time: each is served to
    its end before the next event ([overlapped] below is the other case). *)
Inductive Event :=
| CreateDonation (env : Env) (data : DonationService.DonationData)
| PixWebhook (env : Env) (payload : PixPayload.t)
| PostPix (env : Env) (body : option Webhook.Body)
| Subscribe (txId : string) (conn : SSEService.ConnId)
| Disconnect (conn : SSEService.ConnId).

Definition step (w : World) (ev : Event) : World :=
  match ev with
  | CreateDonation env data => snd (DonationService.createDonation env data w)
  | PixWebhook env payload => snd (DonationService.handlePixWebhook env payload w)
  | PostPix env body => snd (Webhook.postPix env body w)
  | Subscribe txId conn => snd (with_hub (SSEService.addClient txId conn) w)
  | Disconnect conn => snd (with_hub (SSEService.close conn) w)
  end.

Definition run (w : World) (trace : list Event) : World :=
  fold_left step trace w.

Definition initial : World :=
  {| donations := []; efi_requests := []; hub := SSEService.empty |}.

(** The elements of a batch the loop gets to: those before the first
    [null]. *)
Fixpoint reached (pix : list (option PixPayload.t)) : list PixPayload.t :=
  match pix with
  | Some payload :: rest => payload :: reached rest
  | _ => []
  end.

(** The transaction id of a notification, when it has a truthy one. *)
Definition truthy_txid (payload : PixPayload.t) : option string :=
  match PixPayload.txid payload with
  | Some t => if JS.falsy_string t then None else Some t
  | None => None
  end.

(** The transaction ids a trace has delivered a notification for, whether
    to the handler directly or inside a batch. *)
Definition webhook_txids (ev : Event) : list string :=
  match ev with
  | PixWebhook _ payload => omap truthy_txid [payload]
  | PostPix _ (Some {| Webhook.pix := Some pix |}) =>
      omap truthy_txid (reached pix)
  | _ => []
  end.

Definition observed (trace : list Event) : list string :=
  concat (map webhook_txids trace).

(** The gateway answers a detail request with the charge that was asked
    for. *)
Definition faithful (env : Env) : Prop :=
  forall txId charge,
    efi_pixDetailCharge env txId = inr charge ->
    Charge.txid charge = Some txId.

Definition env_of (ev : Event) : option Env :=
  match ev with
  | CreateDonation env _ | PixWebhook env _ | PostPix env _ => Some env
  | _ => None
  end.

(** The stored documents carrying transaction id [txId]. *)
Definition rows_of (txId : string) (w : World) : list (DocId * Doc.t) :=
  filter (fun r => Doc.txId (snd r) = Some txId) (donations w).

(* ===================================================================== *)
(** ** Charge-creation preconditions *)
(* ===================================================================== *)

(** The input [createDonation] rejects: a missing (falsy) tax id or amount,
    an amount that reads as a number [<= 0], or a tax id whose digits are
    not eleven. *)
Definition invalid_input (data : DonationService.DonationData) : Prop :=
  JS.falsy (DonationService.donorCPF data) = true
  \/ JS.falsy (DonationService.amount data) = true
  \/ JS.le_zero (JS.parseFloat (DonationService.amount data)) = true
  \/ exists cpf, DonationService.donorCPF data = JS.Str cpf
                 /\ String.length (JS.removeNonDigits cpf) <> 11%nat.

(* ===================================================================== *)
(** ** Sample data: the end-to-end scenario *)
(* ===================================================================== *)

Module Sample.

Definition jane : Partner.t :=
  {| Partner.id := 1%nat;
     Partner.cpf := Some "12345678901";
     Partner.name := Some "Jane Doe";
     Partner.cim := Some "4321" |}.

Definition charge (txid status : string) : Charge.t :=
  {| Charge.txid := Some txid;
     Charge.status := Some status;
     Charge.valor := Some {| Valor.original := Some "50.00" |};
     Charge.devedor :=
       Some {| Devedor.cpf := Some "12345678901";
               Devedor.nome := Some "Jane Doe" |};
     Charge.loc := Some {| Loc.id := Some 7 |};
     Charge.location := Some "qrcodes.example/abc123";
     Charge.pixCopiaECola := Some "00020101021226";
     Charge.calendario :=
       Some {| Calendario.criacao := Some "2023-11-14T22:13:20Z" |} |}.

(** A paid charge whose answer has no [valor] object at all. *)
Definition charge_without_valor (txid : string) : Charge.t :=
  {| Charge.txid := Some txid;
     Charge.status := Some "CONCLUIDA";
     Charge.valor := None;
     Charge.devedor :=
       Some {| Devedor.cpf := Some "12345678901";
               Devedor.nome := Some "Jane Doe" |};
     Charge.loc := Some {| Loc.id := Some 7 |};
     Charge.location := Some "qrcodes.example/abc123";
     Charge.pixCopiaECola := Some "00020101021226";
     Charge.calendario := None |}.

(** A paid charge whose amount reads as zero. *)
Definition charge_of_amount (txid amount : string) : Charge.t :=
  {| Charge.txid := Some txid;
     Charge.status := Some "CONCLUIDA";
     Charge.valor := Some {| Valor.original := Some amount |};
     Charge.devedor :=
       Some {| Devedor.cpf := Some "12345678901";
               Devedor.nome := Some "Jane Doe" |};
     Charge.loc := Some {| Loc.id := Some 7 |};
     Charge.location := Some "qrcodes.example/abc123";
     Charge.pixCopiaECola := Some "00020101021226";
     Charge.calendario := None |}.

Definition timeout : EfiError.t :=
  {| EfiError.resp := None;
     EfiError.message := Some "connect ETIMEDOUT";
     EfiError.json := "{}" |}.

(** Oracles under which the store and the registry work, the registry
    knows Jane, and the gateway answers detail requests with [detail]. *)
Definition env (detail : string -> EfiError.t + Charge.t) : Env :=
  {| efi_pixDetailCharge := detail;
     efi_pixCreateCharge := fun txid _ => inr (charge txid "ATIVA");
     uuidv4 := "3f2b8c1e-9d4a-4c6f-8e2b-7a1d5c9e0f34";
     GN_PIX_KEY := Some "chave-pix";
     partners_where_cpf :=
       fun cpf => inr (if String.eqb cpf "12345678901" then Some jane else None);
     donations_query_error := fun _ => None;
     donations_write_error := fun _ => None;
     serverTimestamp :=
       {| _seconds := 1700000000; _nanoseconds := 123456000 |} |}.

Definition paid : Env := env (fun txid => inr (charge txid "CONCLUIDA")).
Definition active : Env := env (fun txid => inr (charge txid "ATIVA")).
Definition down : Env := env (fun _ => inl timeout).

Definition payload (txid : string) : PixPayload.t :=
  {| PixPayload.txid := Some txid; PixPayload.status := None |}.

(** A stored donation still awaiting payment, created at an instant with
    microseconds, as the store's clock gives them. *)
Definition pending : Doc.t :=
  {| Doc.donorCPF := Some "12345678901";
     Doc.donorName := Some "Jane Doe";
     Doc.donorCIM := Some "4321";
     Doc.amount := JS.Finite 5000 (-2);
     Doc.txId := Some "abc123";
     Doc.locId := Some 7;
     Doc.qrCode := Some "qrcodes.example/abc123";
     Doc.copyPaste := Some "00020101021226";
     Doc.status := Some "AGUARDANDO_PAGAMENTO";
     Doc.createdAt := {| _seconds := 1700000000; _nanoseconds := 123456000 |} |}.

Definition store_with_pending : World :=
  {| donations := [(1%nat, pending)]; efi_requests := [];
     hub := SSEService.empty |}.

End Sample.

(* ===================================================================== *)
(** ** Vocabulary of the statements, and the scenarios they are tried on *)
(* ===================================================================== *)

(** The world once a request has left for the gateway. *)
Definition sent (r : EfiRequest) (w : World) : World := snd (send_efi r w).

(** The donation model read back from what [findByTxId] finds. *)
Definition found (txId : string) (w : World) : option Donation.t :=
  match DonationService.where_txId txId (donations w) with
  | Some (i, d) => Some (Donation.ofDoc i d)
  | None => None
  end.

Ltac unfold_async :=
  unfold sent, bind, try_catch, ret, throw, get_donations, put_donations,
    send_efi in *.

(** The payer's tax id and name in a gateway answer ([devedor?.cpf],
    [devedor?.nome]) and the amount read from it ([parseFloat] of
    [valor.original]). *)
Definition payer_cpf (charge : Charge.t) : option string :=
  match Charge.devedor charge with Some d => Devedor.cpf d | None => None end.

Definition payer_name (charge : Charge.t) : option string :=
  match Charge.devedor charge with Some d => Devedor.nome d | None => None end.

Definition reported_amount (valor : Valor.t) : JS.number :=
  JS.parseFloat
    (match Valor.original valor with Some s => JS.Str s | None => JS.Undefined end).

(** A double holds the integer [z]. *)
Definition holds (x : Double.t) (z : Z) : Prop :=
  0 < Double.den x /\ Double.num x = z * Double.den x.

(** The time values a [Date] can have. *)
Definition valid_date (d : Date) : Prop :=
  - 8640000000000000 <= d <= 8640000000000000.

(** The instants the store can hold: from year 1 to year 9999. *)
Definition store_timestamp (t : Timestamp) : Prop :=
  - 62135596800 <= _seconds t <= 253402300799
  /\ 0 <= _nanoseconds t <= 999999999.

(** The stored documents other than the one with id [i]. *)
Definition others (i : DocId) (ds : list (DocId * Doc.t)) : list (DocId * Doc.t) :=
  filter (fun r => fst r <> i) ds.

(** A request body holding the one notification [payload]. *)
Definition single (payload : PixPayload.t) : option Webhook.Body :=
  Some {| Webhook.pix := Some [Some payload] |}.

(** The replay scenario: connection 1 waits on "abc123", then the confirmed
    notification is posted, and posted again. *)
Definition subscribed : World := step initial (Subscribe "abc123" 1%nat).

Definition after_first_post : World :=
  snd (Webhook.postPix Sample.paid (single (Sample.payload "abc123")) subscribed).

Definition after_second_post : World :=
  snd (Webhook.postPix Sample.paid (single (Sample.payload "abc123"))
         after_first_post).

(** The document the first post creates. *)
Definition materialized : Doc.t :=
  {| Doc.donorCPF := Some "12345678901";
     Doc.donorName := Some "Jane Doe";
     Doc.donorCIM := Some "4321";
     Doc.amount := JS.Finite 5000 (-2);
     Doc.txId := Some "abc123";
     Doc.locId := Some 7;
     Doc.qrCode := Some "qrcodes.example/abc123";
     Doc.copyPaste := Some "00020101021226";
     Doc.status := Some "PAGA";
     Doc.createdAt := {| _seconds := 1700000000; _nanoseconds := 123456000 |} |}.

(** Requests for a charge: by Jane, writing her tax id with punctuation, and
    by someone the registry does not know. *)
Definition request_of_jane : DonationService.DonationData :=
  {| DonationService.donorCPF := JS.Str "123.456.789-01";
     DonationService.amount := JS.Str "50.00" |}.


(** Two connections wait on the same transaction, the second replacing the
    first in the registry; then the first one disconnects. *)
Definition two_subscribers : SSEService.Hub :=
  SSEService.addClient "abc123" 2%nat
    (SSEService.addClient "abc123" 1%nat SSEService.empty).

Definition first_disconnected : SSEService.Hub :=
  SSEService.close 1%nat two_subscribers.

(** What the interface promises for a batch, stated on its own: every
    element that carries a transaction id is handed to the reconciliation
    handler, in order and from the world the previous ones left, whether
    those succeeded or not; an element without one is passed over. Each
    outcome is the transaction id with [true] for success. *)
Fixpoint outcomes (env : Env) (pix : list PixPayload.t) (w : World)
  : list (string * bool) :=
  match pix with
  | [] => []
  | payload :: rest =>
      match truthy_txid payload with
      | None => outcomes env rest w
      | Some txId =>
          let '(r, w') := DonationService.handlePixWebhook env payload w in
          (txId, match r with Return _ => true | Throw _ => false end)
            :: outcomes env rest w'
      end
  end.

Definition succeeded (os : list (string * bool)) : nat :=
  List.length (filter (fun o => snd o = true) os).

Definition failures (os : list (string * bool)) : list string :=
  map fst (filter (fun o => snd o = false) os).

(** The world once the notifications [pix] were handled one after the
    other, and the notices of those whose handling returned a paid
    donation. *)
Fixpoint handled (env : Env) (pix : list PixPayload.t) (w : World) : World :=
  match pix with
  | [] => w
  | payload :: rest =>
      match truthy_txid payload with
      | None => handled env rest w
      | Some _ =>
          handled env rest (snd (DonationService.handlePixWebhook env payload w))
      end
  end.

Fixpoint paid_notices (env : Env) (pix : list PixPayload.t) (w : World)
  : list SSEService.Notice :=
  match pix with
  | [] => []
  | payload :: rest =>
      match truthy_txid payload with
      | None => paid_notices env rest w
      | Some _ =>
          let '(r, w') := DonationService.handlePixWebhook env payload w in
          match r with
          | Return (Some donation) =>
              if DonationService.strict_eqb (Donation.status donation) (Some "PAGA")
              then Webhook.notice donation :: paid_notices env rest w'
              else paid_notices env rest w'
          | _ => paid_notices env rest w'
          end
      end
  end.

(** The world once the hub was told of [notices], if there are any. *)
Definition notified (notices : list SSEService.Notice) (w : World) : World :=
  match notices with
  | [] => w
  | _ => {| donations := donations w;
            efi_requests := efi_requests w;
            hub := SSEService.notifyDonationPaid notices (hub w) |}
  end.

(** The tally of the loop once [pix] was gone through from [w]. *)
Definition tallied (env : Env) (acc : Webhook.Tally) (pix : list PixPayload.t)
    (w : World) : Webhook.Tally :=
  {| Webhook.successfulProcesses :=
       (Webhook.successfulProcesses acc + succeeded (outcomes env pix w))%nat;
     Webhook.failedTxIds :=
       (Webhook.failedTxIds acc ++ failures (outcomes env pix w))%list;
     Webhook.processedDonationsForSSE :=
       (Webhook.processedDonationsForSSE acc ++ paid_notices env pix w)%list |}.

(** A batch of three: a notification that cannot be reconciled (the gateway
    answers without an amount object), an element without a transaction id,
    and a good one. *)
Definition mixed_env : Env :=
  Sample.env (fun txid =>
                if String.eqb txid "bad"
                then inr (Sample.charge_without_valor txid)
                else inr (Sample.charge txid "CONCLUIDA")).

Definition mixed_batch : list PixPayload.t :=
  [Sample.payload "bad";
   {| PixPayload.txid := None; PixPayload.status := Some "CONCLUIDA" |};
   Sample.payload "abc123"].

(** Every stored document carries a transaction id, and one among [seen]. *)
Definition all_rows_seen (seen : list string) (ds : list (DocId * Doc.t)) : Prop :=
  forall i d, In (i, d) ds -> exists txId, Doc.txId d = Some txId /\ In txId seen.

(** A notification whose charge is still active, for which nothing is
    stored. *)
Definition unpaid_trace : list Event :=
  [PixWebhook Sample.active (Sample.payload "abc123")].

(** Jane asks for a charge, waits on it, and the payment is confirmed. *)
Definition paid_trace : list Event :=
  [CreateDonation Sample.paid request_of_jane;
   Subscribe "abc123" 1%nat;
   PostPix Sample.paid (single (Sample.payload "abc123"))].

(* ===================================================================== *)
(** ** Further vocabulary: materialization, uniqueness, the hub's health *)
(* ===================================================================== *)

(** [existsPartner && existsPartner.cim ? existsPartner.cim : null]. *)
Definition registry_ref (found : option Partner.t) : option string :=
  match found with
  | Some p => if JS.falsy_opt (Partner.cim p) then None else Partner.cim p
  | None => None
  end.

(** The document a confirmed payment without a record is expected to leave:
    the gateway's fields, the registry reference, the completed status and
    the instant of the store's clock. *)
Definition expected_doc (env : Env) (charge : Charge.t) (valor : Valor.t)
    (partner : option Partner.t) : Doc.t :=
  {| Doc.donorCPF := payer_cpf charge;
     Doc.donorName := payer_name charge;
     Doc.donorCIM := registry_ref partner;
     Doc.amount := reported_amount valor;
     Doc.txId := Charge.txid charge;
     Doc.locId := match Charge.loc charge with Some l => Loc.id l | None => None end;
     Doc.qrCode := Charge.location charge;
     Doc.copyPaste := Charge.pixCopiaECola charge;
     Doc.status := Some "PAGA";
     Doc.createdAt := serverTimestamp env |}.

(** The donation model a confirmed payment without a record is built
    into, before it is saved. *)
Definition new_donation (charge : Charge.t) (valor : Valor.t)
    (partner : option Partner.t) : Donation.t :=
  {| Donation.id := None;
     Donation.donorCPF := payer_cpf charge;
     Donation.donorName := payer_name charge;
     Donation.donorCIM := registry_ref partner;
     Donation.amount := reported_amount valor;
     Donation.txId := Charge.txid charge;
     Donation.locId :=
       match Charge.loc charge with Some l => Loc.id l | None => None end;
     Donation.qrCode := Charge.location charge;
     Donation.copyPaste := Charge.pixCopiaECola charge;
     Donation.status := Some "PAGA";
     Donation.createdAt := None |}.

(** Two deliveries of the notification for [txId] (a transaction id that
    passed the handler's check) served at the same time. The handler awaits
    between its lookup and its write, and nothing makes the two one step:
    here both lookups are answered before either call goes on, and then
    each call runs to its end. *)
Definition overlapped (env : Env) (txId : string)
  : M (option Donation.t * option Donation.t) :=
  let! first := DonationService.findByTxId env txId in
  let! second := DonationService.findByTxId env txId in
  let! a :=
    try_catch (DonationService.reconcile env txId first)
              (DonationService.rethrow txId) in
  let! b :=
    try_catch (DonationService.reconcile env txId second)
              (DonationService.rethrow txId) in
  ret (a, b).

(** A stored document with another status and its instant in milliseconds,
    as a status update writes it back. *)
Definition restamped (status : option string) (d : Doc.t) : Doc.t :=
  {| Doc.donorCPF := Doc.donorCPF d;
     Doc.donorName := Doc.donorName d;
     Doc.donorCIM := Doc.donorCIM d;
     Doc.amount := Doc.amount d;
     Doc.txId := Doc.txId d;
     Doc.locId := Doc.locId d;
     Doc.qrCode := Doc.qrCode d;
     Doc.copyPaste := Doc.copyPaste d;
     Doc.status := status;
     Doc.createdAt :=
       Timestamp_fromDate
         (newDate (_seconds (Doc.createdAt d)) (_nanoseconds (Doc.createdAt d))) |}.

(** The ids of the stored documents, and the transaction ids they carry. *)
Definition ids (ds : list (DocId * Doc.t)) : list DocId := map fst ds.

Definition txids (ds : list (DocId * Doc.t)) : list string :=
  omap (fun r => Doc.txId (snd r)) ds.

(** No two documents share an id, and no two carry the same transaction. *)
Definition one_row_per_transaction (ds : list (DocId * Doc.t)) : Prop :=
  NoDup (ids ds) /\ NoDup (txids ds).

(** The gateway requests a notification gives rise to. *)
Definition detail_requests (env : Env) (payload : PixPayload.t) : list EfiRequest :=
  match truthy_txid payload with
  | Some txId =>
      match donations_query_error env txId with
      | None => [PixDetailCharge txId]
      | Some _ => []
      end
  | None => []
  end.


(** The confirmed payment of Jane, then the same notification delivered
    twice more, by the endpoint and to the handler. *)
Definition redelivered_trace : list Event :=
  (paid_trace
     ++ [PostPix Sample.paid (single (Sample.payload "abc123"));
         PixWebhook Sample.paid (Sample.payload "abc123")])%list.

(** The timer a close listener captured. *)
Definition listener_timer (l : SSEService.ConnId * (string * SSEService.TimerId))
  : SSEService.TimerId := snd (snd l).

(** A hub in good order: every registered entry was put there by a
    subscription whose listener is still known and whose keep-alive timer is
    running and pings the entry's own connection; timers are handed out in
    increasing order and never twice. *)
Definition hub_healthy (h : SSEService.Hub) : Prop :=
  (forall k c t,
      SSEService.clients h !! k
      = Some {| SSEService.res := c; SSEService.keepAlive := t |} ->
      In (c, (k, t)) (SSEService.listeners h)
      /\ SSEService.intervals h !! t = Some c)
  /\ (forall l, In l (SSEService.listeners h) ->
                (listener_timer l < SSEService.nextTimer h)%nat)
  /\ (forall t c, SSEService.intervals h !! t = Some c ->
                  (t < SSEService.nextTimer h)%nat)
  /\ NoDup (map listener_timer (SSEService.listeners h)).

(** A chunk written by a notification is addressed to [conn] on behalf of
    one of the [notices] when [conn] is what the registry [h] holds under
    that notice's transaction id. *)
Definition addressed (h : SSEService.Hub) (notices : list SSEService.Notice)
    (conn : SSEService.ConnId) : Prop :=
  exists notice k client,
    In notice notices
    /\ SSEService.txid notice = Some k
    /\ SSEService.clients h !! k = Some client
    /\ SSEService.res client = conn.

(** What the endpoint makes of a paid donation when it tells the hub. *)
Definition router_event (d : SSEService.DonationPaid) : Prop :=
  SSEService.ev_txid d = None
  /\ SSEService.ev_pagador d = "Desconhecido"
  /\ SSEService.ev_status d = Some "PAGA".

(** Sample notices: for "abc123" and for a transaction nobody waits on. *)
Definition notice_for (txid : string) : SSEService.Notice :=
  {| SSEService.txid := Some txid;
     SSEService.txId := None;
     SSEService.amount := None;
     SSEService.valor := Some (JS.Finite 5000 (-2));
     SSEService.donorName := None;
     SSEService.infoPagador := None;
     SSEService.pagador := Some "Jane Doe";
     SSEService.createdAt := None;
     SSEService.horario := None;
     SSEService.status := Some "PAGA" |}.

(** Connection 1 waits on "abc123", connection 2 on "xyz789". *)
Definition two_transactions : SSEService.Hub :=
  SSEService.addClient "xyz789" 2%nat
    (SSEService.addClient "abc123" 1%nat SSEService.empty).

(** A notice as the endpoint builds it from a paid donation. *)
Definition router_built (n : SSEService.Notice) : Prop :=
  exists donation,
    Donation.status donation = Some "PAGA" /\ n = Webhook.notice donation.

(** A chunk the endpoint causes to be written: the event line, or the data
    of a [router_event]. *)
Definition router_chunk (w : SSEService.ConnId * SSEService.Chunk) : Prop :=
  snd w = SSEService.EventLine
  \/ exists d, snd w = SSEService.EventData d /\ router_event d.

(** Clients come and go while payments are confirmed. *)
Definition busy_trace : list Event :=
  [Subscribe "abc123" 1%nat;
   Subscribe "abc123" 2%nat;
   Disconnect 1%nat;
   Subscribe "xyz789" 3%nat;
   PostPix Sample.paid (single (Sample.payload "xyz789"))].

(** The body of the request [createImmediatePixCharge] sends for
    [pixData], the request itself, and what the gateway answers to it. *)
Definition charge_body (env : Env) (pixData : PixService.PixData) : PixBody.t :=
  {| PixBody.calendario_expiracao := 3600;
     PixBody.devedor_cpf := PixService.donorCPF pixData;
     PixBody.devedor_nome := PixService.donorName pixData;
     PixBody.valor_original := JS.parseFloat (PixService.amount pixData);
     PixBody.chave := GN_PIX_KEY env;
     PixBody.solicitacaoPagador :=
       "Doação Realizada por: " ++ show (PixService.donorName pixData) |}.

Definition charge_request (env : Env) (pixData : PixService.PixData) : EfiRequest :=
  PixCreateCharge (PixService.removeDashes (uuidv4 env)) (charge_body env pixData).

Definition charge_answer (env : Env) (pixData : PixService.PixData)
  : EfiError.t + Charge.t :=
  efi_pixCreateCharge env (PixService.removeDashes (uuidv4 env))
    (charge_body env pixData).

(** A gateway answer has what a charge needs: a transaction id, a location
    object, the QR code's address, the copy-and-paste text and a calendar
    object. *)
Definition complete_answer (c : Charge.t) : Prop :=
  JS.falsy_opt (Charge.txid c) = false
  /\ Charge.loc c <> None
  /\ JS.falsy_opt (Charge.location c) = false
  /\ JS.falsy_opt (Charge.pixCopiaECola c) = false
  /\ Charge.calendario c <> None.

(** No character of [s] is a dash. *)
Fixpoint dash_free (s : string) : bool :=
  match s with
  | String c r => negb (Ascii.eqb c "-") && dash_free r
  | EmptyString => true
  end.

(** The charge data for Jane's request. *)
Definition pix_data_of_jane : PixService.PixData :=
  {| PixService.amount := JS.Str "50.00";
     PixService.donorCPF := "12345678901";
     PixService.donorName := Some "Jane Doe" |}.


(* ===================================================================== *)
(** ** middleware/ErrorHandler.js, the last handler of app.js, and
       routes/DonationRoutes.js: POST /doacoes/gerar *)
(* ===================================================================== *)

Module ErrorHandler.

(** The JSON an error handler answers with. *)
Record ErrorJson := {
  message : string;
  code : option string
}.

Record Response := { statusCode : Z; json : ErrorJson }.

(** [errorHandler]: the four classes answer with their own [statusCode],
    [message] and [name]; anything else is an anonymous 500. *)
Definition errorHandler (err : error) : Response :=
  match err, Errors.statusCode err with
  | NotFoundError _, Some status
  | ValidationError _, Some status
  | DatabaseError _, Some status
  | ExternalError _, Some status =>
      {| statusCode := status;
         json := {| message := Errors.message err;
                    code := Some (Errors.name err) |} |}
  | _, _ =>
      {| statusCode := 500;
         json :=
           {| message :=
                "Ocorreu um erro inesperado no servidor. Por favor, tente novamente mais tarde.";
              code := Some "InternalServerError" |} |}
  end.


End ErrorHandler.

Module DonationRoutes.

(** The JSON of a created charge. [value] is the amount as the request
    wrote it. *)
Record Created := {
  donorName : option string;
  donorCIM : option string;
  value : JS.value;
  txId : string;
  qrCode : string;
  copyPaste : string
}.

(** What the route does with a request: it answers, or it passes an error
    on with [next(error)]. *)
Inductive Outcome :=
| Responded (status : Z) (body : Created)
| Next (error : error).

(** What [const { donorCPF, amount } = req.body] throws when [req.body] is
    undefined. *)
Definition cannotDestructure : error :=
  OtherError "TypeError"
    "Cannot destructure property 'donorCPF' of 'req.body' as it is undefined."
    false.

(** [router.post("/gerar", ...)]. [body] is [None] when the request has no
    parsed body. *)
Definition postGerar (env : Env) (body : option DonationService.DonationData)
  : M Outcome :=
  try_catch
    (match body with
     | None => throw cannotDestructure
     | Some body =>
         let donorCPF := DonationService.donorCPF body in
         let amount := DonationService.amount body in
         let! pixDetails :=
           DonationService.createDonation env
             {| DonationService.donorCPF := donorCPF;
                DonationService.amount := amount |} in
         ret (Responded 201
                {| donorName := DonationService.r_donorName pixDetails;
                   donorCIM := DonationService.r_donorCIM pixDetails;
                   value := amount;
                   txId := DonationService.r_txId pixDetails;
                   qrCode := DonationService.r_qrCode pixDetails;
                   copyPaste := DonationService.r_copyPaste pixDetails |})
     end)
    (fun error => ret (Next error)).

(** The status the client sees, when the error passed on is served by
    [handler]. *)
Definition status (handler : error -> ErrorHandler.Response) (o : Outcome) : Z :=
  match o with
  | Responded status _ => status
  | Next error => ErrorHandler.statusCode (handler error)
  end.

End DonationRoutes.



(* ===================================================================== *)
(** ** service/DonationService.js: searching the donations *)
(* ===================================================================== *)

Module DonationSearch.

(** [s.trim()]: white space and line terminators removed at both ends. *)
Fixpoint trimEnd (s : string) : string :=
  match s with
  | String c r =>
      match trimEnd r with
      | EmptyString => if JS.is_space c then EmptyString else String c EmptyString
      | r' => String c r'
      end
  | EmptyString => EmptyString
  end.

Definition trim (s : string) : string := trimEnd (JS.trimStart s).

(** [hay.includes(needle)]. *)
Fixpoint includes (hay needle : string) : bool :=
  String.prefix needle hay
  || match hay with
     | String _ r => includes r needle
     | EmptyString => false
     end.

(** [s.toLowerCase()], on the letters A to Z. *)
Definition lower (c : ascii) : ascii :=
  let n := nat_of_ascii c in
  if (65 <=? n)%nat && (n <=? 90)%nat then ascii_of_nat (n + 32) else c.

Fixpoint toLowerCase (s : string) : string :=
  match s with
  | String c r => String (lower c) (toLowerCase r)
  | EmptyString => EmptyString
  end.

(** [a] comes before [b] under [orderBy("createdAt", "desc")]: the later
    instant first, and for equal instants the greater document id. *)
Definition before (a b : DocId * Doc.t) : bool :=
  let ta := Doc.createdAt (snd a) in
  let tb := Doc.createdAt (snd b) in
  (_seconds tb <? _seconds ta)
  || ((_seconds tb =? _seconds ta)
      && ((_nanoseconds tb <? _nanoseconds ta)
          || ((_nanoseconds tb =? _nanoseconds ta) && (fst b <? fst a)%nat))).

Fixpoint place (x : DocId * Doc.t) (l : list (DocId * Doc.t))
  : list (DocId * Doc.t) :=
  match l with
  | [] => [x]
  | y :: r => if before x y then x :: y :: r else y :: place x r
  end.

Definition orderByCreatedAtDesc (ds : list (DocId * Doc.t))
  : list (DocId * Doc.t) :=
  fold_right place [] ds.

(** [db.collection("donations").orderBy("createdAt", "desc").get()]; the
    methods below do not catch what the query throws. *)
Definition scan (scan_error : option error) : M (list (DocId * Doc.t)) :=
  match scan_error with
  | Some error => throw error
  | None => let! ds := get_donations in ret (orderByCreatedAtDesc ds)
  end.

(** [field && field.includes(term)] as a condition. *)
Definition field_includes (field : option string) (term : string) : bool :=
  match field with
  | Some s => negb (JS.falsy_string s) && includes s term
  | None => false
  end.

Definition models (rows : list (DocId * Doc.t)) : list Donation.t :=
  map (fun r => Donation.ofDoc (fst r) (snd r)) rows.

Definition matchesCIM (searchCIM : string) (r : DocId * Doc.t) : bool :=
  field_includes (Doc.donorCIM (snd r)) searchCIM.

Definition matchesCPF (searchCPF : string) (r : DocId * Doc.t) : bool :=
  field_includes (Doc.donorCPF (snd r)) searchCPF.

Definition matchesName (searchName : string) (r : DocId * Doc.t) : bool :=
  match Doc.donorName (snd r) with
  | Some s => negb (JS.falsy_string s) && includes (toLowerCase s) searchName
  | None => false
  end.

Definition findByDonorCIM (scan_error : option error) (donorCIM : string)
  : M (list Donation.t) :=
  let! snapshot := scan scan_error in
  let searchCIM := trim donorCIM in
  ret (models (List.filter (matchesCIM searchCIM) snapshot)).

Definition findByDonorCPF (scan_error : option error) (donorCPF : string)
  : M (list Donation.t) :=
  let! snapshot := scan scan_error in
  let searchCPF := trim donorCPF in
  ret (models (List.filter (matchesCPF searchCPF) snapshot)).

Definition findByDonorName (scan_error : option error) (donorName : string)
  : M (list Donation.t) :=
  let! snapshot := scan scan_error in
  let searchName := trim (toLowerCase donorName) in
  ret (models (List.filter (matchesName searchName) snapshot)).

(** [array.slice(start, end)] for integers [start] and [end]: a negative
    index counts from the end. *)
Definition relative (k : Z) (len : nat) : nat :=
  if k <? 0 then Z.to_nat (Z.max (Z.of_nat len + k) 0)
  else Nat.min (Z.to_nat k) len.

Definition slice {A} (l : list A) (start stop : Z) : list A :=
  let k := relative start (List.length l) in
  let final := relative stop (List.length l) in
  firstn (final - k) (skipn k l).

(** [Math.ceil(a / b)] for integers. *)
Definition ceil_div (a b : Z) : JS.number :=
  if b =? 0 then (if a =? 0 then JS.NaN else JS.Infinity (a <? 0))
  else JS.Finite (- ((- a) / b)) 0.

Record Page := {
  donations : list Donation.t;
  currentPage : Z;
  totalPages : JS.number;
  totalResults : nat
}.

(** [searchDonations(searchTerm, page, limit)], [page] and [limit] being
    integers. *)
Definition searchDonations (scan_error : option error) (searchTerm : string)
    (page limit : Z) : M Page :=
  let trimmedSearchTerm := trim searchTerm in
  if JS.falsy_string trimmedSearchTerm
  then throw (ValidationError "O termo de busca não pode ser vazio")
  else
    let offset := (Z.max 1 page - 1) * limit in
    let foundDonations : list Donation.t := [] in
    let! donationByDonorCIM := findByDonorCIM scan_error trimmedSearchTerm in
    let foundDonations :=
      match donationByDonorCIM with
      | [] => foundDonations
      | _ => slice donationByDonorCIM offset (offset + limit)
      end in
    let! foundDonations :=
      match foundDonations with
      | [] =>
          let! donationByDonorCPF := findByDonorCPF scan_error trimmedSearchTerm in
          match donationByDonorCPF with
          | [] => ret foundDonations
          | _ => ret (slice donationByDonorCPF offset (offset + limit))
          end
      | _ => ret foundDonations
      end in
    let! foundDonations :=
      match foundDonations with
      | [] =>
          let! donationByDonorName :=
            findByDonorName scan_error trimmedSearchTerm in
          match donationByDonorName with
          | [] => ret foundDonations
          | _ => ret (slice donationByDonorName offset (offset + limit))
          end
      | _ => ret foundDonations
      end in
    let totalFound := List.length foundDonations in
    let totalPages := ceil_div (Z.of_nat totalFound) limit in
    ret {| donations := foundDonations;
           currentPage := page;
           totalPages := totalPages;
           totalResults := totalFound |}.

End DonationSearch.

(** Every character of [s] is white space. *)
Fixpoint blank (s : string) : bool :=
  match s with
  | String c r => JS.is_space c && blank r
  | EmptyString => true
  end.

(** A stored document matches a search term: its registry reference or its
    tax id contains the term, or its name does, whatever the case of the
    letters. *)
Definition matches (term : string) (r : DocId * Doc.t) : Prop :=
  DonationSearch.matchesCIM term r = true
  \/ DonationSearch.matchesCPF term r = true
  \/ DonationSearch.matchesName (DonationSearch.trim (DonationSearch.toLowerCase term)) r
     = true.

(** Three donations of Jane and one of John, newest last in the store. *)
Definition donation_at (seconds : Z) (name cim : string) : Doc.t :=
  {| Doc.donorCPF := Some "12345678901";
     Doc.donorName := Some name;
     Doc.donorCIM := Some cim;
     Doc.amount := JS.Finite 5000 (-2);
     Doc.txId := None;
     Doc.locId := None;
     Doc.qrCode := None;
     Doc.copyPaste := None;
     Doc.status := Some "PAGA";
     Doc.createdAt := {| _seconds := seconds; _nanoseconds := 0 |} |}.

Definition ledger : World :=
  {| donations :=
       [(1%nat, donation_at 1700000100 "Jane Doe" "4321");
        (2%nat, donation_at 1700000200 "John Roe" "8765");
        (3%nat, donation_at 1700000300 "Jane Doe" "4321");
        (4%nat, donation_at 1700000400 "Jane Doe" "4321")];
     efi_requests := [];
     hub := SSEService.empty |}.

(** [a] is not later than [b] in the order of the scan. *)
Definition not_after (a b : DocId * Doc.t) : Prop :=
  DonationSearch.before b a = false.

Definition newest_first (rows : list (DocId * Doc.t)) : Prop :=
  StronglySorted not_after rows.

(** All of [rows] match [term] by one and the same field. *)
Definition same_criterion (term : string) (rows : list (DocId * Doc.t)) : Prop :=
  Forall (fun r => DonationSearch.matchesCIM term r = true) rows
  \/ Forall (fun r => DonationSearch.matchesCPF term r = true) rows
  \/ Forall (fun r => DonationSearch.matchesName
                        (DonationSearch.trim (DonationSearch.toLowerCase term)) r
                      = true) rows.

(** The window of a page: [slice(offset, offset + limit)]. *)
Definition window {A} (page limit : Z) (l : list A) : list A :=
  let offset := (Z.max 1 page - 1) * limit in
  DonationSearch.slice l offset (offset + limit).

(** The page built from the donations found. *)
Definition page_of (page limit : Z) (found : list Donation.t)
  : DonationSearch.Page :=
  {| DonationSearch.donations := found;
     DonationSearch.currentPage := page;
     DonationSearch.totalPages :=
       DonationSearch.ceil_div (Z.of_nat (List.length found)) limit;
     DonationSearch.totalResults := List.length found |}.

(** The first list that is not empty, if any. *)
Fixpoint first_nonempty {A} (ls : list (list A)) : list A :=
  match ls with
  | [] => []
  | [] :: rest => first_nonempty rest
  | l :: _ => l
  end.

(** The windows the search looks at for a trimmed term, in its order: the
    documents matching by registry reference, by tax id, by name. *)
Definition candidates (term : string) (page limit : Z) (w : World)
  : list (list (DocId * Doc.t)) :=
  let ordered := DonationSearch.orderByCreatedAtDesc (donations w) in
  [window page limit (List.filter (DonationSearch.matchesCIM term) ordered);
   window page limit (List.filter (DonationSearch.matchesCPF term) ordered);
   window page limit
     (List.filter (DonationSearch.matchesName
                     (DonationSearch.trim (DonationSearch.toLowerCase term)))
        ordered)].

(* ===================================================================== *)
(** * Properties *)
(* ===================================================================== *)

(** ** Reading numbers and digits *)

Example parseFloat_50 : JS.parseFloatString "50.00" = JS.Finite 5000 (-2).
Proof. reflexivity. Qed.

Example parseFloat_abc : JS.parseFloatString "abc" = JS.NaN.
Proof. reflexivity. Qed.

Example parseFloat_exp : JS.parseFloatString "  -1.5e3xyz" = JS.Finite (-15) 2.
Proof. reflexivity. Qed.

Example parseFloat_dot : JS.parseFloatString "." = JS.NaN.
Proof. reflexivity. Qed.

Example parseFloat_hex : JS.parseFloatString "0x10" = JS.Finite 0 0.
Proof. reflexivity. Qed.

Example parseFloat_underflow : JS.is_zero (JS.parseFloatString "1e-400") = true.
Proof. vm_compute. reflexivity. Qed.

Example removeNonDigits_cpf :
  JS.removeNonDigits "123.456.789-01" = "12345678901".
Proof. reflexivity. Qed.


Lemma removeNonDigits_all_digits (s : string) :
  JS.has_non_digit (JS.removeNonDigits s) = false.
Proof.
  induction s as [|c r IH]; simpl; [reflexivity|].
  destruct (JS.is_digit c) eqn:Hc; simpl; [rewrite Hc; simpl|]; exact IH.
Qed.

Lemma removeNonDigits_changes (s : string) :
  JS.has_non_digit s = true -> JS.removeNonDigits s <> s.
Proof.
  intros H E. rewrite <- E in H.
  rewrite removeNonDigits_all_digits in H. discriminate.
Qed.

(** ** The gateway client only ever throws [ExternalError] *)

Lemma createImmediatePixCharge_throws env pixData w e w' :
  PixService.createImmediatePixCharge env pixData w = (Throw e, w') ->
  isExternalError e = true.
Proof.
  unfold PixService.createImmediatePixCharge, bind, send_efi, try_catch, throw.
  destruct (efi_pixCreateCharge _ _ _) as [err|resp].
  - intros [= <- _]. reflexivity.
  - destruct (PixService.readChargeResponse resp _) as [[a|e0] w0].
    + discriminate.
    + intros [= <- _]. reflexivity.
Qed.

Lemma createImmediatePixCharge_request env pixData w :
  efi_requests (snd (PixService.createImmediatePixCharge env pixData w))
  = (efi_requests w
       ++ [PixCreateCharge (PixService.removeDashes (uuidv4 env))
             {| PixBody.calendario_expiracao := 3600;
                PixBody.devedor_cpf := PixService.donorCPF pixData;
                PixBody.devedor_nome := PixService.donorName pixData;
                PixBody.valor_original := JS.parseFloat (PixService.amount pixData);
                PixBody.chave := GN_PIX_KEY env;
                PixBody.solicitacaoPagador :=
                  "Doação Realizada por: " ++ show (PixService.donorName pixData) |}])%list
  /\ donations (snd (PixService.createImmediatePixCharge env pixData w)) = donations w
  /\ hub (snd (PixService.createImmediatePixCharge env pixData w)) = hub w.
Proof.
  unfold PixService.createImmediatePixCharge, bind, send_efi, try_catch, throw.
  destruct (efi_pixCreateCharge _ _ _) as [err|resp]; simpl; [auto|].
  unfold PixService.readChargeResponse, throw, ret.
  destruct (Charge.loc resp); simpl; [|auto].
  destruct (Charge.calendario resp); simpl; [|auto].
  destruct (Charge.txid resp); simpl; [|auto].
  destruct (Charge.location resp); simpl; [|auto].
  destruct (Charge.pixCopiaECola resp); simpl; [|auto].
  destruct (_ || _); simpl; auto.
Qed.

(** ** Charge creation *)

(** On input that passes the three checks, [createDonation] is decided by
    the registry and then by the gateway. *)
Lemma createDonation_valid env data cpf w :
  DonationService.donorCPF data = JS.Str cpf ->
  ~ invalid_input data ->
  DonationService.createDonation env data w =
  match partners_where_cpf env (JS.removeNonDigits cpf) with
  | inl error => (Throw (DatabaseError ("Erro ao buscar parceiro: " ++ error)), w)
  | inr None => (Throw (NotFoundError "CPF não cadastrado"), w)
  | inr (Some partner) =>
      match PixService.createImmediatePixCharge env
              {| PixService.amount := DonationService.amount data;
                 PixService.donorCPF := JS.removeNonDigits cpf;
                 PixService.donorName := Partner.name partner |} w with
      | (Return d, w') =>
          (Return
             {| DonationService.r_donorCPF := cpf;
                DonationService.r_donorName := Partner.name partner;
                DonationService.r_donorCIM := Partner.cim partner;
                DonationService.r_amount := JS.parseFloat (DonationService.amount data);
                DonationService.r_txId := PixService.txId d;
                DonationService.r_locId := PixService.locId d;
                DonationService.r_qrCode := PixService.qrCode d;
                DonationService.r_copyPaste := PixService.copyPaste d;
                DonationService.r_status := "AGUARDANDO_PAGAMENTO";
                DonationService.r_createdAt := PixService.createdAt d |}, w')
      | (Throw e, w') =>
          (Throw (ExternalError ("Falha ao gerar cobrança Pix: " ++ Errors.toString e)), w')
      end
  end.
Proof.
  intros Hcpf Hvalid.
  unfold invalid_input in Hvalid. rewrite Hcpf in Hvalid. simpl in Hvalid.
  unfold DonationService.createDonation. rewrite Hcpf.
  cbn [JS.falsy].
  destruct (JS.falsy_string cpf) eqn:H1; [tauto|].
  destruct (JS.falsy (DonationService.amount data)) eqn:H2; [tauto|].
  destruct (JS.le_zero _) eqn:H3; [tauto|]. cbn [orb].
  destruct (Nat.eqb _ 11) eqn:H4; cbn [negb].
  2:{ exfalso. apply Hvalid. do 3 right. exists cpf. split; [reflexivity|].
      apply Nat.eqb_neq. exact H4. }
  unfold bind, PartnerService.findByExactCPF, try_catch, ret, throw.
  destruct (partners_where_cpf env _) as [err|[p|]]; try reflexivity.
  destruct (PixService.createImmediatePixCharge _ _ _) as [[d|e] w'] eqn:Hc;
    [reflexivity|].
  apply createImmediatePixCharge_throws in Hc.
  destruct e; try discriminate. reflexivity.
Qed.

Lemma createDonation_invalid env data w :
  invalid_input data ->
  exists msg,
    DonationService.createDonation env data w = (Throw (ValidationError msg), w).
Proof.
  intros H. unfold DonationService.createDonation, throw.
  destruct (JS.falsy (DonationService.donorCPF data) || JS.falsy _) eqn:H1;
    [eauto|].
  destruct (JS.le_zero _) eqn:H3; [eauto|].
  apply orb_false_elim in H1 as [H1 H2].
  destruct H as [H|[H|[H|(c & Hc & H)]]]; try congruence.
  rewrite Hc. apply Nat.eqb_neq in H. rewrite H. eauto.
Qed.

(** A tax id that is truthy but not a string passes the checks and then
    has no [replace] to call. *)
Lemma createDonation_not_a_string env data w :
  ~ invalid_input data ->
  (forall cpf, DonationService.donorCPF data <> JS.Str cpf) ->
  DonationService.createDonation env data w
  = (Throw DonationService.notAFunction, w).
Proof.
  intros Hv Hs. unfold DonationService.createDonation, throw, invalid_input in *.
  destruct (JS.falsy (DonationService.donorCPF data)) eqn:H1; [tauto|].
  destruct (JS.falsy (DonationService.amount data)) eqn:H2; [tauto|].
  destruct (JS.le_zero _) eqn:H3; [tauto|]. cbn [orb].
  destruct (DonationService.donorCPF data) as [| |b|n|cpf|text]; try reflexivity.
  exfalso. exact (Hs cpf eq_refl).
Qed.

Lemma invalid_input_dec data : invalid_input data \/ ~ invalid_input data.
Proof.
  unfold invalid_input.
  destruct (JS.falsy (DonationService.donorCPF data)); [tauto|].
  destruct (JS.falsy (DonationService.amount data)); [tauto|].
  destruct (JS.le_zero _); [tauto|].
  destruct (DonationService.donorCPF data) as [| |b|n|cpf|text];
    try (right; intros [?|[?|[?|(c & ? & ?)]]]; congruence).
  destruct (Nat.eq_dec (String.length (JS.removeNonDigits cpf)) 11%nat) as [E|E].
  - right. intros [?|[?|[?|(c & [= <-] & ?)]]]; congruence.
  - left. do 3 right. exists cpf. auto.
Qed.

(** A valid tax id is a string, or it is not. *)
Lemma donorCPF_cases data :
  (exists cpf, DonationService.donorCPF data = JS.Str cpf)
  \/ (forall cpf, DonationService.donorCPF data <> JS.Str cpf).
Proof.
  destruct (DonationService.donorCPF data); eauto; right; discriminate.
Qed.


(** C10. A successful [createDonation] returns the tax id exactly as the
    caller wrote it, while the one request it sent to the gateway carries
    the eleven digits of it; the two differ whenever the input holds a
    character that is not a digit. *)
Theorem createDonation_returns_raw_cpf env data w r w' :
  DonationService.createDonation env data w = (Return r, w') ->
  exists cpf txid body,
    DonationService.donorCPF data = JS.Str cpf
    /\ DonationService.r_donorCPF r = cpf
    /\ efi_requests w' = (efi_requests w ++ [PixCreateCharge txid body])%list
    /\ PixBody.devedor_cpf body = JS.removeNonDigits cpf
    /\ String.length (PixBody.devedor_cpf body) = 11%nat
    /\ JS.has_non_digit (PixBody.devedor_cpf body) = false
    /\ (JS.has_non_digit cpf = true ->
        DonationService.r_donorCPF r <> PixBody.devedor_cpf body).
Proof.
  intros H.
  assert (Hv : ~ invalid_input data).
  { intros Hi. destruct (createDonation_invalid env data w Hi) as [msg Hm].
    congruence. }
  destruct (donorCPF_cases data) as [[cpf Hcpf]|Hns].
  2:{ rewrite (createDonation_not_a_string env data w Hv Hns) in H.
      discriminate. }
  assert (Hlen : String.length (JS.removeNonDigits cpf) = 11%nat).
  { destruct (Nat.eq_dec (String.length (JS.removeNonDigits cpf)) 11%nat) as [E|E];
      [exact E|]. exfalso. apply Hv. do 3 right. exists cpf. auto. }
  rewrite (createDonation_valid env data cpf w Hcpf Hv) in H.
  destruct (partners_where_cpf env _) as [err|[p|]]; try discriminate.
  pose proof (createImmediatePixCharge_request env
    {| PixService.amount := DonationService.amount data;
       PixService.donorCPF := JS.removeNonDigits cpf;
       PixService.donorName := Partner.name p |} w) as (Hreq & _ & _).
  destruct (PixService.createImmediatePixCharge _ _ _) as [[d|e] w1];
    [|discriminate].
  injection H as <- <-. simpl in Hreq.
  eexists cpf, _, _. split; [exact Hcpf|]. split; [reflexivity|].
  split; [exact Hreq|]. simpl.
  split; [reflexivity|]. split; [exact Hlen|].
  split; [apply removeNonDigits_all_digits|].
  intros Hnd E. symmetry in E. revert E. apply removeNonDigits_changes, Hnd.
Qed.

(** ** The end-to-end scenarios, evaluated *)

Example create_charge_for_jane :
  exists r w,
    DonationService.createDonation Sample.paid
      {| DonationService.donorCPF := JS.Str "123.456.789-01";
         DonationService.amount := JS.Str "50.00" |} initial = (Return r, w)
    /\ DonationService.r_donorCPF r = "123.456.789-01"
    /\ DonationService.r_txId r = "3f2b8c1e9d4a4c6f8e2b7a1d5c9e0f34"
    /\ DonationService.r_amount r = JS.Finite 5000 (-2)
    /\ donations w = [].
Proof. eexists _, _. vm_compute. repeat split. Qed.

Example webhook_paid_creates_record :
  exists d w,
    DonationService.handlePixWebhook Sample.paid (Sample.payload "abc123") initial
    = (Return (Some d), w)
    /\ Donation.status d = Some "PAGA"
    /\ Donation.amount d = JS.Finite 5000 (-2)
    /\ Donation.donorName d = Some "Jane Doe"
    /\ List.length (donations w) = 1%nat.
Proof. eexists _, _. vm_compute. repeat split. Qed.

Example webhook_unpaid_without_record :
  DonationService.handlePixWebhook Sample.active (Sample.payload "abc123") initial
  = (Return None,
     {| donations := []; efi_requests := [PixDetailCharge "abc123"];
        hub := SSEService.empty |}).
Proof. vm_compute. reflexivity. Qed.

(** ** The reconciliation engine *)

Lemma getPixDetails_ok env txId w charge :
  efi_pixDetailCharge env txId = inr charge ->
  PixService.getPixDetails env txId w
  = (Return charge, sent (PixDetailCharge txId) w).
Proof. intros H. unfold PixService.getPixDetails. unfold_async. rewrite H. reflexivity. Qed.

Lemma getPixDetails_fails env txId w err :
  efi_pixDetailCharge env txId = inl err ->
  exists msg,
    PixService.getPixDetails env txId w
    = (Throw (ExternalError msg), sent (PixDetailCharge txId) w).
Proof.
  intros H. unfold PixService.getPixDetails. unfold_async. rewrite H.
  destruct (EfiError.resp err) as [r|]; [destruct (EfiError.data r)|]; eauto.
Qed.

Lemma strict_eqb_eq a b :
  DonationService.strict_eqb a b = true <-> a = b.
Proof.
  destruct a as [x|], b as [y|]; simpl; split; try congruence.
  - intros H. apply String.eqb_eq in H. congruence.
  - intros [= ->]. apply String.eqb_refl.
Qed.

Lemma where_txId_Some txId ds i d :
  DonationService.where_txId txId ds = Some (i, d) ->
  In (i, d) ds /\ Doc.txId d = Some txId.
Proof.
  induction ds as [|[j x] rest IH]; simpl; [discriminate|].
  destruct (DonationService.strict_eqb _ _) eqn:E.
  - intros [= -> ->]. split; [left; reflexivity|]. apply strict_eqb_eq, E.
  - intros H. destruct (IH H). split; [right|]; assumption.
Qed.

Lemma where_txId_None txId ds :
  DonationService.where_txId txId ds = None <->
  forall i d, In (i, d) ds -> Doc.txId d <> Some txId.
Proof.
  induction ds as [|[j x] rest IH]; simpl.
  - split; [intros _ i d []|reflexivity].
  - destruct (DonationService.strict_eqb _ _) eqn:E.
    + split; [discriminate|]. intros H. exfalso.
      apply (H j x); [left; reflexivity|]. apply strict_eqb_eq, E.
    + rewrite IH. split.
      * intros H i d [[= <- <-]|Hin]; [|exact (H i d Hin)].
        intros Hx. apply strict_eqb_eq in Hx. congruence.
      * intros H i d Hin. apply (H i d). right. exact Hin.
Qed.

Lemma handlePixWebhook_unfold env payload txId w :
  PixPayload.txid payload = Some txId ->
  JS.falsy_string txId = false ->
  donations_query_error env txId = None ->
  DonationService.handlePixWebhook env payload w
  = try_catch (DonationService.reconcile env txId (found txId w))
              (DonationService.rethrow txId) w.
Proof.
  intros Ht Hf Hq. unfold DonationService.handlePixWebhook, found.
  rewrite Ht, Hf. unfold DonationService.findByTxId. rewrite Hq.
  unfold bind, get_donations. simpl.
  destruct (DonationService.where_txId txId (donations w)) as [[i d]|]; reflexivity.
Qed.

(** C3. When the gateway details call fails, whatever the failure,
    [handlePixWebhook] throws the [DatabaseError] of an unexpected failure,
    tagged with the transaction id: the [ExternalError] that [getPixDetails]
    made of the failure has no [response] property, and is not among the
    classes the [catch] clause lets through. *)
Theorem handlePixWebhook_gateway_failure env payload txId w err :
  PixPayload.txid payload = Some txId ->
  JS.falsy_string txId = false ->
  donations_query_error env txId = None ->
  efi_pixDetailCharge env txId = inl err ->
  DonationService.handlePixWebhook env payload w
  = (Throw (DatabaseError ("Erro inesperado ao processar transação " ++ txId)),
     sent (PixDetailCharge txId) w).
Proof.
  intros Ht Hf Hq Herr.
  rewrite (handlePixWebhook_unfold env payload txId w Ht Hf Hq).
  unfold try_catch, DonationService.reconcile, bind.
  destruct (getPixDetails_fails env txId w err Herr) as [msg ->].
  reflexivity.
Qed.

Lemma handlePixWebhook_gateway_failure_witness :
  DonationService.handlePixWebhook Sample.down (Sample.payload "abc123") initial
  = (Throw (DatabaseError "Erro inesperado ao processar transação abc123"),
     {| donations := []; efi_requests := [PixDetailCharge "abc123"];
        hub := SSEService.empty |}).
Proof.
  apply (handlePixWebhook_gateway_failure Sample.down (Sample.payload "abc123")
           "abc123" initial Sample.timeout); reflexivity.
Defined.

(** C4. When the gateway's answer to a confirmed payment has no [valor]
    object, reading [valor.original] throws before any validation, and
    [handlePixWebhook] turns that into the [DatabaseError] of an unexpected
    failure, not into a [ValidationError]; no document is written. *)
Theorem handlePixWebhook_missing_valor env payload txId w charge :
  PixPayload.txid payload = Some txId ->
  JS.falsy_string txId = false ->
  donations_query_error env txId = None ->
  efi_pixDetailCharge env txId = inr charge ->
  Charge.valor charge = None ->
  DonationService.handlePixWebhook env payload w
  = (Throw (DatabaseError ("Erro inesperado ao processar transação " ++ txId)),
     sent (PixDetailCharge txId) w).
Proof.
  intros Ht Hf Hq Hc Hv.
  rewrite (handlePixWebhook_unfold env payload txId w Ht Hf Hq).
  unfold try_catch, DonationService.reconcile, bind.
  rewrite (getPixDetails_ok env txId w charge Hc), Hv. reflexivity.
Qed.

Lemma handlePixWebhook_missing_valor_witness :
  DonationService.handlePixWebhook
    (Sample.env (fun txid => inr (Sample.charge_without_valor txid)))
    (Sample.payload "abc123") initial
  = (Throw (DatabaseError "Erro inesperado ao processar transação abc123"),
     {| donations := []; efi_requests := [PixDetailCharge "abc123"];
        hub := SSEService.empty |}).
Proof.
  apply (handlePixWebhook_missing_valor
           (Sample.env (fun txid => inr (Sample.charge_without_valor txid)))
           (Sample.payload "abc123") "abc123" initial
           (Sample.charge_without_valor "abc123")); reflexivity.
Defined.

(** A confirmed payment without a stored record is rejected when the payer's
    tax id, the payer's name or the amount is missing from an answer that
    does have a [valor] object; nothing is written. *)
Lemma lazy_creation_rejected env payload txId w charge valor :
  PixPayload.txid payload = Some txId ->
  JS.falsy_string txId = false ->
  donations_query_error env txId = None ->
  DonationService.where_txId txId (donations w) = None ->
  efi_pixDetailCharge env txId = inr charge ->
  Charge.status charge = Some "CONCLUIDA" ->
  Charge.valor charge = Some valor ->
  JS.falsy_opt (payer_cpf charge) = true
  \/ JS.falsy_opt (payer_name charge) = true
  \/ JS.falsy_number (reported_amount valor) = true ->
  exists msg,
    DonationService.handlePixWebhook env payload w
    = (Throw (ValidationError msg), sent (PixDetailCharge txId) w).
Proof.
  intros Ht Hf Hq Hnone Hc Hs Hv Hmiss.
  rewrite (handlePixWebhook_unfold env payload txId w Ht Hf Hq).
  unfold found. rewrite Hnone.
  unfold try_catch, DonationService.reconcile, bind.
  rewrite (getPixDetails_ok env txId w charge Hc), Hv, Hs. simpl.
  unfold payer_cpf, payer_name, reported_amount in Hmiss.
  destruct (match Charge.devedor charge with Some d => Devedor.cpf d | None => None end)
    as [cpf|] eqn:Hcpf; [|eexists; reflexivity].
  simpl in Hmiss.
  destruct (JS.falsy_string cpf || _ || _) eqn:Hall; [eexists; reflexivity|].
  exfalso. apply orb_false_elim in Hall as [Hall H3].
  apply orb_false_elim in Hall as [H1 H2].
  destruct Hmiss as [H|[H|H]]; congruence.
Qed.

(** C8. A confirmed payment without a stored record whose amount string
    reads as zero or as NaN is rejected with [ValidationError], and the
    store keeps its documents: the guard takes the falsy number for a
    missing amount. *)
Theorem zero_amount_rejected env payload txId w charge valor amount :
  PixPayload.txid payload = Some txId ->
  JS.falsy_string txId = false ->
  donations_query_error env txId = None ->
  DonationService.where_txId txId (donations w) = None ->
  efi_pixDetailCharge env txId = inr charge ->
  Charge.status charge = Some "CONCLUIDA" ->
  Charge.valor charge = Some valor ->
  Valor.original valor = Some amount ->
  JS.is_zero (JS.parseFloatString amount) = true
  \/ JS.parseFloatString amount = JS.NaN ->
  exists msg w',
    DonationService.handlePixWebhook env payload w
    = (Throw (ValidationError msg), w')
    /\ donations w' = donations w.
Proof.
  intros Ht Hf Hq Hnone Hc Hs Hv Ho Hzero.
  destruct (lazy_creation_rejected env payload txId w charge valor
              Ht Hf Hq Hnone Hc Hs Hv) as [msg Hmsg].
  - do 2 right. unfold reported_amount, JS.falsy_number. rewrite Ho. simpl.
    destruct Hzero as [->| ->]; [apply orb_true_r|reflexivity].
  - exists msg, (sent (PixDetailCharge txId) w). split; [exact Hmsg|reflexivity].
Qed.

Lemma zero_amount_rejected_witness :
  exists msg w',
    DonationService.handlePixWebhook
      (Sample.env (fun txid => inr (Sample.charge_of_amount txid "0.00")))
      (Sample.payload "abc123") initial
    = (Throw (ValidationError msg), w')
    /\ donations w' = donations initial.
Proof.
  apply (zero_amount_rejected
           (Sample.env (fun txid => inr (Sample.charge_of_amount txid "0.00")))
           (Sample.payload "abc123") "abc123" initial
           (Sample.charge_of_amount "abc123" "0.00")
           {| Valor.original := Some "0.00" |} "0.00");
    try reflexivity.
  left. reflexivity.
Defined.

(** What the body of the [try] throws never has a [response] property. *)
Lemma getPixDetails_throws env txId w e w' :
  PixService.getPixDetails env txId w = (Throw e, w') ->
  isExternalError e = true.
Proof.
  unfold PixService.getPixDetails. unfold_async.
  destruct (efi_pixDetailCharge env txId) as [err|c]; [|discriminate].
  destruct (EfiError.resp err) as [r|]; [destruct (EfiError.data r)|];
    intros [= <- _]; reflexivity.
Qed.

Lemma save_throws env this w e w' :
  Donation.save env this w = (Throw e, w') ->
  isDatabaseError e = true /\ w' = w.
Proof.
  unfold Donation.save. unfold_async.
  destruct (Donation.id this); destruct (donations_write_error env _);
    simpl; try discriminate; intros [= <- <-]; split; reflexivity.
Qed.

Lemma findByExactCPF_cases env cpf w :
  PartnerService.findByExactCPF env cpf w
  = match partners_where_cpf env cpf with
    | inr p => (Return p, w)
    | inl err => (Throw (DatabaseError ("Erro ao buscar parceiro: " ++ err)), w)
    end.
Proof.
  unfold PartnerService.findByExactCPF.
  destruct (partners_where_cpf env cpf); reflexivity.
Qed.

Lemma reconcile_throws env txId donation w e w' :
  DonationService.reconcile env txId donation w = (Throw e, w') ->
  has_response e = false.
Proof.
  unfold DonationService.reconcile, bind.
  destruct (PixService.getPixDetails env txId w) as [[c|e0] w0] eqn:Hg.
  2:{ intros [= <- _]. apply getPixDetails_throws in Hg.
      destruct e0; try discriminate; reflexivity. }
  destruct (Charge.valor c) as [valor|]; [|intros [= <- _]; reflexivity].
  assert (Hsave : forall d,
             (let (r, w'0) := Donation.save env d w0 in
              match r with
              | Return a => ret (Some a) w'0
              | Throw e1 => (Throw e1, w'0)
              end) = (Throw e, w') -> has_response e = false).
  { intros d. destruct (Donation.save env d w0) as [[a|e1] w1] eqn:Hs;
      [discriminate|].
    intros [= <- _]. apply save_throws in Hs as [Hs _].
    destruct e1; try discriminate; reflexivity. }
  destruct (DonationService.strict_eqb (Charge.status c) _).
  - destruct donation as [d|].
    + destruct (negb _); [apply Hsave|discriminate].
    + destruct (match Charge.devedor c with Some d => Devedor.cpf d | None => None end)
        as [cpf|]; [|intros [= <- _]; reflexivity].
      destruct (_ || _); [intros [= <- _]; reflexivity|].
      rewrite findByExactCPF_cases.
      destruct (partners_where_cpf env cpf) as [err|p];
        [intros [= <- _]; reflexivity|].
      apply Hsave.
  - destruct donation as [d|]; [|discriminate].
    destruct (negb _); [apply Hsave|discriminate].
Qed.

(** The [catch] clause lets the three typed classes through unchanged, and
    tags anything else that has no [response] with the transaction id. *)
Lemma rethrow_typed {A} txId e w :
  isValidationError e || isNotFoundError e || isDatabaseError e = true ->
  @DonationService.rethrow A txId e w = (Throw e, w).
Proof. intros H. unfold DonationService.rethrow. rewrite H. reflexivity. Qed.

Lemma rethrow_unexpected {A} txId e w :
  isValidationError e || isNotFoundError e || isDatabaseError e = false ->
  has_response e = false ->
  @DonationService.rethrow A txId e w
  = (Throw (DatabaseError ("Erro inesperado ao processar transação " ++ txId)), w).
Proof.
  intros H1 H2. unfold DonationService.rethrow. rewrite H1, H2. reflexivity.
Qed.

(** However the handler fails, it is never with an [ExternalError]. *)
Lemma handlePixWebhook_never_ExternalError env payload w e w' :
  DonationService.handlePixWebhook env payload w = (Throw e, w') ->
  isExternalError e = false.
Proof.
  intros H.
  destruct (PixPayload.txid payload) as [txId|] eqn:Ht.
  2:{ unfold DonationService.handlePixWebhook in H. rewrite Ht in H.
      injection H as <- _. reflexivity. }
  destruct (JS.falsy_string txId) eqn:Hf.
  { unfold DonationService.handlePixWebhook in H. rewrite Ht, Hf in H.
    injection H as <- _. reflexivity. }
  destruct (donations_query_error env txId) as [msg|] eqn:Hq.
  { unfold DonationService.handlePixWebhook, DonationService.findByTxId in H.
    rewrite Ht, Hf, Hq in H. injection H as <- _. reflexivity. }
  rewrite (handlePixWebhook_unfold env payload txId w Ht Hf Hq) in H.
  unfold try_catch in H.
  destruct (DonationService.reconcile env txId (found txId w) w)
    as [[a|e0] w0] eqn:Hr; [discriminate|].
  apply reconcile_throws in Hr.
  unfold DonationService.rethrow, throw in H. rewrite Hr in H.
  destruct e0; simpl in H; injection H as <- _; reflexivity.
Qed.

(** ** Updating a stored donation *)


Lemma set_merge_others i data ds :
  others i (Donation.set_merge i data ds) = others i ds.
Proof.
  unfold others. induction ds as [|[j x] rest IH]; simpl.
  - rewrite filter_cons_False; [reflexivity|]. simpl. intros H. apply H. reflexivity.
  - destruct (Nat.eqb j i) eqn:E.
    + apply Nat.eqb_eq in E. subst j.
      rewrite !filter_cons_False; simpl; auto.
    + apply Nat.eqb_neq in E.
      rewrite !filter_cons_True by (simpl; assumption).
      rewrite IH. reflexivity.
Qed.

Lemma set_merge_In i data ds : In (i, data) (Donation.set_merge i data ds).
Proof.
  induction ds as [|[j x] rest IH]; simpl; [auto|].
  destruct (Nat.eqb j i) eqn:E.
  - apply Nat.eqb_eq in E. subst j. left. reflexivity.
  - right. exact IH.
Qed.

Lemma save_update_at env this i w :
  Donation.id this = Some i ->
  donations_write_error env
    (Donation.dataToSave this
       match Donation.createdAt this with
       | Some d => Timestamp_fromDate d
       | None => serverTimestamp env
       end) = None ->
  Donation.save env this w
  = (Return this,
     {| donations :=
          Donation.set_merge i
            (Donation.dataToSave this
               match Donation.createdAt this with
               | Some d => Timestamp_fromDate d
               | None => serverTimestamp env
               end) (donations w);
        efi_requests := efi_requests w;
        hub := hub w |}).
Proof.
  intros Hi Hw. unfold Donation.save. rewrite Hi, Hw. reflexivity.
Qed.

(** What [Timestamp.fromDate] returns has no part below the millisecond. *)
Lemma fromDate_whole_milliseconds (d : Date) :
  _nanoseconds (Timestamp_fromDate d) mod 1000000 = 0.
Proof. unfold Timestamp_fromDate. simpl. apply Z.mod_mul. lia. Qed.

(** C5. A notification whose authoritative status is not the completed one
    and differs from the stored one makes the handler write the stored
    document back with the reported status. Every other field keeps its
    value and the other documents are untouched, but [createdAt] does not
    keep its value: it is written back as the [Timestamp] of the model's
    [Date], which has no part below the millisecond, so a creation instant
    with such a part (as the store's clock assigns them) is changed by the
    update. *)
Theorem nonconfirming_update_rewrites_createdAt env payload txId w i d charge valor :
  PixPayload.txid payload = Some txId ->
  JS.falsy_string txId = false ->
  donations_query_error env txId = None ->
  DonationService.where_txId txId (donations w) = Some (i, d) ->
  efi_pixDetailCharge env txId = inr charge ->
  Charge.valor charge = Some valor ->
  Charge.status charge <> Some "CONCLUIDA" ->
  Doc.status d <> Charge.status charge ->
  donations_write_error env (restamped (Charge.status charge) d) = None ->
  _nanoseconds (Doc.createdAt d) mod 1000000 <> 0 ->
  exists donation d' w',
    DonationService.handlePixWebhook env payload w = (Return (Some donation), w')
    /\ donations w' = Donation.set_merge i d' (donations w)
    /\ In (i, d') (donations w')
    /\ others i (donations w') = others i (donations w)
    /\ Doc.status d' = Charge.status charge
    /\ Doc.createdAt d'
       = Timestamp_fromDate
           (newDate (_seconds (Doc.createdAt d)) (_nanoseconds (Doc.createdAt d)))
    /\ Doc.createdAt d' <> Doc.createdAt d
    /\ Doc.amount d' = Doc.amount d
    /\ Doc.txId d' = Doc.txId d
    /\ Doc.donorCPF d' = Doc.donorCPF d
    /\ Doc.donorName d' = Doc.donorName d
    /\ Doc.donorCIM d' = Doc.donorCIM d
    /\ Doc.locId d' = Doc.locId d
    /\ Doc.qrCode d' = Doc.qrCode d
    /\ Doc.copyPaste d' = Doc.copyPaste d.
Proof.
  intros Ht Hf Hq Hrow Hc Hv Hunpaid Hdiff Hw Hn.
  rewrite (handlePixWebhook_unfold env payload txId w Ht Hf Hq).
  unfold found. rewrite Hrow.
  unfold try_catch, DonationService.reconcile, bind.
  rewrite (getPixDetails_ok env txId w charge Hc), Hv.
  destruct (DonationService.strict_eqb (Charge.status charge) _) eqn:E1.
  { apply strict_eqb_eq in E1. contradiction. }
  destruct (DonationService.strict_eqb
              (Donation.status (Donation.ofDoc i d)) (Charge.status charge)) eqn:E2.
  { apply strict_eqb_eq in E2. contradiction. }
  change (negb false) with true. cbv beta iota.
  rewrite (save_update_at env
             (Donation.set_status (Charge.status charge) (Donation.ofDoc i d))
             i _ eq_refl Hw).
  unfold ret.
  exists (Donation.set_status (Charge.status charge) (Donation.ofDoc i d)),
    (restamped (Charge.status charge) d).
  eexists. split; [reflexivity|]. cbn [donations].
  split; [reflexivity|]. split; [apply set_merge_In|].
  split; [apply set_merge_others|].
  split; [reflexivity|]. split; [reflexivity|].
  split.
  { unfold restamped. cbn [Doc.createdAt]. intros E. apply Hn.
    rewrite <- E. apply fromDate_whole_milliseconds. }
  repeat split; reflexivity.
Qed.

Lemma nonconfirming_update_rewrites_createdAt_witness :
  exists donation d' w',
    DonationService.handlePixWebhook Sample.active (Sample.payload "abc123")
      Sample.store_with_pending = (Return (Some donation), w')
    /\ donations w' = Donation.set_merge 1%nat d' (donations Sample.store_with_pending)
    /\ In (1%nat, d') (donations w')
    /\ others 1%nat (donations w') = others 1%nat (donations Sample.store_with_pending)
    /\ Doc.status d' = Some "ATIVA"
    /\ Doc.createdAt d'
       = Timestamp_fromDate
           (newDate (_seconds (Doc.createdAt Sample.pending))
                    (_nanoseconds (Doc.createdAt Sample.pending)))
    /\ Doc.createdAt d' <> Doc.createdAt Sample.pending
    /\ Doc.amount d' = Doc.amount Sample.pending
    /\ Doc.txId d' = Doc.txId Sample.pending
    /\ Doc.donorCPF d' = Doc.donorCPF Sample.pending
    /\ Doc.donorName d' = Doc.donorName Sample.pending
    /\ Doc.donorCIM d' = Doc.donorCIM Sample.pending
    /\ Doc.locId d' = Doc.locId Sample.pending
    /\ Doc.qrCode d' = Doc.qrCode Sample.pending
    /\ Doc.copyPaste d' = Doc.copyPaste Sample.pending.
Proof.
  apply (nonconfirming_update_rewrites_createdAt Sample.active
           (Sample.payload "abc123") "abc123" Sample.store_with_pending 1%nat
           Sample.pending (Sample.charge "abc123" "ATIVA")
           {| Valor.original := Some "50.00" |});
    try reflexivity; simpl; discriminate.
Defined.

(** The stored creation instant 1700000000 s + 123456000 ns comes back
    from the update as 1700000000 s + 123000000 ns. *)
Example update_drops_microseconds :
  exists donation d' w',
    DonationService.handlePixWebhook Sample.active (Sample.payload "abc123")
      Sample.store_with_pending = (Return (Some donation), w')
    /\ donations w' = [(1%nat, d')]
    /\ Doc.status Sample.pending = Some "AGUARDANDO_PAGAMENTO"
    /\ Doc.status d' = Some "ATIVA"
    /\ Doc.createdAt Sample.pending
       = {| _seconds := 1700000000; _nanoseconds := 123456000 |}
    /\ Doc.createdAt d'
       = {| _seconds := 1700000000; _nanoseconds := 123000000 |}
    /\ Doc.createdAt d' <> Doc.createdAt Sample.pending.
Proof.
  eexists _, _, _. vm_compute. repeat split. discriminate.
Qed.

(** At the end of a second the sum of the conversion rounds up to the next
    millisecond, and the update moves the instant forward. *)
Example newDate_rounds_up : newDate 1700000000 999999999 = 1700000001000.
Proof. vm_compute. reflexivity. Qed.

Example update_moves_createdAt_forward :
  Doc.createdAt
    (restamped (Some "ATIVA")
       {| Doc.donorCPF := None; Doc.donorName := None; Doc.donorCIM := None;
          Doc.amount := JS.Finite 5000 (-2); Doc.txId := Some "abc123";
          Doc.locId := None; Doc.qrCode := None; Doc.copyPaste := None;
          Doc.status := Some "AGUARDANDO_PAGAMENTO";
          Doc.createdAt :=
            {| _seconds := 1700000000; _nanoseconds := 999999999 |} |})
  = {| _seconds := 1700000001; _nanoseconds := 0 |}.
Proof. vm_compute. reflexivity. Qed.

(** ** Replayed notifications *)

(** A confirmed payment whose record is already paid: the handler writes
    nothing and returns the record. *)
Lemma handlePixWebhook_already_paid env payload txId w i d charge valor :
  PixPayload.txid payload = Some txId ->
  JS.falsy_string txId = false ->
  donations_query_error env txId = None ->
  DonationService.where_txId txId (donations w) = Some (i, d) ->
  Doc.status d = Some "PAGA" ->
  efi_pixDetailCharge env txId = inr charge ->
  Charge.status charge = Some "CONCLUIDA" ->
  Charge.valor charge = Some valor ->
  DonationService.handlePixWebhook env payload w
  = (Return (Some (Donation.ofDoc i d)), sent (PixDetailCharge txId) w).
Proof.
  intros Ht Hf Hq Hrow Hpaid Hc Hs Hv.
  rewrite (handlePixWebhook_unfold env payload txId w Ht Hf Hq).
  unfold found. rewrite Hrow.
  unfold try_catch, DonationService.reconcile, bind.
  rewrite (getPixDetails_ok env txId w charge Hc), Hv, Hs.
  simpl. rewrite Hpaid. reflexivity.
Qed.

Lemma deliveries_write c c' k h :
  SSEService.deliveries c (SSEService.write c' k h)
  = (SSEService.deliveries c h
       ++ match k with
          | SSEService.EventData d => if Nat.eqb c' c then [d] else []
          | _ => []
          end)%list.
Proof.
  unfold SSEService.deliveries, SSEService.write. simpl.
  rewrite omap_app. f_equal. simpl.
  destruct k; try reflexivity. destruct (Nat.eqb c' c); reflexivity.
Qed.

(** C1. Once the store holds the paid record of a transaction,
    posting the confirmed notification again answers 200 and writes nothing
    to the store, so the record stays the only one the first call left; but
    the subscriber registered on the transaction id is sent the
    [donationPaid] event once more. *)
Theorem replay_writes_nothing_but_notifies
    env payload txId w i d charge valor client :
  PixPayload.txid payload = Some txId ->
  JS.falsy_string txId = false ->
  donations_query_error env txId = None ->
  DonationService.where_txId txId (donations w) = Some (i, d) ->
  Doc.status d = Some "PAGA" ->
  efi_pixDetailCharge env txId = inr charge ->
  Charge.status charge = Some "CONCLUIDA" ->
  Charge.valor charge = Some valor ->
  SSEService.clients (hub w) !! txId = Some client ->
  exists event w',
    Webhook.postPix env (single payload) w
    = (Return {| Webhook.statusCode := 200;
                 Webhook.body := "Pix recebido e processado com sucesso." |}, w')
    /\ donations w' = donations w
    /\ SSEService.clients (hub w') = SSEService.clients (hub w)
    /\ SSEService.written (hub w')
       = (SSEService.written (hub w)
            ++ [(SSEService.res client, SSEService.EventLine);
                (SSEService.res client, SSEService.EventData event)])%list
    /\ SSEService.deliveries (SSEService.res client) (hub w')
       = (SSEService.deliveries (SSEService.res client) (hub w) ++ [event])%list.
Proof.
  intros Ht Hf Hq Hrow Hpaid Hc Hs Hv Hclient.
  pose proof (handlePixWebhook_already_paid env payload txId w i d charge valor
                Ht Hf Hq Hrow Hpaid Hc Hs Hv) as Hh.
  destruct (where_txId_Some _ _ _ _ Hrow) as [_ Htx].
  unfold Webhook.postPix, single, try_catch, bind. simpl.
  unfold Webhook.processOne, try_catch, bind. rewrite Ht, Hf, Hh.
  simpl. rewrite Hpaid. simpl.
  unfold with_hub, SSEService.notifyDonationPaid. simpl.
  unfold SSEService.notifyOne. simpl. rewrite Htx, Hclient.
  eexists _, _. split; [reflexivity|]. simpl.
  split; [reflexivity|]. split; [reflexivity|].
  split; [rewrite <- app_assoc; reflexivity|].
  rewrite !deliveries_write. rewrite Nat.eqb_refl, app_nil_r. reflexivity.
Qed.

Example first_post_materializes :
  donations subscribed = []
  /\ donations after_first_post = [(1%nat, materialized)]
  /\ List.length (SSEService.deliveries 1%nat (hub after_first_post)) = 1%nat.
Proof. vm_compute. repeat split. Qed.

Lemma replay_writes_nothing_but_notifies_witness :
  exists event w',
    Webhook.postPix Sample.paid (single (Sample.payload "abc123")) after_first_post
    = (Return {| Webhook.statusCode := 200;
                 Webhook.body := "Pix recebido e processado com sucesso." |}, w')
    /\ donations w' = donations after_first_post
    /\ SSEService.clients (hub w') = SSEService.clients (hub after_first_post)
    /\ SSEService.written (hub w')
       = (SSEService.written (hub after_first_post)
            ++ [(1%nat, SSEService.EventLine);
                (1%nat, SSEService.EventData event)])%list
    /\ SSEService.deliveries 1%nat (hub w')
       = (SSEService.deliveries 1%nat (hub after_first_post) ++ [event])%list.
Proof.
  apply (replay_writes_nothing_but_notifies Sample.paid (Sample.payload "abc123")
           "abc123" after_first_post 1%nat materialized
           (Sample.charge "abc123" "CONCLUIDA")
           {| Valor.original := Some "50.00" |}
           {| SSEService.res := 1%nat; SSEService.keepAlive := 0%nat |});
    vm_compute; reflexivity.
Defined.

(** Against C1 as worded: the second post of the identical
    confirmed notification leaves the one paid record alone, but sends the
    subscriber a second [donationPaid] event. *)
Lemma replay_delivers_again :
  rows_of "abc123" after_first_post = [(1%nat, materialized)]
  /\ rows_of "abc123" after_second_post = [(1%nat, materialized)]
  /\ SSEService.clients (hub after_first_post) !! "abc123"
     = Some {| SSEService.res := 1%nat; SSEService.keepAlive := 0%nat |}
  /\ List.length (SSEService.deliveries 1%nat (hub after_first_post)) = 1%nat
  /\ List.length (SSEService.deliveries 1%nat (hub after_second_post)) = 2%nat
  /\ SSEService.deliveries 1%nat (hub after_second_post)
     <> SSEService.deliveries 1%nat (hub after_first_post).
Proof.
  vm_compute. repeat split. discriminate.
Qed.

(** ** Charge creation at the sample requests *)


Lemma createDonation_returns_raw_cpf_witness :
  exists r w',
    DonationService.createDonation Sample.paid request_of_jane initial
    = (Return r, w')
    /\ exists cpf txid body,
         DonationService.donorCPF request_of_jane = JS.Str cpf
         /\ DonationService.r_donorCPF r = cpf
         /\ efi_requests w'
            = (efi_requests initial ++ [PixCreateCharge txid body])%list
         /\ PixBody.devedor_cpf body = JS.removeNonDigits cpf
         /\ String.length (PixBody.devedor_cpf body) = 11%nat
         /\ JS.has_non_digit (PixBody.devedor_cpf body) = false
         /\ (JS.has_non_digit cpf = true ->
             DonationService.r_donorCPF r <> PixBody.devedor_cpf body).
Proof.
  eexists _, _. split.
  - vm_compute. reflexivity.
  - apply (createDonation_returns_raw_cpf Sample.paid request_of_jane initial).
    vm_compute. reflexivity.
Defined.

(** ** The subscriber registry *)

Lemma runListeners_keeps_absent conn ls h txId t :
  (SSEService.clients h !! txId = None ->
   SSEService.clients (SSEService.runListeners conn ls h) !! txId = None)
  /\ (SSEService.intervals h !! t = None ->
      SSEService.intervals (SSEService.runListeners conn ls h) !! t = None).
Proof.
  revert h. induction ls as [|[c [tx' t']] rest IH]; intros h; simpl; [auto|].
  destruct (Nat.eqb c conn); [|apply IH].
  destruct (IH (SSEService.onClose tx' t' h)) as [IH1 IH2].
  split; intros H.
  - apply IH1. simpl. rewrite lookup_delete. case_decide; [reflexivity|exact H].
  - apply IH2. simpl. rewrite lookup_delete. case_decide; [reflexivity|exact H].
Qed.

Lemma runListeners_removes conn ls h txId t :
  In (conn, (txId, t)) ls ->
  SSEService.clients (SSEService.runListeners conn ls h) !! txId = None
  /\ SSEService.intervals (SSEService.runListeners conn ls h) !! t = None.
Proof.
  revert h. induction ls as [|[c [tx' t']] rest IH]; intros h; simpl; [tauto|].
  intros [[= -> -> ->]|Hin].
  - rewrite Nat.eqb_refl.
    destruct (runListeners_keeps_absent conn rest
                (SSEService.onClose txId t h) txId t) as [H1 H2].
    split; [apply H1|apply H2]; simpl; apply lookup_delete_eq.
  - destruct (Nat.eqb c conn); apply IH, Hin.
Qed.

Lemma runListeners_spares conn ls h t :
  (forall txId, ~ In (conn, (txId, t)) ls) ->
  SSEService.intervals (SSEService.runListeners conn ls h) !! t
  = SSEService.intervals h !! t.
Proof.
  revert h. induction ls as [|[c [tx' t']] rest IH]; intros h Hno; simpl;
    [reflexivity|].
  assert (Hrest : forall txId, ~ In (conn, (txId, t)) rest).
  { intros txId Hin. apply (Hno txId). right. exact Hin. }
  destruct (Nat.eqb c conn) eqn:E; [|apply IH, Hrest].
  apply Nat.eqb_eq in E. subst c.
  rewrite (IH _ Hrest). simpl. apply lookup_delete_ne.
  intros ->. apply (Hno tx'). left. reflexivity.
Qed.

(** C9. The registry holds one entry per transaction id, and
    a later subscription for the same id replaces the earlier one. When a
    connection that subscribed under an id closes, whatever entry is stored
    under that id is removed, and the timer that is cleared is the closing
    connection's own; a timer that none of its listeners captured, such as
    that of a newer connection that replaced it, is left as it was. *)
Theorem registry_subscribe_and_close :
  (forall txId conn h,
      SSEService.clients (SSEService.addClient txId conn h) !! txId
      = Some {| SSEService.res := conn;
                SSEService.keepAlive := SSEService.nextTimer h |}
      /\ SSEService.intervals (SSEService.addClient txId conn h)
           !! SSEService.nextTimer h = Some conn
      /\ forall other, other <> txId ->
           SSEService.clients (SSEService.addClient txId conn h) !! other
           = SSEService.clients h !! other)
  /\ (forall conn txId timer h,
        In (conn, (txId, timer)) (SSEService.listeners h) ->
        SSEService.clients (SSEService.close conn h) !! txId = None
        /\ SSEService.intervals (SSEService.close conn h) !! timer = None)
  /\ (forall conn timer h,
        (forall txId, ~ In (conn, (txId, timer)) (SSEService.listeners h)) ->
        SSEService.intervals (SSEService.close conn h) !! timer
        = SSEService.intervals h !! timer).
Proof.
  split; [|split].
  - intros txId conn h. simpl. split; [apply lookup_insert_eq|].
    split; [apply lookup_insert_eq|].
    intros other Hne. apply lookup_insert_ne. congruence.
  - intros conn txId timer h Hin. apply runListeners_removes, Hin.
  - intros conn timer h Hno. apply runListeners_spares, Hno.
Qed.

Lemma registry_subscribe_and_close_witness :
  SSEService.clients two_subscribers !! "abc123"
  = Some {| SSEService.res := 2%nat; SSEService.keepAlive := 1%nat |}
  /\ SSEService.clients first_disconnected !! "abc123" = None
  /\ SSEService.intervals first_disconnected !! 0%nat = None
  /\ SSEService.intervals first_disconnected !! 1%nat
     = SSEService.intervals two_subscribers !! 1%nat.
Proof.
  destruct registry_subscribe_and_close as (Hadd & Hclose & Hspare).
  split; [exact (proj1 (Hadd "abc123" 2%nat
                          (SSEService.addClient "abc123" 1%nat SSEService.empty)))|].
  destruct (Hclose 1%nat "abc123" 0%nat two_subscribers) as [H1 H2].
  { simpl. left. reflexivity. }
  split; [exact H1|]. split; [exact H2|].
  apply (Hspare 1%nat 1%nat two_subscribers).
  intros txId. simpl. intros [H|[H|[]]]; discriminate.
Defined.

(** Against C9 as worded: when the first of two connections on
    "abc123" closes, the entry removed is the second connection's, and that
    entry's keep-alive timer (timer 1) keeps running and pinging it. *)
Lemma close_leaves_newer_timer_running :
  SSEService.clients two_subscribers !! "abc123"
  = Some {| SSEService.res := 2%nat; SSEService.keepAlive := 1%nat |}
  /\ SSEService.clients first_disconnected !! "abc123" = None
  /\ SSEService.intervals first_disconnected !! 1%nat = Some 2%nat
  /\ SSEService.written (SSEService.tick 1%nat first_disconnected)
     = (SSEService.written first_disconnected ++ [(2%nat, SSEService.Ping)])%list.
Proof. vm_compute. repeat split. Qed.

(** ** The webhook endpoint *)

Lemma succeeded_cons txId ok os :
  succeeded ((txId, ok) :: os)
  = ((if ok then 1 else 0) + succeeded os)%nat.
Proof.
  unfold succeeded. rewrite filter_cons. simpl.
  destruct ok; case_decide; try congruence; reflexivity.
Qed.

Lemma failures_cons txId ok os :
  failures ((txId, ok) :: os)
  = ((if ok then [] else [txId]) ++ failures os)%list.
Proof.
  unfold failures. rewrite filter_cons. simpl.
  destruct ok; case_decide; try congruence; reflexivity.
Qed.

Lemma tallied_nil env acc w : tallied env acc [] w = acc.
Proof.
  unfold tallied, succeeded, failures. simpl.
  rewrite Nat.add_0_r, !app_nil_r. destruct acc; reflexivity.
Qed.

(** The loop over elements none of which is [null]: it returns, with the
    tally of the outcomes, in the world the handler calls left. *)
Lemma processAll_objects env pix : forall acc w,
  Webhook.processAll env acc (map Some pix) w
  = (Return (tallied env acc pix w), handled env pix w).
Proof.
  induction pix as [|payload rest IH]; intros acc w.
  - simpl. unfold ret. rewrite tallied_nil. reflexivity.
  - cbn [map Webhook.processAll]. unfold bind, Webhook.processOne.
    unfold tallied. cbn [outcomes handled paid_notices]. unfold truthy_txid.
    destruct (PixPayload.txid payload) as [txId|].
    2:{ unfold ret. rewrite IH. reflexivity. }
    destruct (JS.falsy_string txId).
    { unfold ret. rewrite IH. reflexivity. }
    unfold try_catch, bind, ret.
    destruct (DonationService.handlePixWebhook env payload w) as [[d|e] w1];
      rewrite IH; unfold tallied; cbn [Webhook.successfulProcesses
        Webhook.failedTxIds Webhook.processedDonationsForSSE snd];
      rewrite succeeded_cons, failures_cons; cbn [app].
    + replace (S (Webhook.successfulProcesses acc)
               + succeeded (outcomes env rest w1))%nat
        with (Webhook.successfulProcesses acc
              + (1 + succeeded (outcomes env rest w1)))%nat by lia.
      destruct d as [d|]; [|reflexivity].
      destruct (DonationService.strict_eqb _ _); [|reflexivity].
      rewrite <- app_assoc. reflexivity.
    + rewrite <- app_assoc. reflexivity.
Qed.

(** The loop stops at the first [null]: reading its [txid] throws outside
    the [try] of the turn. *)
Lemma processAll_null env before rest : forall acc w,
  Webhook.processAll env acc (map Some before ++ None :: rest)%list w
  = (Throw Webhook.nullElement, handled env before w).
Proof.
  induction before as [|payload before IH]; intros acc w; [reflexivity|].
  cbn [map app Webhook.processAll]. unfold bind, Webhook.processOne.
  cbn [handled]. unfold truthy_txid.
  destruct (PixPayload.txid payload) as [txId|]; [|apply IH].
  destruct (JS.falsy_string txId); [apply IH|].
  unfold try_catch, bind, ret.
  destruct (DonationService.handlePixWebhook env payload w) as [[d|e] w1];
    apply IH.
Qed.

(** An array has no [null], or a first one. *)
Lemma first_null (pix : list (option PixPayload.t)) :
  pix = map Some (reached pix)
  \/ exists rest, pix = (map Some (reached pix) ++ None :: rest)%list.
Proof.
  induction pix as [|[payload|] pix IH]; simpl; [auto| |right; eauto].
  destruct IH as [IH|[rest IH]].
  - left. f_equal. exact IH.
  - right. exists rest. f_equal. exact IH.
Qed.

Lemma reached_objects pix : reached (map Some pix) = pix.
Proof. induction pix; simpl; congruence. Qed.

Lemma reached_null before rest :
  reached (map Some before ++ None :: rest)%list = before.
Proof. induction before; simpl; congruence. Qed.

Lemma processAll_world env pix acc w :
  snd (Webhook.processAll env acc pix w) = handled env (reached pix) w.
Proof.
  destruct (first_null pix) as [E|[rest E]]; rewrite E at 1.
  - rewrite processAll_objects. reflexivity.
  - rewrite processAll_null. reflexivity.
Qed.



(** The endpoint on an array none of whose elements is [null]. *)
Lemma postPix_objects env pix w :
  Webhook.postPix env (Some {| Webhook.pix := Some (map Some pix) |}) w
  = (Return {| Webhook.statusCode := 200;
               Webhook.body :=
                 match pix with
                 | [] => "Nenhum dado de notificação processado."
                 | _ => Webhook.summary (succeeded (outcomes env pix w))
                                        (failures (outcomes env pix w))
                 end |},
     notified (paid_notices env pix w) (handled env pix w)).
Proof.
  destruct pix as [|payload rest]; [reflexivity|].
  pose proof (processAll_objects env (payload :: rest)
                {| Webhook.successfulProcesses := 0; Webhook.failedTxIds := [];
                   Webhook.processedDonationsForSSE := [] |} w) as H.
  cbn [map] in H.
  unfold Webhook.postPix, try_catch, bind. cbn [Webhook.pix map].
  rewrite H. unfold tallied. cbn [Webhook.successfulProcesses Webhook.failedTxIds
                         Webhook.processedDonationsForSSE app Nat.add].
  destruct (paid_notices env (payload :: rest) w); reflexivity.
Qed.

(** The endpoint on an array that holds a [null]. *)
Lemma postPix_null env before rest w :
  Webhook.postPix env
    (Some {| Webhook.pix := Some (map Some before ++ None :: rest)%list |}) w
  = (Return {| Webhook.statusCode := 500;
               Webhook.body := "Erro interno ao processar o webhook." |},
     handled env before w).
Proof.
  unfold Webhook.postPix, try_catch, bind. cbn [Webhook.pix].
  destruct (map Some before ++ None :: rest)%list as [|x l] eqn:E.
  { destruct before; discriminate. }
  rewrite <- E, processAll_null. reflexivity.
Qed.

Lemma notified_frame notices w :
  donations (notified notices w) = donations w
  /\ efi_requests (notified notices w) = efi_requests w
  /\ hub (notified notices w) = SSEService.notifyDonationPaid notices (hub w).
Proof. destruct notices; simpl; auto. Qed.

(** What the endpoint leaves in the store is what the handler calls on the
    elements it got to left there. *)
Lemma postPix_store env pix w :
  donations (snd (Webhook.postPix env (Some {| Webhook.pix := Some pix |}) w))
  = donations (handled env (reached pix) w).
Proof.
  destruct (first_null pix) as [E|[rest E]]; rewrite E at 1.
  - rewrite postPix_objects. apply notified_frame.
  - rewrite postPix_null. reflexivity.
Qed.

Example postPix_mixed_batch :
  outcomes mixed_env mixed_batch initial = [("bad", false); ("abc123", true)]
  /\ fst (Webhook.postPix mixed_env
            (Some {| Webhook.pix := Some (map Some mixed_batch) |}) initial)
     = Return {| Webhook.statusCode := 200;
                 Webhook.body :=
                   "Pix recebido. 1 processados com sucesso. Falha em 1 transações: [bad]." |}.
Proof. vm_compute. split; reflexivity. Qed.

(** ** Lazy materialization *)

(** Creating a charge talks to the gateway and to nothing else. *)
Lemma createDonation_writes_nothing env data w :
  donations (snd (DonationService.createDonation env data w)) = donations w
  /\ hub (snd (DonationService.createDonation env data w)) = hub w.
Proof.
  destruct (invalid_input_dec data) as [Hi|Hv].
  - destruct (createDonation_invalid env data w Hi) as [msg ->]. auto.
  - destruct (donorCPF_cases data) as [[cpf Hcpf]|Hns].
    2:{ rewrite (createDonation_not_a_string env data w Hv Hns). auto. }
    rewrite (createDonation_valid env data cpf w Hcpf Hv).
    destruct (partners_where_cpf env _) as [err|[p|]]; auto.
    pose proof (createImmediatePixCharge_request env
      {| PixService.amount := DonationService.amount data;
         PixService.donorCPF := JS.removeNonDigits cpf;
         PixService.donorName := Partner.name p |} w) as (_ & Hd & Hh).
    destruct (PixService.createImmediatePixCharge _ _ _) as [[d|e] w1]; auto.
Qed.

Lemma set_merge_In_inv i data ds j x :
  In (j, x) (Donation.set_merge i data ds) ->
  In (j, x) ds \/ x = data.
Proof.
  induction ds as [|[k y] rest IH]; simpl.
  - intros [[= _ <-]|[]]. right. reflexivity.
  - destruct (Nat.eqb k i).
    + intros [[= _ <-]|H]; [right; reflexivity|left; right; exact H].
    + intros [H|H]; [left; left; exact H|].
      destruct (IH H); [left; right|right]; assumption.
Qed.

(** What [save] does to the collection: nothing when the write fails, the
    document of its id replaced, or one document added; in each case the
    document written carries the transaction id of the model. *)
Lemma save_donations env this w :
  let ds := donations (snd (Donation.save env this w)) in
  ds = donations w
  \/ (exists i created,
         ds = Donation.set_merge i (Donation.dataToSave this created) (donations w))
  \/ (exists i created,
         ds = (donations w ++ [(i, Donation.dataToSave this created)])%list).
Proof.
  unfold Donation.save. unfold_async.
  destruct (Donation.id this) as [i|];
    destruct (donations_write_error env _); simpl; eauto.
Qed.

Lemma all_rows_seen_saved env this w seen :
  all_rows_seen seen (donations w) ->
  (exists txId, Donation.txId this = Some txId /\ In txId seen) ->
  all_rows_seen seen (donations (snd (Donation.save env this w))).
Proof.
  intros Hinv Hthis.
  destruct (save_donations env this w) as [->|[(i & c & ->)|(i & c & ->)]];
    [exact Hinv| |].
  - intros j x Hin. apply set_merge_In_inv in Hin as [Hin| ->];
      [exact (Hinv j x Hin)|exact Hthis].
  - intros j x Hin. apply in_app_or in Hin as [Hin|[[= _ <-]|[]]];
      [exact (Hinv j x Hin)|exact Hthis].
Qed.

Lemma reconcile_rows_seen env txId w seen :
  faithful env ->
  In txId seen ->
  all_rows_seen seen (donations w) ->
  all_rows_seen seen
    (donations (snd (DonationService.reconcile env txId (found txId w) w))).
Proof.
  intros Hfaith Hseen Hinv.
  unfold DonationService.reconcile, bind.
  destruct (efi_pixDetailCharge env txId) as [err|charge] eqn:Hc.
  { destruct (getPixDetails_fails env txId w err Hc) as [msg ->]. exact Hinv. }
  rewrite (getPixDetails_ok env txId w charge Hc).
  set (w0 := sent (PixDetailCharge txId) w).
  assert (Hinv0 : all_rows_seen seen (donations w0)) by exact Hinv.
  assert (Hsaved : forall this,
             (exists t, Donation.txId this = Some t /\ In t seen) ->
             all_rows_seen seen
               (donations
                  (snd (let (r, w') := Donation.save env this w0 in
                        match r with
                        | Return a => ret (Some a) w'
                        | Throw e => (Throw e, w')
                        end)))).
  { intros this Hthis.
    pose proof (all_rows_seen_saved env this w0 seen Hinv0 Hthis) as H.
    destruct (Donation.save env this w0) as [[a|e] w1]; exact H. }
  destruct (Charge.valor charge) as [valor|]; [|exact Hinv].
  assert (Hfound : forall d, found txId w = Some d ->
             exists t, Donation.txId d = Some t /\ In t seen).
  { unfold found. intros d.
    destruct (DonationService.where_txId txId (donations w)) as [[i x]|] eqn:Hrow;
      [|discriminate].
    intros [= <-]. apply where_txId_Some in Hrow as [Hin _].
    exact (Hinv i x Hin). }
  destruct (DonationService.strict_eqb (Charge.status charge) _).
  - destruct (found txId w) as [d|].
    + destruct (negb _); [|exact Hinv]. apply Hsaved. apply (Hfound d eq_refl).
    + destruct (match Charge.devedor charge with
                | Some d => Devedor.cpf d | None => None end) as [cpf|];
        [|exact Hinv].
      destruct (_ || _); [exact Hinv|].
      rewrite findByExactCPF_cases.
      destruct (partners_where_cpf env cpf) as [err|p]; [exact Hinv|].
      apply Hsaved. simpl. exists txId. split; [apply Hfaith, Hc|exact Hseen].
  - destruct (found txId w) as [d|]; [|exact Hinv].
    destruct (negb _); [|exact Hinv]. apply Hsaved. apply (Hfound d eq_refl).
Qed.

Lemma rethrow_world {A} txId e w :
  snd (@DonationService.rethrow A txId e w) = w.
Proof.
  unfold DonationService.rethrow, throw.
  destruct (_ || _); [reflexivity|]. destruct (has_response e); reflexivity.
Qed.

Lemma handlePixWebhook_rows_seen env payload w seen :
  faithful env ->
  (forall txId, truthy_txid payload = Some txId -> In txId seen) ->
  all_rows_seen seen (donations w) ->
  all_rows_seen seen
    (donations (snd (DonationService.handlePixWebhook env payload w))).
Proof.
  intros Hfaith Hseen Hinv. unfold truthy_txid in Hseen.
  destruct (PixPayload.txid payload) as [txId|] eqn:Ht.
  2:{ unfold DonationService.handlePixWebhook. rewrite Ht. exact Hinv. }
  destruct (JS.falsy_string txId) eqn:Hf.
  { unfold DonationService.handlePixWebhook. rewrite Ht, Hf. exact Hinv. }
  destruct (donations_query_error env txId) as [msg|] eqn:Hq.
  { unfold DonationService.handlePixWebhook, DonationService.findByTxId.
    rewrite Ht, Hf, Hq. exact Hinv. }
  rewrite (handlePixWebhook_unfold env payload txId w Ht Hf Hq).
  pose proof (reconcile_rows_seen env txId w seen Hfaith (Hseen txId eq_refl) Hinv)
    as H.
  unfold try_catch.
  destruct (DonationService.reconcile env txId (found txId w) w) as [[a|e] w1];
    [exact H|].
  rewrite rethrow_world. exact H.
Qed.

Lemma handled_rows_seen env seen pix : forall w,
  faithful env ->
  (forall payload txId,
      In payload pix -> truthy_txid payload = Some txId -> In txId seen) ->
  all_rows_seen seen (donations w) ->
  all_rows_seen seen (donations (handled env pix w)).
Proof.
  induction pix as [|payload rest IH]; intros w Hfaith Hseen Hinv; simpl;
    [exact Hinv|].
  assert (Hrest : forall p t, In p rest -> truthy_txid p = Some t -> In t seen)
    by (intros p t Hin; apply Hseen; right; exact Hin).
  destruct (truthy_txid payload) as [txId|] eqn:Ht; [|apply IH; assumption].
  apply IH; [exact Hfaith|exact Hrest|].
  apply handlePixWebhook_rows_seen; [exact Hfaith| |exact Hinv].
  intros t Hp. apply (Hseen payload); [left; reflexivity|exact Hp].
Qed.

Lemma postPix_rows_seen env body w seen :
  faithful env ->
  (forall txId, In txId (webhook_txids (PostPix env body)) -> In txId seen) ->
  all_rows_seen seen (donations w) ->
  all_rows_seen seen (donations (snd (Webhook.postPix env body w))).
Proof.
  intros Hfaith Hseen Hinv.
  destruct body as [[[pix|]]|]; try exact Hinv.
  rewrite postPix_store. apply handled_rows_seen; [exact Hfaith| |exact Hinv].
  intros p t Hin Ht. apply Hseen. cbn [webhook_txids].
  apply list_elem_of_In, list_elem_of_omap. exists p.
  split; [apply list_elem_of_In, Hin|exact Ht].
Qed.

Lemma all_rows_seen_mono seen seen' ds :
  (forall t, In t seen -> In t seen') ->
  all_rows_seen seen ds -> all_rows_seen seen' ds.
Proof.
  intros Hsub H i d Hin. destruct (H i d Hin) as (t & Ht & Hs).
  exists t. split; [exact Ht|apply Hsub, Hs].
Qed.

Lemma step_rows_seen w ev seen :
  (forall env, env_of ev = Some env -> faithful env) ->
  all_rows_seen seen (donations w) ->
  all_rows_seen (seen ++ webhook_txids ev) (donations (step w ev)).
Proof.
  intros Hfaith Hinv.
  assert (Hinv' : all_rows_seen (seen ++ webhook_txids ev) (donations w)).
  { revert Hinv. apply all_rows_seen_mono. intros t Ht. apply in_or_app. auto. }
  destruct ev as [env data|env payload|env body|txId conn|conn]; simpl step.
  - rewrite (proj1 (createDonation_writes_nothing env data w)). exact Hinv'.
  - apply handlePixWebhook_rows_seen; [apply Hfaith; reflexivity| |exact Hinv'].
    intros t Ht. apply in_or_app. right. simpl. rewrite Ht. left. reflexivity.
  - apply postPix_rows_seen; [apply Hfaith; reflexivity| |exact Hinv'].
    intros t Ht. apply in_or_app. right. exact Ht.
  - exact Hinv'.
  - exact Hinv'.
Qed.

Lemma run_rows_seen trace : forall w seen,
  (forall ev env, In ev trace -> env_of ev = Some env -> faithful env) ->
  all_rows_seen seen (donations w) ->
  all_rows_seen (seen ++ observed trace) (donations (run w trace)).
Proof.
  induction trace as [|ev rest IH]; intros w seen Hfaith Hinv.
  - unfold observed. simpl. rewrite app_nil_r. exact Hinv.
  - unfold observed. simpl. rewrite app_assoc. apply IH.
    + intros e env Hin. apply Hfaith. right. exact Hin.
    + apply step_rows_seen; [|exact Hinv].
      intros env. apply Hfaith. left. reflexivity.
Qed.

(** C2. Creating a charge writes nothing to the donations
    collection; and in every state the system reaches from the empty store,
    with a gateway that answers a detail request with the charge asked for,
    every stored document carries the transaction id of a notification that
    was processed. (The converse does not hold: a notification for a charge
    that is not completed and has no record leaves none.) *)
Theorem lazy_materialization :
  (forall env data w,
      donations (snd (DonationService.createDonation env data w)) = donations w)
  /\ (forall trace,
        (forall ev env, In ev trace -> env_of ev = Some env -> faithful env) ->
        all_rows_seen (observed trace) (donations (run initial trace))).
Proof.
  split.
  - intros env data w. apply createDonation_writes_nothing.
  - intros trace Hfaith.
    apply (run_rows_seen trace initial [] Hfaith).
    intros i d [].
Qed.

Lemma faithful_sample status :
  faithful (Sample.env (fun txid => inr (Sample.charge txid status))).
Proof. intros txId charge [= <-]. reflexivity. Qed.

Lemma lazy_materialization_witness :
  donations (snd (DonationService.createDonation Sample.paid request_of_jane initial))
  = donations initial
  /\ donations (run initial paid_trace) = [(1%nat, materialized)]
  /\ exists txId,
       Doc.txId materialized = Some txId /\ In txId (observed paid_trace).
Proof.
  destruct lazy_materialization as [Hcreate Hrows].
  split; [apply Hcreate|]. split; [vm_compute; reflexivity|].
  apply (Hrows paid_trace) with (i := 1%nat).
  - intros ev env [<-|[<-|[<-|[]]]] [= <-]; apply faithful_sample.
  - vm_compute. left. reflexivity.
Defined.

(** Against C2 as worded, in the direction from notification to row: a
    notification for "abc123" whose charge is still active is
    processed, and the store holds no document for it. *)
Lemma webhook_observed_without_row :
  faithful Sample.active
  /\ In "abc123" (observed unpaid_trace)
  /\ donations (run initial unpaid_trace) = []
  /\ rows_of "abc123" (run initial unpaid_trace) = [].
Proof.
  split; [apply faithful_sample|].
  vm_compute. repeat split. left. reflexivity.
Qed.

(* ===================================================================== *)
(** * Further properties of the reconciliation handler *)
(* ===================================================================== *)

Lemma fresh_id_above ds i d : In (i, d) ds -> (i < Donation.fresh_id ds)%nat.
Proof.
  unfold Donation.fresh_id. induction ds as [|[j x] rest IH]; simpl; [tauto|].
  intros [[= -> ->]|Hin]; [lia|]. specialize (IH Hin). lia.
Qed.

Lemma fresh_id_not_in ds : ~ In (Donation.fresh_id ds) (ids ds).
Proof.
  unfold ids. intros Hin. apply in_map_iff in Hin as ([j x] & Hj & Hin).
  simpl in Hj. apply fresh_id_above in Hin. lia.
Qed.

Lemma save_add env this w :
  Donation.id this = None ->
  donations_write_error env (Donation.dataToSave this (serverTimestamp env))
  = None ->
  Donation.save env this w
  = (Return (Donation.set_id (Donation.fresh_id (donations w)) this),
     {| donations :=
          (donations w
             ++ [(Donation.fresh_id (donations w),
                  Donation.dataToSave this (serverTimestamp env))])%list;
        efi_requests := efi_requests w;
        hub := hub w |}).
Proof.
  intros Hi Hw. unfold Donation.save. rewrite Hi, Hw. reflexivity.
Qed.

(** The body of the [try] on a confirmed payment without a record. *)
Lemma reconcile_materializes env txId w charge valor partner :
  efi_pixDetailCharge env txId = inr charge ->
  Charge.status charge = Some "CONCLUIDA" ->
  Charge.valor charge = Some valor ->
  JS.falsy_opt (payer_cpf charge) = false ->
  JS.falsy_opt (payer_name charge) = false ->
  JS.falsy_number (reported_amount valor) = false ->
  (forall cpf, payer_cpf charge = Some cpf -> partners_where_cpf env cpf = inr partner) ->
  donations_write_error env (expected_doc env charge valor partner) = None ->
  DonationService.reconcile env txId None w
  = (Return (Some (Donation.set_id (Donation.fresh_id (donations w))
                     (new_donation charge valor partner))),
     {| donations :=
          (donations w
             ++ [(Donation.fresh_id (donations w),
                  expected_doc env charge valor partner)])%list;
        efi_requests := (efi_requests w ++ [PixDetailCharge txId])%list;
        hub := hub w |}).
Proof.
  intros Hc Hs Hv Hcpf Hname Hamount Hpartner Hw.
  unfold DonationService.reconcile, bind.
  rewrite (getPixDetails_ok env txId w charge Hc), Hv, Hs. simpl.
  unfold expected_doc, new_donation in *.
  unfold payer_cpf, payer_name, reported_amount in *.
  destruct (match Charge.devedor charge with Some d => Devedor.cpf d | None => None end)
    as [cpf|] eqn:Ecpf; [|discriminate].
  simpl in Hcpf. rewrite Hcpf, Hname, Hamount. simpl.
  rewrite findByExactCPF_cases, (Hpartner cpf eq_refl).
  rewrite save_add; [reflexivity|reflexivity|exact Hw].
Qed.



Lemma restamped_dataToSave status i d :
  Donation.dataToSave (Donation.set_status status (Donation.ofDoc i d))
    (Timestamp_fromDate
       (newDate (_seconds (Doc.createdAt d)) (_nanoseconds (Doc.createdAt d))))
  = restamped status d.
Proof. reflexivity. Qed.



(** X3. A notification whose charge is not completed and for which nothing
    is stored writes nothing: all that happened is the one detail request.
    The handler returns null when the gateway's answer has a [valor]
    object; when it has none, [valor.original] is read before the status is
    looked at and the handler fails with the [DatabaseError] of an
    unexpected failure. *)
Theorem unconfirmed_without_record env payload txId w charge :
  PixPayload.txid payload = Some txId ->
  JS.falsy_string txId = false ->
  donations_query_error env txId = None ->
  DonationService.where_txId txId (donations w) = None ->
  efi_pixDetailCharge env txId = inr charge ->
  Charge.status charge <> Some "CONCLUIDA" ->
  DonationService.handlePixWebhook env payload w
  = (match Charge.valor charge with
     | Some _ => Return None
     | None =>
         Throw (DatabaseError ("Erro inesperado ao processar transação " ++ txId))
     end,
     sent (PixDetailCharge txId) w).
Proof.
  intros Ht Hf Hq Hnone Hc Hs.
  rewrite (handlePixWebhook_unfold env payload txId w Ht Hf Hq).
  unfold found. rewrite Hnone.
  unfold try_catch, DonationService.reconcile, bind.
  rewrite (getPixDetails_ok env txId w charge Hc).
  destruct (Charge.valor charge) as [valor|]; [|reflexivity].
  destruct (DonationService.strict_eqb (Charge.status charge) _) eqn:E;
    [|reflexivity].
  apply strict_eqb_eq in E. contradiction.
Qed.

Lemma unconfirmed_without_record_witness :
  DonationService.handlePixWebhook Sample.active (Sample.payload "abc123") initial
  = (Return None, sent (PixDetailCharge "abc123") initial).
Proof.
  apply (unconfirmed_without_record Sample.active (Sample.payload "abc123")
           "abc123" initial (Sample.charge "abc123" "ATIVA")); try reflexivity.
  simpl. discriminate.
Defined.

(** The store's own operations leave the gateway log and the hub alone. *)
Lemma save_frame env this w :
  efi_requests (snd (Donation.save env this w)) = efi_requests w
  /\ hub (snd (Donation.save env this w)) = hub w.
Proof.
  unfold Donation.save. unfold_async.
  destruct (Donation.id this); destruct (donations_write_error env _);
    simpl; auto.
Qed.

(** Whatever the body of the [try] does, it sends the one detail request and
    leaves the hub alone; when it throws, the store too is as it was. *)
Lemma reconcile_frame env txId donation w :
  efi_requests (snd (DonationService.reconcile env txId donation w))
  = (efi_requests w ++ [PixDetailCharge txId])%list
  /\ hub (snd (DonationService.reconcile env txId donation w)) = hub w
  /\ (forall e,
        fst (DonationService.reconcile env txId donation w) = Throw e ->
        donations (snd (DonationService.reconcile env txId donation w))
        = donations w).
Proof.
  unfold DonationService.reconcile, bind.
  destruct (efi_pixDetailCharge env txId) as [err|charge] eqn:Hc.
  { destruct (getPixDetails_fails env txId w err Hc) as [msg ->]. simpl. auto. }
  rewrite (getPixDetails_ok env txId w charge Hc).
  set (w0 := sent (PixDetailCharge txId) w).
  assert (Hsaved : forall this,
             let r := (let (r, w') := Donation.save env this w0 in
                       match r with
                       | Return a => ret (Some a) w'
                       | Throw e => (Throw e, w')
                       end) in
             efi_requests (snd r) = (efi_requests w ++ [PixDetailCharge txId])%list
             /\ hub (snd r) = hub w
             /\ (forall e, fst r = Throw e -> donations (snd r) = donations w)).
  { intros this. pose proof (save_frame env this w0) as [H1 H2].
    destruct (Donation.save env this w0) as [[a|e] w1] eqn:Hs; simpl in *.
    - repeat split; try assumption. discriminate.
    - apply save_throws in Hs as [_ ->]. repeat split; reflexivity. }
  destruct (Charge.valor charge) as [valor|]; [|simpl; auto].
  destruct (DonationService.strict_eqb (Charge.status charge) _).
  - destruct donation as [d|].
    + destruct (negb _); [apply Hsaved|simpl; repeat split; discriminate].
    + destruct (match Charge.devedor charge with
                | Some d => Devedor.cpf d | None => None end) as [cpf|];
        [|simpl; auto].
      destruct (_ || _); [simpl; auto|].
      rewrite findByExactCPF_cases.
      destruct (partners_where_cpf env cpf) as [err|p]; [simpl; auto|].
      apply Hsaved.
  - destruct donation as [d|]; [|simpl; repeat split; discriminate].
    destruct (negb _); [apply Hsaved|simpl; repeat split; discriminate].
Qed.

(** X4. However it ends, a call of the handler sends the gateway at most
    one request, the detail request for the notification's own transaction
    id, and none when the payload has no transaction id or the lookup of
    the record fails; and it never touches the notification hub. *)
Theorem handler_gateway_traffic env payload w :
  efi_requests (snd (DonationService.handlePixWebhook env payload w))
  = (efi_requests w ++ detail_requests env payload)%list
  /\ hub (snd (DonationService.handlePixWebhook env payload w)) = hub w.
Proof.
  unfold detail_requests, truthy_txid.
  destruct (PixPayload.txid payload) as [txId|] eqn:Ht.
  2:{ unfold DonationService.handlePixWebhook. rewrite Ht. simpl.
      rewrite app_nil_r. auto. }
  destruct (JS.falsy_string txId) eqn:Hf.
  { unfold DonationService.handlePixWebhook. rewrite Ht, Hf. simpl.
    rewrite app_nil_r. auto. }
  destruct (donations_query_error env txId) as [msg|] eqn:Hq.
  { unfold DonationService.handlePixWebhook, DonationService.findByTxId.
    rewrite Ht, Hf, Hq. simpl. rewrite app_nil_r. auto. }
  rewrite (handlePixWebhook_unfold env payload txId w Ht Hf Hq).
  pose proof (reconcile_frame env txId (found txId w) w) as (H1 & H2 & _).
  unfold try_catch.
  destruct (DonationService.reconcile env txId (found txId w) w) as [[a|e] w1];
    [auto|].
  rewrite rethrow_world. auto.
Qed.




(** ** What a call may do to the store *)

Lemma save_store env this w :
  let ds := donations (snd (Donation.save env this w)) in
  ds = donations w
  \/ (exists i,
         Donation.id this = Some i
         /\ ds = Donation.set_merge i
                   (Donation.dataToSave this
                      match Donation.createdAt this with
                      | Some d => Timestamp_fromDate d
                      | None => serverTimestamp env
                      end) (donations w))
  \/ (Donation.id this = None
      /\ ds = (donations w
                 ++ [(Donation.fresh_id (donations w),
                      Donation.dataToSave this (serverTimestamp env))])%list).
Proof.
  unfold Donation.save. unfold_async.
  destruct (Donation.id this) as [i|];
    destruct (donations_write_error env _); simpl; eauto.
Qed.

(** What the body of the [try] may do to the store. *)
Lemma reconcile_store env txId w :
  let ds := donations (snd (DonationService.reconcile env txId (found txId w) w)) in
  ds = donations w
  \/ (exists i d status,
         DonationService.where_txId txId (donations w) = Some (i, d)
         /\ ds = Donation.set_merge i (restamped status d) (donations w))
  \/ (exists charge data,
         DonationService.where_txId txId (donations w) = None
         /\ efi_pixDetailCharge env txId = inr charge
         /\ Doc.txId data = Charge.txid charge
         /\ Doc.status data = Some "PAGA"
         /\ ds = (donations w ++ [(Donation.fresh_id (donations w), data)])%list).
Proof.
  unfold DonationService.reconcile, bind.
  destruct (efi_pixDetailCharge env txId) as [err|charge] eqn:Hc.
  { destruct (getPixDetails_fails env txId w err Hc) as [m ->]. left. reflexivity. }
  rewrite (getPixDetails_ok env txId w charge Hc).
  set (w0 := sent (PixDetailCharge txId) w).
  assert (Hsaved : forall this,
             donations
               (snd (let (r, w') := Donation.save env this w0 in
                     match r with
                     | Return a => ret (Some a) w'
                     | Throw e => (Throw e, w')
                     end))
             = donations (snd (Donation.save env this w0))).
  { intros this. destruct (Donation.save env this w0) as [[a|e] w1]; reflexivity. }
  destruct (Charge.valor charge) as [valor|]; [|left; reflexivity].
  unfold found.
  destruct (DonationService.where_txId txId (donations w)) as [[i d]|] eqn:Hrow.
  - assert (Hupdate : forall status,
               let ds := donations
                           (snd (Donation.save env
                                   (Donation.set_status status (Donation.ofDoc i d))
                                   w0)) in
               ds = donations w
               \/ ds = Donation.set_merge i (restamped status d) (donations w)).
    { intros status.
      destruct (save_store env (Donation.set_status status (Donation.ofDoc i d)) w0)
        as [H|[(j & [= <-] & H)|[Hid _]]]; [left; exact H| |discriminate Hid].
      right. exact H. }
    destruct (DonationService.strict_eqb (Charge.status charge) _).
    + destruct (negb _); [|left; reflexivity]. cbv zeta. rewrite Hsaved.
      destruct (Hupdate (Some "PAGA")) as [H|H]; [left; exact H|].
      right. left. exists i, d, (Some "PAGA"). auto.
    + destruct (negb _); [|left; reflexivity]. cbv zeta. rewrite Hsaved.
      destruct (Hupdate (Charge.status charge)) as [H|H]; [left; exact H|].
      right. left. exists i, d, (Charge.status charge). auto.
  - destruct (DonationService.strict_eqb (Charge.status charge) _);
      [|left; reflexivity].
    destruct (match Charge.devedor charge with
              | Some d => Devedor.cpf d | None => None end) as [cpf|];
      [|left; reflexivity].
    destruct (_ || _); [left; reflexivity|].
    rewrite findByExactCPF_cases.
    destruct (partners_where_cpf env cpf) as [err|p]; [left; reflexivity|].
    cbv zeta. rewrite Hsaved.
    match goal with
    | |- context [Donation.save env ?this w0] =>
        destruct (save_store env this w0) as [H|[(j & Hid & _)|[_ H]]];
          [left; exact H|discriminate Hid|]
    end.
    right. right. eexists charge, _.
    split; [first [exact Hrow|reflexivity]|]. split; [reflexivity|].
    split; [|split; [|exact H]]; reflexivity.
Qed.

Lemma handler_store_is_reconcile_store env payload txId w :
  PixPayload.txid payload = Some txId ->
  JS.falsy_string txId = false ->
  donations_query_error env txId = None ->
  donations (snd (DonationService.handlePixWebhook env payload w))
  = donations (snd (DonationService.reconcile env txId (found txId w) w)).
Proof.
  intros Ht Hf Hq.
  rewrite (handlePixWebhook_unfold env payload txId w Ht Hf Hq).
  unfold try_catch.
  destruct (DonationService.reconcile env txId (found txId w) w) as [[a|e] w1];
    [reflexivity|]. rewrite rethrow_world. reflexivity.
Qed.

(** X6. A call of the handler changes at most one document of the store:
    it leaves the collection as it was, or writes back the document it found
    for the transaction with another status (and its instant in
    milliseconds), or appends one document under a fresh id, carrying the
    transaction id of the gateway's answer, when it found none. *)
Theorem handler_touches_one_document env payload w :
  let ds := donations (snd (DonationService.handlePixWebhook env payload w)) in
  ds = donations w
  \/ (exists txId i d status,
         truthy_txid payload = Some txId
         /\ DonationService.where_txId txId (donations w) = Some (i, d)
         /\ ds = Donation.set_merge i (restamped status d) (donations w))
  \/ (exists txId charge data,
         truthy_txid payload = Some txId
         /\ DonationService.where_txId txId (donations w) = None
         /\ efi_pixDetailCharge env txId = inr charge
         /\ Doc.txId data = Charge.txid charge
         /\ Doc.status data = Some "PAGA"
         /\ ds = (donations w ++ [(Donation.fresh_id (donations w), data)])%list).
Proof.
  unfold truthy_txid.
  destruct (PixPayload.txid payload) as [txId|] eqn:Ht.
  2:{ unfold DonationService.handlePixWebhook. rewrite Ht. left. reflexivity. }
  destruct (JS.falsy_string txId) eqn:Hf.
  { unfold DonationService.handlePixWebhook. rewrite Ht, Hf. left. reflexivity. }
  destruct (donations_query_error env txId) as [msg|] eqn:Hq.
  { unfold DonationService.handlePixWebhook, DonationService.findByTxId.
    rewrite Ht, Hf, Hq. left. reflexivity. }
  cbv zeta. rewrite (handler_store_is_reconcile_store env payload txId w Ht Hf Hq).
  destruct (reconcile_store env txId w)
    as [H|[(i & d & st & Hrow & H)|(charge & data & Hrow & Hc & Htx & Hst & H)]].
  - left. exact H.
  - right. left. exists txId, i, d, st. auto.
  - right. right. exists txId, charge, data. auto 10.
Qed.

(** ** One row per transaction *)

Lemma set_merge_ids i data ds :
  In i (ids ds) -> ids (Donation.set_merge i data ds) = ids ds.
Proof.
  unfold ids. induction ds as [|[j x] rest IH]; simpl; [tauto|].
  destruct (Nat.eqb j i) eqn:E; [reflexivity|].
  apply Nat.eqb_neq in E. intros [H|H]; [contradiction|].
  simpl. rewrite (IH H). reflexivity.
Qed.

Lemma set_merge_txids i d data ds :
  NoDup (ids ds) ->
  In (i, d) ds ->
  Doc.txId data = Doc.txId d ->
  txids (Donation.set_merge i data ds) = txids ds.
Proof.
  unfold ids, txids. intros Hnd Hin Htx.
  induction ds as [|[j x] rest IH]; simpl; [destruct Hin|].
  inversion Hnd as [|? ? Hnotin Hnd']; subst.
  destruct (Nat.eqb j i) eqn:E.
  - apply Nat.eqb_eq in E. subst j.
    destruct Hin as [[= ->]|Hin].
    + simpl. rewrite Htx. reflexivity.
    + exfalso. apply Hnotin. apply list_elem_of_In, in_map_iff.
      exists (i, d). auto.
  - apply Nat.eqb_neq in E.
    destruct Hin as [[= -> _]|Hin]; [contradiction|].
    specialize (IH Hnd' Hin). simpl.
    destruct (Doc.txId x); [f_equal|]; exact IH.
Qed.

Lemma txids_In ds txId :
  In txId (txids ds) <-> exists i d, In (i, d) ds /\ Doc.txId d = Some txId.
Proof.
  unfold txids. rewrite <- list_elem_of_In, list_elem_of_omap. split.
  - intros ([i d] & Hin & H). exists i, d. split; [apply list_elem_of_In, Hin|exact H].
  - intros (i & d & Hin & H). exists (i, d). split; [apply list_elem_of_In, Hin|exact H].
Qed.

Lemma txids_app ds ds' : txids (ds ++ ds') = (txids ds ++ txids ds')%list.
Proof. unfold txids. apply omap_app. Qed.

Lemma NoDup_snoc {A} (l : list A) x : NoDup l -> ~ In x l -> NoDup (l ++ [x]).
Proof.
  intros Hl Hx. apply NoDup_app. split; [exact Hl|]. split.
  - intros y Hy Hyx. apply list_elem_of_singleton in Hyx. subst y.
    apply Hx, list_elem_of_In, Hy.
  - apply NoDup_singleton.
Qed.

Lemma reconcile_one_row env txId w :
  faithful env ->
  one_row_per_transaction (donations w) ->
  one_row_per_transaction
    (donations (snd (DonationService.reconcile env txId (found txId w) w))).
Proof.
  intros Hfaith [Hids Htx].
  destruct (reconcile_store env txId w)
    as [->|[(i & d & st & Hrow & ->)|(charge & data & Hrow & Hc & Hdata & _ & ->)]].
  - split; assumption.
  - apply where_txId_Some in Hrow as [Hin _]. split.
    + rewrite set_merge_ids; [exact Hids|].
      unfold ids. apply in_map_iff. exists (i, d). auto.
    + rewrite (set_merge_txids i d); auto.
  - split.
    + unfold ids. rewrite map_app. simpl.
      apply NoDup_snoc; [exact Hids|apply fresh_id_not_in].
    + rewrite txids_app. unfold txids at 2. simpl.
      rewrite Hdata, (Hfaith txId charge Hc). simpl.
      apply NoDup_snoc; [exact Htx|].
      intros Hin. apply txids_In in Hin as (j & x & Hin & Hx).
      apply (proj1 (where_txId_None txId (donations w)) Hrow j x Hin Hx).
Qed.

Lemma handler_one_row env payload w :
  faithful env ->
  one_row_per_transaction (donations w) ->
  one_row_per_transaction
    (donations (snd (DonationService.handlePixWebhook env payload w))).
Proof.
  intros Hfaith Hinv.
  destruct (PixPayload.txid payload) as [txId|] eqn:Ht.
  2:{ unfold DonationService.handlePixWebhook. rewrite Ht. exact Hinv. }
  destruct (JS.falsy_string txId) eqn:Hf.
  { unfold DonationService.handlePixWebhook. rewrite Ht, Hf. exact Hinv. }
  destruct (donations_query_error env txId) as [msg|] eqn:Hq.
  { unfold DonationService.handlePixWebhook, DonationService.findByTxId.
    rewrite Ht, Hf, Hq. exact Hinv. }
  rewrite (handler_store_is_reconcile_store env payload txId w Ht Hf Hq).
  apply reconcile_one_row; assumption.
Qed.

Lemma handled_one_row env pix : forall w,
  faithful env ->
  one_row_per_transaction (donations w) ->
  one_row_per_transaction (donations (handled env pix w)).
Proof.
  induction pix as [|payload rest IH]; intros w Hfaith Hinv; simpl;
    [exact Hinv|].
  destruct (truthy_txid payload) as [txId|]; [|apply IH; assumption].
  apply IH; [exact Hfaith|]. apply handler_one_row; assumption.
Qed.

Lemma postPix_one_row env body w :
  faithful env ->
  one_row_per_transaction (donations w) ->
  one_row_per_transaction (donations (snd (Webhook.postPix env body w))).
Proof.
  intros Hfaith Hinv.
  destruct body as [[[pix|]]|]; try exact Hinv.
  rewrite postPix_store. apply handled_one_row; assumption.
Qed.

(** X7. The idempotency key holds as long as requests are served one at a
    time: in every state reached from the empty store by a run, which
    serves each request to its end before the next, with a gateway that
    answers a detail request with the charge asked for, no two documents
    share an id and no two carry the same transaction id, however often and
    in whatever order charges are created, notifications are delivered or
    redelivered, and clients come and go. (Two deliveries served at the
    same time are another matter: see [overlapped].) *)
Theorem one_row_per_transaction_always trace :
  (forall ev env, In ev trace -> env_of ev = Some env -> faithful env) ->
  one_row_per_transaction (donations (run initial trace)).
Proof.
  assert (Hgen : forall w,
             (forall ev env, In ev trace -> env_of ev = Some env -> faithful env) ->
             one_row_per_transaction (donations w) ->
             one_row_per_transaction (donations (run w trace))).
  { induction trace as [|ev rest IH]; intros w Hfaith Hinv; [exact Hinv|].
    simpl. apply IH; [intros e env Hin; apply Hfaith; right; exact Hin|].
    assert (Hev : forall env, env_of ev = Some env -> faithful env).
    { intros env. apply Hfaith. left. reflexivity. }
    destruct ev as [env data|env payload|env body|txId conn|conn]; simpl step.
    - rewrite (proj1 (createDonation_writes_nothing env data w)). exact Hinv.
    - apply handler_one_row; [apply Hev; reflexivity|exact Hinv].
    - apply postPix_one_row; [apply Hev; reflexivity|exact Hinv].
    - exact Hinv.
    - exact Hinv. }
  intros Hfaith. apply Hgen; [exact Hfaith|].
  split; apply NoDup_nil_2.
Qed.

Lemma one_row_per_transaction_always_witness :
  one_row_per_transaction (donations (run initial redelivered_trace))
  /\ donations (run initial redelivered_trace) = [(1%nat, materialized)].
Proof.
  split; [|vm_compute; reflexivity].
  apply (one_row_per_transaction_always redelivered_trace).
  intros ev env [<-|[<-|[<-|[<-|[<-|[]]]]]] [= <-]; apply faithful_sample.
Defined.

Lemma where_txId_snoc txId ds i d :
  DonationService.where_txId txId ds = None ->
  Doc.txId d = Some txId ->
  DonationService.where_txId txId (ds ++ [(i, d)]) = Some (i, d).
Proof.
  intros Hnone Hd. induction ds as [|[j x] rest IH]; simpl in *.
  - rewrite Hd. simpl. rewrite String.eqb_refl. reflexivity.
  - destruct (DonationService.strict_eqb (Doc.txId x) (Some txId));
      [discriminate|]. apply IH, Hnone.
Qed.

(** X8. What a confirmed payment materializes, the next lookup finds: after
    the handler has created the record of a transaction, [findByTxId] for
    that transaction returns it, with its id and status PAGA, provided the
    gateway's answer carried the transaction id that was asked for. *)
Theorem materialized_record_is_found env payload txId w charge valor partner :
  PixPayload.txid payload = Some txId ->
  JS.falsy_string txId = false ->
  donations_query_error env txId = None ->
  DonationService.where_txId txId (donations w) = None ->
  efi_pixDetailCharge env txId = inr charge ->
  Charge.txid charge = Some txId ->
  Charge.status charge = Some "CONCLUIDA" ->
  Charge.valor charge = Some valor ->
  JS.falsy_opt (payer_cpf charge) = false ->
  JS.falsy_opt (payer_name charge) = false ->
  JS.falsy_number (reported_amount valor) = false ->
  (forall cpf, payer_cpf charge = Some cpf -> partners_where_cpf env cpf = inr partner) ->
  (forall data, donations_write_error env data = None) ->
  let w' := snd (DonationService.handlePixWebhook env payload w) in
  exists stored,
    DonationService.findByTxId env txId w' = (Return (Some stored), w')
    /\ Donation.id stored = Some (Donation.fresh_id (donations w))
    /\ Donation.status stored = Some "PAGA"
    /\ Donation.txId stored = Some txId
    /\ Donation.amount stored = reported_amount valor.
Proof.
  intros Ht Hf Hq Hnone Hc Htx Hs Hv Hcpf Hname Hamount Hpartner Hw w'.
  assert (Hds : donations w'
                = (donations w
                     ++ [(Donation.fresh_id (donations w),
                          expected_doc env charge valor partner)])%list).
  { subst w'.
    rewrite (handler_store_is_reconcile_store env payload txId w Ht Hf Hq).
    unfold found. rewrite Hnone.
    rewrite (reconcile_materializes env txId w charge valor partner)
      by (assumption || apply Hw).
    reflexivity. }
  unfold DonationService.findByTxId. rewrite Hq.
  unfold bind, get_donations. rewrite Hds.
  rewrite (where_txId_snoc txId (donations w) _ _ Hnone) by exact Htx.
  eexists. split; [reflexivity|]. simpl. repeat split; [exact Htx].
Qed.

Lemma materialized_record_is_found_witness :
  let w' := snd (DonationService.handlePixWebhook Sample.paid
                   (Sample.payload "abc123") initial) in
  exists stored,
    DonationService.findByTxId Sample.paid "abc123" w' = (Return (Some stored), w')
    /\ Donation.id stored = Some (Donation.fresh_id (donations initial))
    /\ Donation.status stored = Some "PAGA"
    /\ Donation.txId stored = Some "abc123"
    /\ Donation.amount stored
       = reported_amount {| Valor.original := Some "50.00" |}.
Proof.
  apply (materialized_record_is_found Sample.paid (Sample.payload "abc123")
           "abc123" initial (Sample.charge "abc123" "CONCLUIDA")
           {| Valor.original := Some "50.00" |} (Some Sample.jane));
    try reflexivity.
  intros cpf [= <-]. reflexivity.
Defined.

(** ** Two deliveries at the same time *)

(** X22. The lookup before the write does not keep two deliveries served at
    the same time from both creating the record: when both lookups of a
    confirmed payment find nothing, each call goes on to add a document,
    and the store ends with two documents for the one transaction, under
    two ids. (Conditions as for a single creation: the gateway's answer
    names the transaction, the payer and a non-zero amount, and the store
    accepts the document.) *)
Theorem overlapping_deliveries_duplicate env txId w charge valor partner :
  JS.falsy_string txId = false ->
  donations_query_error env txId = None ->
  DonationService.where_txId txId (donations w) = None ->
  efi_pixDetailCharge env txId = inr charge ->
  Charge.txid charge = Some txId ->
  Charge.status charge = Some "CONCLUIDA" ->
  Charge.valor charge = Some valor ->
  JS.falsy_opt (payer_cpf charge) = false ->
  JS.falsy_opt (payer_name charge) = false ->
  JS.falsy_number (reported_amount valor) = false ->
  (forall cpf, payer_cpf charge = Some cpf -> partners_where_cpf env cpf = inr partner) ->
  donations_write_error env (expected_doc env charge valor partner) = None ->
  exists first second w' i j,
    overlapped env txId w = (Return (Some first, Some second), w')
    /\ donations w'
       = (donations w
            ++ [(i, expected_doc env charge valor partner);
                (j, expected_doc env charge valor partner)])%list
    /\ i <> j
    /\ Donation.id first = Some i
    /\ Donation.id second = Some j
    /\ List.length (rows_of txId w') = 2%nat
    /\ ~ one_row_per_transaction (donations w').
Proof.
  intros _ Hq Hnone Hc Htx Hs Hv Hcpf Hname Hamount Hpartner Hw.
  assert (Hfind : DonationService.findByTxId env txId w = (Return None, w)).
  { unfold DonationService.findByTxId, bind, get_donations, ret.
    rewrite Hq, Hnone. reflexivity. }
  unfold overlapped, bind. rewrite Hfind. cbv beta iota. rewrite Hfind.
  cbv beta iota. unfold try_catch.
  rewrite (reconcile_materializes env txId w charge valor partner) by assumption.
  rewrite (reconcile_materializes env txId _ charge valor partner) by assumption.
  cbn [donations efi_requests hub]. unfold ret.
  set (doc := expected_doc env charge valor partner).
  set (i := Donation.fresh_id (donations w)).
  set (j := Donation.fresh_id (donations w ++ [(i, doc)])).
  assert (Hij : i <> j).
  { assert (H : (i < j)%nat);
      [apply (fresh_id_above _ i doc), in_or_app; right; left; reflexivity|lia]. }
  assert (Hdoc : Doc.txId doc = Some txId) by exact Htx.
  eexists _, _, _, i, j. split; [reflexivity|]. cbn [donations].
  split; [rewrite <- app_assoc; reflexivity|].
  split; [exact Hij|]. split; [reflexivity|]. split; [reflexivity|].
  rewrite <- app_assoc. cbn [app]. split.
  - unfold rows_of. cbn [donations]. rewrite filter_app.
    assert (Hnil : filter (fun r => Doc.txId r.2 = Some txId) (donations w) = []).
    { pose proof (proj1 (where_txId_None txId (donations w)) Hnone) as Hno.
      clear - Hno.
      induction (donations w) as [|[k x] rest IH]; [reflexivity|].
      rewrite filter_cons_False.
      - apply IH. intros a b Hin. apply (Hno a b). right. exact Hin.
      - simpl. apply (Hno k x). left. reflexivity. }
    rewrite Hnil. cbn [app].
    rewrite !filter_cons_True by exact Hdoc. reflexivity.
  - intros [_ Hdup]. unfold txids in Hdup.
    rewrite omap_app in Hdup. apply NoDup_app in Hdup as (_ & _ & Hdup).
    subst doc. simpl in Hdup. rewrite Htx in Hdup.
    apply NoDup_cons in Hdup as [Hdup _]. apply Hdup. left.
Qed.

Lemma overlapping_deliveries_duplicate_witness :
  exists first second w' i j,
    overlapped Sample.paid "abc123" initial = (Return (Some first, Some second), w')
    /\ donations w' = [(i, materialized); (j, materialized)]
    /\ i <> j.
Proof.
  destruct (overlapping_deliveries_duplicate Sample.paid "abc123" initial
              (Sample.charge "abc123" "CONCLUIDA")
              {| Valor.original := Some "50.00" |} (Some Sample.jane))
    as (first & second & w' & i & j & Hrun & Hds & Hij & _);
    try reflexivity.
  { intros cpf [= <-]. reflexivity. }
  exists first, second, w', i, j. split; [exact Hrun|]. split; [exact Hds|].
  exact Hij.
Defined.

(* ===================================================================== *)
(** * Further properties of the notification hub *)
(* ===================================================================== *)

Lemma NoDup_map_injective {A B} (f : A -> B) (l : list A) a b :
  NoDup (map f l) -> In a l -> In b l -> f a = f b -> a = b.
Proof.
  induction l as [|x l IH]; simpl; [tauto|].
  intros Hnd Ha Hb Hf. apply NoDup_cons in Hnd as [Hx Hnd].
  destruct Ha as [->|Ha], Hb as [->|Hb]; [reflexivity| | |apply IH; assumption].
  - exfalso. apply Hx. rewrite Hf. apply list_elem_of_In, in_map, Hb.
  - exfalso. apply Hx. rewrite <- Hf. apply list_elem_of_In, in_map, Ha.
Qed.

Lemma write_healthy c k h :
  hub_healthy h -> hub_healthy (SSEService.write c k h).
Proof. intros H. exact H. Qed.

Lemma addClient_healthy txId conn h :
  hub_healthy h -> hub_healthy (SSEService.addClient txId conn h).
Proof.
  intros (Hentries & Hls & Hts & Hnd).
  unfold hub_healthy, SSEService.addClient. simpl.
  split; [|split; [|split]].
  - intros k c t Hk. destruct (decide (txId = k)) as [<-|Hne].
    + rewrite lookup_insert_eq in Hk. injection Hk as <- <-.
      split; [apply in_or_app; right; left; reflexivity|apply lookup_insert_eq].
    + rewrite lookup_insert_ne in Hk by exact Hne.
      destruct (Hentries k c t Hk) as [Hin Ht].
      split; [apply in_or_app; left; exact Hin|].
      rewrite lookup_insert_ne; [exact Ht|].
      specialize (Hts t c Ht). lia.
  - intros l Hin. apply in_app_or in Hin as [Hin|[<-|[]]].
    + specialize (Hls l Hin). lia.
    + unfold listener_timer. simpl. lia.
  - intros t c Ht. destruct (decide (SSEService.nextTimer h = t)) as [<-|Hne].
    + lia.
    + rewrite lookup_insert_ne in Ht by exact Hne. specialize (Hts t c Ht). lia.
  - rewrite map_app. simpl. apply NoDup_snoc; [exact Hnd|].
    intros Hin. apply in_map_iff in Hin as (l & Hl & Hin).
    specialize (Hls l Hin). unfold listener_timer in *. simpl in Hl. lia.
Qed.

Lemma runListeners_healthy conn ls h :
  (forall l, In l ls -> In l (SSEService.listeners h)) ->
  hub_healthy h -> hub_healthy (SSEService.runListeners conn ls h).
Proof.
  revert h. induction ls as [|[c [tx t]] rest IH]; intros h Hsub Hh;
    [exact Hh|]. simpl.
  destruct (Nat.eqb c conn) eqn:E.
  2:{ apply IH; [|exact Hh]. intros l Hl. apply Hsub. right. exact Hl. }
  apply IH.
  { intros l Hl. simpl. apply Hsub. right. exact Hl. }
  destruct Hh as (Hentries & Hls & Hts & Hnd).
  assert (Hmine : In (c, (tx, t)) (SSEService.listeners h)).
  { apply Hsub. left. reflexivity. }
  unfold hub_healthy, SSEService.onClose. simpl.
  split; [|split; [|split]]; [|exact Hls| |exact Hnd].
  - intros k c' t' Hk.
    destruct (decide (tx = k)) as [<-|Hne];
      [rewrite lookup_delete_eq in Hk; discriminate|].
    rewrite lookup_delete_ne in Hk by exact Hne.
    destruct (Hentries k c' t' Hk) as [Hin Ht'].
    split; [exact Hin|].
    rewrite lookup_delete_ne; [exact Ht'|].
    intros <-.
    pose proof (NoDup_map_injective listener_timer _ _ _ Hnd Hmine Hin eq_refl)
      as Heq.
    injection Heq as _ Hk'. contradiction.
  - intros t' c' Ht'. destruct (decide (t = t')) as [<-|Hne];
      [rewrite lookup_delete_eq in Ht'; discriminate|].
    rewrite lookup_delete_ne in Ht' by exact Hne. exact (Hts t' c' Ht').
Qed.

Lemma close_healthy conn h :
  hub_healthy h -> hub_healthy (SSEService.close conn h).
Proof.
  intros Hh. unfold SSEService.close. apply runListeners_healthy; auto.
Qed.

(** A notification only ever writes: the registry, the timers and the
    listeners are as before, and what is written goes to the connections
    the registry holds under the notices' transaction ids. *)
Lemma notifyOne_effect h notice :
  SSEService.clients (SSEService.notifyOne h notice) = SSEService.clients h
  /\ SSEService.intervals (SSEService.notifyOne h notice) = SSEService.intervals h
  /\ SSEService.nextTimer (SSEService.notifyOne h notice) = SSEService.nextTimer h
  /\ SSEService.listeners (SSEService.notifyOne h notice) = SSEService.listeners h
  /\ exists new,
       SSEService.written (SSEService.notifyOne h notice)
       = (SSEService.written h ++ new)%list
       /\ (new = []
           \/ exists k client d,
                SSEService.txid notice = Some k
                /\ SSEService.clients h !! k = Some client
                /\ SSEService.ev_txid d = SSEService.txId notice
                /\ SSEService.ev_pagador d
                   = or_else (SSEService.donorName notice)
                       (or_else (SSEService.infoPagador notice) "Desconhecido")
                /\ SSEService.ev_status d = SSEService.status notice
                /\ new = [(SSEService.res client, SSEService.EventLine);
                          (SSEService.res client, SSEService.EventData d)]).
Proof.
  unfold SSEService.notifyOne.
  destruct (SSEService.txid notice) as [k|] eqn:Hk.
  2:{ repeat split. exists []. rewrite app_nil_r. auto. }
  destruct (SSEService.clients h !! k) as [client|] eqn:Hc.
  2:{ repeat split. exists []. rewrite app_nil_r. auto. }
  simpl. repeat split. eexists. split; [rewrite <- app_assoc; reflexivity|].
  right. eexists k, client, _.
  split; [reflexivity|]. split; [first [exact Hc|reflexivity]|].
  repeat split; reflexivity.
Qed.

Lemma notify_effect notices : forall h,
  SSEService.clients (fold_left SSEService.notifyOne notices h)
  = SSEService.clients h
  /\ SSEService.intervals (fold_left SSEService.notifyOne notices h)
     = SSEService.intervals h
  /\ SSEService.nextTimer (fold_left SSEService.notifyOne notices h)
     = SSEService.nextTimer h
  /\ SSEService.listeners (fold_left SSEService.notifyOne notices h)
     = SSEService.listeners h
  /\ exists new,
       SSEService.written (fold_left SSEService.notifyOne notices h)
       = (SSEService.written h ++ new)%list
       /\ Forall (fun w => addressed h notices (fst w)) new.
Proof.
  induction notices as [|notice rest IH]; intros h; simpl.
  - repeat split. exists []. rewrite app_nil_r. auto.
  - destruct (notifyOne_effect h notice) as (Hc & Hi & Hn & Hl & new1 & Hw & Hnew).
    destruct (IH (SSEService.notifyOne h notice))
      as (Hc' & Hi' & Hn' & Hl' & new2 & Hw' & Hnew2).
    rewrite Hc', Hi', Hn', Hl', Hc, Hi, Hn, Hl. repeat split.
    exists (new1 ++ new2)%list. split; [rewrite Hw', Hw, app_assoc; reflexivity|].
    apply Forall_app. split.
    + destruct Hnew as [->|(k & client & d & Hk & Hcl & _ & _ & _ & ->)];
        [constructor|].
      assert (Ha : addressed h (notice :: rest) (SSEService.res client)).
      { exists notice, k, client. repeat split; auto. left. reflexivity. }
      repeat constructor; exact Ha.
    + eapply Forall_impl; [exact Hnew2|].
      intros [c chunk] (n & k & client & Hin & Hk & Hcl & Hres). simpl in *.
      exists n, k, client. rewrite Hc in Hcl. repeat split; auto.
      right. exact Hin.
Qed.

Lemma notifyDonationPaid_fold notices h :
  SSEService.notifyDonationPaid notices h
  = fold_left SSEService.notifyOne notices h.
Proof. destruct notices; reflexivity. Qed.

Lemma deliveries_unaddressed c h h' new :
  SSEService.written h' = (SSEService.written h ++ new)%list ->
  Forall (fun w : SSEService.ConnId * SSEService.Chunk => fst w <> c) new ->
  SSEService.deliveries c h' = SSEService.deliveries c h.
Proof.
  intros Hw Hnew. unfold SSEService.deliveries. rewrite Hw, omap_app.
  rewrite <- (app_nil_r (omap _ (SSEService.written h))) at 2. f_equal.
  clear Hw. induction Hnew as [|[c' chunk] rest Hne _ IH]; [reflexivity|].
  simpl in *. destruct chunk; try exact IH.
  destruct (Nat.eqb c' c) eqn:E; [|exact IH].
  apply Nat.eqb_eq in E. contradiction.
Qed.

(** X9. Publishing writes only to the subscribers of the published
    transactions: whatever the batch, the registry and the timers are as
    before, every chunk written goes to a connection registered under the
    transaction id of one of the notices, and a connection that is
    registered under none of them receives nothing. *)
Theorem notification_isolation notices h :
  let h' := SSEService.notifyDonationPaid notices h in
  SSEService.clients h' = SSEService.clients h
  /\ SSEService.intervals h' = SSEService.intervals h
  /\ (exists new,
         SSEService.written h' = (SSEService.written h ++ new)%list
         /\ Forall (fun w => addressed h notices (fst w)) new)
  /\ (forall conn,
         ~ addressed h notices conn ->
         SSEService.deliveries conn h' = SSEService.deliveries conn h).
Proof.
  cbv zeta. rewrite notifyDonationPaid_fold.
  destruct (notify_effect notices h) as (Hc & Hi & _ & _ & new & Hw & Hnew).
  split; [exact Hc|]. split; [exact Hi|]. split; [exists new; auto|].
  intros conn Hno. apply (deliveries_unaddressed conn h _ new Hw).
  eapply Forall_impl; [exact Hnew|].
  intros [c chunk] Ha. simpl in *. intros ->. contradiction.
Qed.

Lemma notification_isolation_witness :
  SSEService.deliveries 2%nat
    (SSEService.notifyDonationPaid [notice_for "abc123"] two_transactions)
  = SSEService.deliveries 2%nat two_transactions
  /\ List.length
       (SSEService.deliveries 1%nat
          (SSEService.notifyDonationPaid [notice_for "abc123"] two_transactions))
     = 1%nat.
Proof.
  split; [|vm_compute; reflexivity].
  apply (notification_isolation [notice_for "abc123"] two_transactions).
  intros (n & k & client & [<-|[]] & [= <-] & Hc & Hres).
  vm_compute in Hc. injection Hc as <-. discriminate Hres.
Defined.

(** X10. A notice for a transaction nobody is registered under is dropped
    without a trace: when none of the notices' transaction ids has a
    subscriber, publishing leaves the hub exactly as it was. *)
Theorem unsubscribed_notices_are_dropped notices h :
  (forall notice k,
      In notice notices -> SSEService.txid notice = Some k ->
      SSEService.clients h !! k = None) ->
  SSEService.notifyDonationPaid notices h = h.
Proof.
  intros Hnone. rewrite notifyDonationPaid_fold.
  induction notices as [|notice rest IH]; [reflexivity|]. simpl.
  assert (H1 : SSEService.notifyOne h notice = h).
  { unfold SSEService.notifyOne.
    destruct (SSEService.txid notice) as [k|] eqn:Hk; [|reflexivity].
    rewrite (Hnone notice k); [reflexivity|left; reflexivity|exact Hk]. }
  rewrite H1. apply IH. intros n k Hin. apply Hnone. right. exact Hin.
Qed.

Lemma unsubscribed_notices_are_dropped_witness :
  SSEService.notifyDonationPaid [notice_for "nobody"] two_transactions
  = two_transactions.
Proof.
  apply (unsubscribed_notices_are_dropped [notice_for "nobody"] two_transactions).
  intros notice k [<-|[]] [= <-]. vm_compute. reflexivity.
Defined.

(** ** The hub over whole runs *)

Lemma handler_hub env payload w :
  hub (snd (DonationService.handlePixWebhook env payload w)) = hub w.
Proof.
  destruct (PixPayload.txid payload) as [txId|] eqn:Ht.
  2:{ unfold DonationService.handlePixWebhook. rewrite Ht. reflexivity. }
  destruct (JS.falsy_string txId) eqn:Hf.
  { unfold DonationService.handlePixWebhook. rewrite Ht, Hf. reflexivity. }
  destruct (donations_query_error env txId) as [msg|] eqn:Hq.
  { unfold DonationService.handlePixWebhook, DonationService.findByTxId.
    rewrite Ht, Hf, Hq. reflexivity. }
  rewrite (handlePixWebhook_unfold env payload txId w Ht Hf Hq).
  pose proof (reconcile_frame env txId (found txId w) w) as (_ & H & _).
  unfold try_catch.
  destruct (DonationService.reconcile env txId (found txId w) w) as [[a|e] w1];
    [exact H|]. rewrite rethrow_world. exact H.
Qed.

Lemma handled_hub env pix : forall w, hub (handled env pix w) = hub w.
Proof.
  induction pix as [|payload rest IH]; intros w; [reflexivity|].
  cbn [handled]. destruct (truthy_txid payload); [|apply IH].
  rewrite IH. apply handler_hub.
Qed.

Lemma paid_notices_built env pix : forall w,
  Forall router_built (paid_notices env pix w).
Proof.
  induction pix as [|payload rest IH]; intros w; [constructor|].
  cbn [paid_notices]. destruct (truthy_txid payload); [|apply IH].
  destruct (DonationService.handlePixWebhook env payload w) as [[[d|]|e] w1];
    try apply IH.
  destruct (DonationService.strict_eqb (Donation.status d) (Some "PAGA")) eqn:E;
    [|apply IH].
  constructor; [|apply IH].
  exists d. split; [apply strict_eqb_eq, E|reflexivity].
Qed.

(** All the endpoint does to the hub is to publish notices it built from
    paid donations. *)
Lemma postPix_hub env body w :
  exists notices,
    Forall router_built notices
    /\ hub (snd (Webhook.postPix env body w))
       = SSEService.notifyDonationPaid notices (hub w).
Proof.
  destruct body as [[[pix|]]|]; try (exists []; split; [constructor|reflexivity]).
  destruct (first_null pix) as [E|[rest E]]; rewrite E.
  - rewrite postPix_objects. exists (paid_notices env (reached pix) w).
    split; [apply paid_notices_built|].
    cbn [snd]. rewrite (proj2 (proj2 (notified_frame _ _))), handled_hub.
    reflexivity.
  - rewrite postPix_null. exists []. split; [constructor|].
    cbn [snd]. rewrite handled_hub. reflexivity.
Qed.



Example postPix_null_first :
  Webhook.postPix Sample.paid
    (Some {| Webhook.pix := Some [None; Some (Sample.payload "abc123")] |})
    subscribed
  = (Return {| Webhook.statusCode := 500;
               Webhook.body := "Erro interno ao processar o webhook." |},
     subscribed).
Proof. vm_compute. reflexivity. Qed.

Example postPix_null_last :
  let after :=
    snd (Webhook.postPix Sample.paid
           (Some {| Webhook.pix := Some [Some (Sample.payload "abc123"); None] |})
           subscribed) in
  rows_of "abc123" after = [(1%nat, materialized)]
  /\ SSEService.deliveries 1%nat (hub after) = [].
Proof. vm_compute. split; reflexivity. Qed.

Lemma healthy_same_registry h h' :
  SSEService.clients h' = SSEService.clients h ->
  SSEService.intervals h' = SSEService.intervals h ->
  SSEService.nextTimer h' = SSEService.nextTimer h ->
  SSEService.listeners h' = SSEService.listeners h ->
  hub_healthy h -> hub_healthy h'.
Proof.
  intros Hc Hi Hn Hl. unfold hub_healthy. rewrite Hc, Hi, Hn, Hl. tauto.
Qed.

Lemma step_healthy w ev : hub_healthy (hub w) -> hub_healthy (hub (step w ev)).
Proof.
  intros Hh.
  destruct ev as [env data|env payload|env body|txId conn|conn]; simpl step.
  - rewrite (proj2 (createDonation_writes_nothing env data w)). exact Hh.
  - rewrite handler_hub. exact Hh.
  - destruct (postPix_hub env body w) as (notices & _ & ->).
    rewrite notifyDonationPaid_fold.
    destruct (notify_effect notices (hub w)) as (Hc & Hi & Hn & Hl & _).
    exact (healthy_same_registry _ _ Hc Hi Hn Hl Hh).
  - simpl. apply addClient_healthy, Hh.
  - simpl. apply close_healthy, Hh.
Qed.

Lemma run_healthy trace : forall w,
  hub_healthy (hub w) -> hub_healthy (hub (run w trace)).
Proof.
  induction trace as [|ev rest IH]; intros w Hh; [exact Hh|].
  simpl. apply IH, step_healthy, Hh.
Qed.

Lemma empty_healthy : hub_healthy SSEService.empty.
Proof.
  unfold hub_healthy, SSEService.empty. simpl.
  split; [intros k c t H; rewrite lookup_empty in H; discriminate|].
  split; [intros l []|].
  split; [intros t c H; rewrite lookup_empty in H; discriminate|].
  apply NoDup_nil_2.
Qed.

(** X11. A registered subscriber is always kept alive: in every state the
    system reaches, whoever is stored in the registry under a transaction
    id has its keep-alive timer running, and when that timer fires the ping
    is written to that subscriber's own connection. *)
Theorem registered_subscriber_is_kept_alive trace txId client :
  SSEService.clients (hub (run initial trace)) !! txId = Some client ->
  SSEService.intervals (hub (run initial trace)) !! SSEService.keepAlive client
  = Some (SSEService.res client)
  /\ SSEService.written
       (SSEService.tick (SSEService.keepAlive client) (hub (run initial trace)))
     = (SSEService.written (hub (run initial trace))
          ++ [(SSEService.res client, SSEService.Ping)])%list.
Proof.
  intros Hc.
  destruct (run_healthy trace initial empty_healthy) as (Hentries & _).
  destruct client as [c t].
  destruct (Hentries txId c t Hc) as [_ Ht]. simpl.
  split; [exact Ht|]. unfold SSEService.tick. rewrite Ht. reflexivity.
Qed.

Lemma registered_subscriber_is_kept_alive_witness :
  SSEService.intervals (hub (run initial busy_trace)) !! 2%nat = Some 3%nat
  /\ SSEService.written (SSEService.tick 2%nat (hub (run initial busy_trace)))
     = (SSEService.written (hub (run initial busy_trace))
          ++ [(3%nat, SSEService.Ping)])%list.
Proof.
  apply (registered_subscriber_is_kept_alive busy_trace "xyz789"
           {| SSEService.res := 3%nat; SSEService.keepAlive := 2%nat |}).
  vm_compute. reflexivity.
Defined.

Lemma notify_router_chunks notices : forall h,
  Forall router_built notices ->
  exists new,
    SSEService.written (fold_left SSEService.notifyOne notices h)
    = (SSEService.written h ++ new)%list
    /\ Forall router_chunk new.
Proof.
  induction notices as [|n rest IH]; intros h Hb; simpl.
  - exists []. rewrite app_nil_r. auto.
  - apply Forall_cons in Hb as [(donation & Hpaid & ->) Hb].
    destruct (notifyOne_effect h (Webhook.notice donation))
      as (_ & _ & _ & _ & new1 & Hw & Hnew).
    destruct (IH (SSEService.notifyOne h (Webhook.notice donation)) Hb)
      as (new2 & Hw2 & Hnew2).
    exists (new1 ++ new2)%list. split; [rewrite Hw2, Hw, app_assoc; reflexivity|].
    apply Forall_app. split; [|exact Hnew2].
    destruct Hnew as [->|(k & client & d & _ & _ & Htx & Hp & Hs & ->)];
      [constructor|].
    apply Forall_cons. split; [left; reflexivity|].
    apply Forall_cons. split; [|apply Forall_nil_2].
    right. exists d. split; [reflexivity|].
    unfold router_event. rewrite Htx, Hp, Hs. simpl. auto.
Qed.

(** X12. What a subscriber learns from the endpoint: every [donationPaid]
    event that POST /api/webhook/pix causes to be written carries status
    PAGA, no transaction id, and "Desconhecido" for the payer, whoever paid:
    the hub reads [txId], [donorName] and [infoPagador], which the notices
    built by the endpoint do not have. Nothing else is written, and the
    registry is left as it was. *)
Theorem endpoint_events_hide_the_payer env body w :
  let h' := hub (snd (Webhook.postPix env body w)) in
  SSEService.clients h' = SSEService.clients (hub w)
  /\ exists new,
       SSEService.written h' = (SSEService.written (hub w) ++ new)%list
       /\ Forall router_chunk new.
Proof.
  cbv zeta. destruct (postPix_hub env body w) as (notices & Hb & ->).
  rewrite notifyDonationPaid_fold.
  split; [apply (notify_effect notices (hub w))|].
  apply notify_router_chunks, Hb.
Qed.

Example endpoint_event_for_jane :
  SSEService.deliveries 1%nat (hub after_first_post)
  = [{| SSEService.ev_txid := None;
        SSEService.ev_valor := Some (JS.Finite 5000 (-2));
        SSEService.ev_pagador := "Desconhecido";
        SSEService.ev_horario := None;
        SSEService.ev_status := Some "PAGA" |}].
Proof. vm_compute. reflexivity. Qed.

(** X13. Connecting and leaving is a round trip: when a connection that
    has no listener yet subscribes under a transaction id nobody is
    registered under, and then closes, the registry and the timers are back
    to what they were; all that remains is the greeting that was written. *)
Theorem subscribe_then_close_restores conn txId h :
  hub_healthy h ->
  (forall l, In l (SSEService.listeners h) -> fst l <> conn) ->
  SSEService.clients h !! txId = None ->
  let h' := SSEService.close conn (SSEService.addClient txId conn h) in
  SSEService.clients h' = SSEService.clients h
  /\ SSEService.intervals h' = SSEService.intervals h
  /\ SSEService.written h'
     = (SSEService.written h ++ [(conn, SSEService.Established txId)])%list.
Proof.
  intros (_ & _ & Hts & _) Hfresh Hnone. cbv zeta.
  unfold SSEService.close.
  change (SSEService.listeners (SSEService.addClient txId conn h))
    with (SSEService.listeners h
            ++ [(conn, (txId, SSEService.nextTimer h))])%list.
  assert (Happ : forall l1 l2 acc,
             SSEService.runListeners conn (l1 ++ l2) acc
             = SSEService.runListeners conn l2
                 (SSEService.runListeners conn l1 acc)).
  { intros l1 l2 acc. apply fold_left_app. }
  assert (Hskip : forall ls acc,
             (forall l, In l ls -> fst l <> conn) ->
             SSEService.runListeners conn ls acc = acc).
  { induction ls as [|[c [k t]] ls IH]; intros acc Hls; [reflexivity|].
    assert (E : Nat.eqb c conn = false).
    { apply Nat.eqb_neq. apply (Hls (c, (k, t))). left. reflexivity. }
    unfold SSEService.runListeners in *. simpl. rewrite E.
    apply IH. intros l' Hl'. apply Hls. right. exact Hl'. }
  rewrite Happ, (Hskip _ _ Hfresh).
  unfold SSEService.runListeners. simpl. rewrite Nat.eqb_refl. simpl.
  split; [apply delete_insert_id, Hnone|].
  split; [|reflexivity].
  apply delete_insert_id.
  destruct (SSEService.intervals h !! SSEService.nextTimer h) as [c|] eqn:E;
    [|reflexivity].
  specialize (Hts _ _ E). lia.
Qed.

Lemma subscribe_then_close_restores_witness :
  let h' := SSEService.close 5%nat
              (SSEService.addClient "new" 5%nat two_transactions) in
  SSEService.clients h' = SSEService.clients two_transactions
  /\ SSEService.intervals h' = SSEService.intervals two_transactions
  /\ SSEService.written h'
     = (SSEService.written two_transactions
          ++ [(5%nat, SSEService.Established "new")])%list.
Proof.
  apply (subscribe_then_close_restores 5%nat "new" two_transactions).
  - apply addClient_healthy, addClient_healthy, empty_healthy.
  - simpl. intros l [<-|[<-|[]]]; simpl; lia.
  - vm_compute. reflexivity.
Defined.

(* ===================================================================== *)
(** * Further properties of charge creation *)
(* ===================================================================== *)

Lemma removeDashes_dash_free s : dash_free (PixService.removeDashes s) = true.
Proof.
  induction s as [|c r IH]; simpl; [reflexivity|].
  destruct (Ascii.eqb c "-") eqn:E; [exact IH|]. simpl. rewrite E. exact IH.
Qed.

Lemma falsy_opt_false o :
  JS.falsy_opt o = false <-> exists s, o = Some s /\ JS.falsy_string s = false.
Proof.
  destruct o as [s|]; simpl.
  - split; [eauto|]. intros (s' & [= <-] & H). exact H.
  - split; [discriminate|]. intros (s' & H & _). discriminate.
Qed.

Lemma createImmediatePixCharge_unfold env pixData w :
  PixService.createImmediatePixCharge env pixData w
  = match charge_answer env pixData with
    | inl error =>
        (Throw (ExternalError
                  ("Erro interno ao preparar Pix: "
                     ++ or_else (EfiError.message error) (EfiError.json error))),
         sent (charge_request env pixData) w)
    | inr chargeResponse =>
        try_catch (PixService.readChargeResponse chargeResponse)
          (fun error =>
             throw (ExternalError
                      ("Erro interno ao preparar Pix: " ++ Errors.message error)))
          (sent (charge_request env pixData) w)
    end.
Proof.
  unfold PixService.createImmediatePixCharge, charge_answer, charge_request,
    charge_body, bind, sent, send_efi. simpl.
  destruct (efi_pixCreateCharge env _ _); reflexivity.
Qed.

(** X14. [createImmediatePixCharge] sends exactly one request, under the
    generated uuid with its dashes removed, and succeeds exactly when the
    gateway answers with a transaction id, a location object, a QR code
    address, a copy-and-paste text and a calendar object, none of them
    empty. It then returns the gateway's own values (the whole location
    and calendar objects among them); in every other case it throws an
    [ExternalError] whose message starts "Erro interno ao preparar Pix: ". *)
Theorem createImmediatePixCharge_outcome env pixData w :
  let r := PixService.createImmediatePixCharge env pixData w in
  snd r = sent (charge_request env pixData) w
  /\ (exists txid body,
         charge_request env pixData = PixCreateCharge txid body
         /\ dash_free txid = true)
  /\ ((exists details, fst r = Return details)
      <-> exists c, charge_answer env pixData = inr c /\ complete_answer c)
  /\ (forall details,
         fst r = Return details ->
         exists c,
           charge_answer env pixData = inr c
           /\ Charge.txid c = Some (PixService.txId details)
           /\ Charge.loc c = Some (PixService.locId details)
           /\ Charge.location c = Some (PixService.qrCode details)
           /\ Charge.pixCopiaECola c = Some (PixService.copyPaste details)
           /\ Charge.calendario c = Some (PixService.createdAt details))
  /\ (forall e,
         fst r = Throw e ->
         exists cause, e = ExternalError ("Erro interno ao preparar Pix: " ++ cause)).
Proof.
  cbv zeta. rewrite createImmediatePixCharge_unfold.
  assert (Hreq : exists txid body,
             charge_request env pixData = PixCreateCharge txid body
             /\ dash_free txid = true).
  { eexists _, _. split; [reflexivity|]. apply removeDashes_dash_free. }
  split; [destruct (charge_answer env pixData) as [err|c]; [reflexivity|];
          unfold try_catch;
          destruct (PixService.readChargeResponse c _) as [[d|e] w1] eqn:Hr;
          revert Hr; unfold PixService.readChargeResponse, throw, ret;
          repeat match goal with
                 | |- context [match ?x with _ => _ end] => destruct x
                 | |- context [if ?x then _ else _] => destruct x
                 end; intros [= _ <-]; reflexivity|].
  split; [exact Hreq|].
  destruct (charge_answer env pixData) as [err|c] eqn:Hc.
  { simpl. split.
    - split; [intros [d Hd]; discriminate|intros (c & Hc' & _); discriminate].
    - split; [discriminate|]. intros e [= <-]. eauto. }
  unfold try_catch, PixService.readChargeResponse, throw, ret, complete_answer.
  destruct (Charge.loc c) as [loc|] eqn:Eloc.
  2:{ simpl. split.
      - split; [intros [d Hd]; discriminate|].
        intros (c' & [= <-] & _ & H & _). congruence.
      - split; [discriminate|]. intros e [= <-]. eauto. }
  destruct (Charge.calendario c) as [cal|] eqn:Ecal.
  2:{ simpl. split.
      - split; [intros [d Hd]; discriminate|].
        intros (c' & [= <-] & _ & _ & _ & _ & H). congruence.
      - split; [discriminate|]. intros e [= <-]. eauto. }
  destruct (Charge.txid c) as [tx|] eqn:Etx; simpl.
  2:{ split.
      - split; [intros [d Hd]; discriminate|].
        intros (c' & [= <-] & H & _). rewrite Etx in H. discriminate.
      - split; [discriminate|]. intros e [= <-]. eauto. }
  destruct (Charge.location c) as [qr|] eqn:Eqr; simpl.
  2:{ split.
      - split; [intros [d Hd]; discriminate|].
        intros (c' & [= <-] & _ & _ & H & _). rewrite Eqr in H. discriminate.
      - split; [discriminate|]. intros e [= <-]. eauto. }
  destruct (Charge.pixCopiaECola c) as [cp|] eqn:Ecp; simpl.
  2:{ split.
      - split; [intros [d Hd]; discriminate|].
        intros (c' & [= <-] & _ & _ & _ & H & _). rewrite Ecp in H. discriminate.
      - split; [discriminate|]. intros e [= <-]. eauto. }
  destruct (JS.falsy_string tx) eqn:E1; simpl.
  { split.
    - split; [intros [d Hd]; discriminate|].
      intros (c' & [= <-] & H & _). rewrite Etx in H. simpl in H. congruence.
    - split; [discriminate|]. intros e [= <-]. eauto. }
  destruct (JS.falsy_string qr) eqn:E2; simpl.
  { split.
    - split; [intros [d Hd]; discriminate|].
      intros (c' & [= <-] & _ & _ & H & _). rewrite Eqr in H. simpl in H.
      congruence.
    - split; [discriminate|]. intros e [= <-]. eauto. }
  destruct (JS.falsy_string cp) eqn:E3; simpl.
  { split.
    - split; [intros [d Hd]; discriminate|].
      intros (c' & [= <-] & _ & _ & _ & H & _). rewrite Ecp in H. simpl in H.
      congruence.
    - split; [discriminate|]. intros e [= <-]. eauto. }
  split.
  - split; [|eauto]. intros _. exists c. split; [reflexivity|].
    rewrite Etx, Eloc, Eqr, Ecp, Ecal. simpl. repeat split; auto; discriminate.
  - split; [|discriminate]. intros d [= <-]. exists c. simpl. auto 10.
Qed.

Lemma createImmediatePixCharge_outcome_witness :
  exists details,
    fst (PixService.createImmediatePixCharge Sample.paid pix_data_of_jane initial)
    = Return details
    /\ PixService.txId details = "3f2b8c1e9d4a4c6f8e2b7a1d5c9e0f34"
    /\ exists c,
         charge_answer Sample.paid pix_data_of_jane = inr c
         /\ Charge.txid c = Some (PixService.txId details)
         /\ Charge.loc c = Some (PixService.locId details)
         /\ Charge.location c = Some (PixService.qrCode details)
         /\ Charge.pixCopiaECola c = Some (PixService.copyPaste details)
         /\ Charge.calendario c = Some (PixService.createdAt details).
Proof.
  destruct (createImmediatePixCharge_outcome Sample.paid pix_data_of_jane initial)
    as (_ & _ & _ & Hret & _).
  eexists. split; [vm_compute; reflexivity|]. split; [reflexivity|].
  apply Hret. vm_compute. reflexivity.
Defined.




(** ** Instants *)

(** *** Doubles that hold integers *)

Lemma nearest_even_exact k d : 0 < d -> Double.nearest_even (k * d) d = k.
Proof.
  intros Hd. unfold Double.nearest_even.
  rewrite Z.mod_mul, Z.div_mul by lia.
  replace (2 * 0 ?= d) with Lt by (symmetry; apply Z.compare_lt_iff; lia).
  reflexivity.
Qed.

Lemma nearest_even_bound n d j :
  0 < d -> 0 <= j -> Z.abs n < d * 2 ^ j ->
  Z.abs (Double.nearest_even n d) <= 2 ^ j.
Proof.
  intros Hd Hj Hn. unfold Double.nearest_even.
  pose proof (Z.div_mod n d ltac:(lia)) as Hdm.
  pose proof (Z.mod_pos_bound n d Hd) as Hr.
  assert (Hp : 0 < 2 ^ j) by (apply Z.pow_pos_nonneg; lia).
  assert (Hq1 : n / d < 2 ^ j) by (apply Z.div_lt_upper_bound; lia).
  assert (Hq2 : - 2 ^ j <= n / d) by (apply Z.div_le_lower_bound; lia).
  destruct (2 * (n mod d) ?= d); [destruct (Z.even (n / d))| |]; lia.
Qed.

Lemma round_integer z d :
  0 < d -> Z.abs z < 2 ^ 53 -> holds (Double.round (z * d) d) z.
Proof.
  intros Hd Hz. unfold Double.round, holds.
  destruct (z * d =? 0) eqn:E0.
  { apply Z.eqb_eq in E0. simpl. split; [lia|]. nia. }
  apply Z.eqb_neq in E0.
  assert (Hz0 : z <> 0) by nia.
  assert (He : Double.ilog2 (Z.abs (z * d)) d = Z.log2 (Z.abs z)).
  { unfold Double.ilog2. rewrite Z.abs_mul, (Z.abs_eq d) by lia.
    destruct (d <=? Z.abs z * d) eqn:E; [|apply Z.leb_gt in E; nia].
    rewrite Z.div_mul by lia. reflexivity. }
  rewrite He.
  assert (Hl : Z.log2 (Z.abs z) < 53) by (apply Z.log2_lt_pow2; lia).
  pose proof (Z.log2_nonneg (Z.abs z)) as Hl0.
  set (u := Z.max (Z.log2 (Z.abs z) - 52) (-1074)).
  assert (Hu : u <= 0) by lia.
  destruct (0 <=? u) eqn:Eu.
  - apply Z.leb_le in Eu. assert (u = 0) as -> by lia.
    cbn [Double.num Double.den]. split; [lia|].
    change (2 ^ 0) with 1. rewrite !Z.mul_1_r. apply nearest_even_exact, Hd.
  - cbn [Double.num Double.den].
    assert (Hp : 0 < 2 ^ (- u)) by (apply Z.pow_pos_nonneg; lia).
    split; [exact Hp|].
    replace (z * d * 2 ^ (- u)) with (z * 2 ^ (- u) * d) by ring.
    apply nearest_even_exact, Hd.
Qed.

Lemma ilog2_lower n d :
  0 < d -> d <= n -> 2 ^ Double.ilog2 n d * d <= n.
Proof.
  intros Hd Hn. unfold Double.ilog2.
  destruct (d <=? n) eqn:E; [|apply Z.leb_gt in E; lia].
  assert (Hq : 0 < n / d) by (apply Z.div_str_pos; lia).
  pose proof (Z.log2_spec (n / d) Hq) as [Hlo _].
  pose proof (Z.mul_div_le n d Hd). nia.
Qed.

Lemma round_bound n d k :
  0 < d -> 0 <= k -> Z.abs n < d * 2 ^ k ->
  0 < Double.den (Double.round n d)
  /\ Z.abs (Double.num (Double.round n d)) <= 2 ^ k * Double.den (Double.round n d).
Proof.
  intros Hd Hk Hn. unfold Double.round.
  assert (Hpk : 0 < 2 ^ k) by (apply Z.pow_pos_nonneg; lia).
  destruct (n =? 0) eqn:E0; [simpl; lia|].
  apply Z.eqb_neq in E0.
  set (u := Z.max (Double.ilog2 (Z.abs n) d - 52) (-1074)).
  destruct (0 <=? u) eqn:Eu; cbn [Double.num Double.den].
  - apply Z.leb_le in Eu. split; [lia|].
    assert (Hpu : 0 < 2 ^ u) by (apply Z.pow_pos_nonneg; lia).
    assert (He : 52 <= Double.ilog2 (Z.abs n) d) by lia.
    assert (Hdn : d <= Z.abs n).
    { destruct (Z.le_gt_cases d (Z.abs n)) as [H|H]; [exact H|].
      exfalso. unfold Double.ilog2 in He.
      destruct (d <=? Z.abs n) eqn:E; [apply Z.leb_le in E; lia|].
      pose proof (Z.log2_up_nonneg ((d + Z.abs n - 1) / Z.abs n)). lia. }
    pose proof (ilog2_lower (Z.abs n) d Hd Hdn) as Hlo.
    assert (Hek : Double.ilog2 (Z.abs n) d < k).
    { apply (Z.pow_lt_mono_r_iff 2); [lia|lia|]. nia. }
    assert (Huk : u <= k) by lia.
    assert (Hb : Z.abs (Double.nearest_even n (d * 2 ^ u)) <= 2 ^ (k - u)).
    { apply nearest_even_bound; [nia|lia|].
      replace (d * 2 ^ u * 2 ^ (k - u)) with (d * (2 ^ u * 2 ^ (k - u))) by ring.
      rewrite <- Z.pow_add_r by lia. replace (u + (k - u)) with k by lia.
      exact Hn. }
    rewrite Z.abs_mul, (Z.abs_eq (2 ^ u)) by lia.
    replace (2 ^ k) with (2 ^ (k - u) * 2 ^ u)
      by (rewrite <- Z.pow_add_r by lia; f_equal; lia).
    nia.
  - apply Z.leb_gt in Eu.
    assert (Hpu : 0 < 2 ^ (- u)) by (apply Z.pow_pos_nonneg; lia).
    split; [exact Hpu|].
    rewrite <- Z.pow_add_r by lia.
    apply nearest_even_bound; [exact Hd|lia|].
    rewrite Z.abs_mul, (Z.abs_eq (2 ^ (- u))) by lia.
    rewrite Z.pow_add_r by lia. nia.
Qed.

Lemma holds_of_Z z : Z.abs z < 2 ^ 53 -> holds (Double.of_Z z) z.
Proof.
  intros Hz. unfold Double.of_Z.
  replace z with (z * 1) at 1 by lia. apply round_integer; [lia|exact Hz].
Qed.

Lemma holds_mul a b x y :
  holds a x -> holds b y -> Z.abs (x * y) < 2 ^ 53 -> holds (Double.mul a b) (x * y).
Proof.
  intros [Ha Hna] [Hb Hnb] Hxy. unfold Double.mul. rewrite Hna, Hnb.
  replace (x * Double.den a * (y * Double.den b))
    with (x * y * (Double.den a * Double.den b)) by ring.
  apply round_integer; [nia|exact Hxy].
Qed.

Lemma holds_add a b x y :
  holds a x -> holds b y -> Z.abs (x + y) < 2 ^ 53 -> holds (Double.add a b) (x + y).
Proof.
  intros [Ha Hna] [Hb Hnb] Hxy. unfold Double.add. rewrite Hna, Hnb.
  replace (x * Double.den a * Double.den b + y * Double.den b * Double.den a)
    with ((x + y) * (Double.den a * Double.den b)) by ring.
  apply round_integer; [nia|exact Hxy].
Qed.

Lemma holds_div a b x y :
  holds a (x * y) -> holds b y -> 0 < y -> Z.abs x < 2 ^ 53 ->
  holds (Double.div a b) x.
Proof.
  intros [Ha Hna] [Hb Hnb] Hy Hx. unfold Double.div. rewrite Hna, Hnb.
  assert (Hs : Z.sgn (y * Double.den b) = 1) by (apply Z.sgn_pos; nia).
  rewrite Hs, (Z.abs_eq (y * Double.den b)) by nia.
  replace (x * y * Double.den a * Double.den b * 1)
    with (x * (Double.den a * (y * Double.den b))) by ring.
  apply round_integer; [nia|exact Hx].
Qed.

Lemma truncate_holds a x : holds a x -> Double.truncate a = x.
Proof.
  intros [Ha Hna]. unfold Double.truncate. rewrite Hna. apply Z.quot_mul. lia.
Qed.

Lemma truncate_bound a k :
  0 < Double.den a -> Z.abs (Double.num a) <= 2 ^ k * Double.den a ->
  Z.abs (Double.truncate a) <= 2 ^ k.
Proof.
  intros Hd Hn. unfold Double.truncate.
  rewrite <- Z.quot_abs by lia. rewrite (Z.abs_eq (Double.den a)) by lia.
  rewrite Z.quot_div_nonneg by lia.
  apply Z.div_le_upper_bound; [exact Hd|]. lia.
Qed.

Lemma newDate_fromDate (d : Date) :
  valid_date d ->
  newDate (_seconds (Timestamp_fromDate d)) (_nanoseconds (Timestamp_fromDate d))
  = d.
Proof.
  unfold valid_date. intros Hd. unfold newDate, Timestamp_fromDate. simpl.
  pose proof (Z.div_mod d 1000 ltac:(lia)) as Hdm.
  pose proof (Z.mod_pos_bound d 1000 ltac:(lia)) as Hr.
  assert (H53 : 2 ^ 53 = 9007199254740992) by reflexivity.
  apply truncate_holds.
  replace d with (d / 1000 * 1000 + d mod 1000) at 3 by lia.
  apply holds_add.
  - apply holds_mul; [apply holds_of_Z; lia|apply holds_of_Z; lia|lia].
  - apply (holds_div _ _ _ 1000000); [apply holds_of_Z; lia|apply holds_of_Z; lia|lia|lia].
  - lia.
Qed.

Lemma newDate_valid (t : Timestamp) :
  store_timestamp t -> valid_date (newDate (_seconds t) (_nanoseconds t)).
Proof.
  unfold store_timestamp, valid_date, newDate. intros [Hs Hn].
  assert (H53 : 2 ^ 53 = 9007199254740992) by reflexivity.
  assert (H49 : 2 ^ 49 = 562949953421312) by reflexivity.
  assert (H10 : 2 ^ 10 = 1024) by reflexivity.
  assert (Hp : holds (Double.mul (Double.of_Z (_seconds t)) (Double.of_Z 1000))
                 (_seconds t * 1000))
    by (apply holds_mul; [apply holds_of_Z; lia|apply holds_of_Z; lia|lia]).
  destruct Hp as [Hpd Hpn].
  set (p := Double.mul _ _) in *.
  assert (Hq : 0 < Double.den (Double.div (Double.of_Z (_nanoseconds t))
                                  (Double.of_Z 1000000))
               /\ Z.abs (Double.num (Double.div (Double.of_Z (_nanoseconds t))
                                       (Double.of_Z 1000000)))
                  <= 2 ^ 10 * Double.den (Double.div (Double.of_Z (_nanoseconds t))
                                            (Double.of_Z 1000000))).
  { destruct (holds_of_Z (_nanoseconds t) ltac:(lia)) as [Had Han].
    destruct (holds_of_Z 1000000 ltac:(lia)) as [Hbd Hbn].
    unfold Double.div. rewrite Han, Hbn.
    assert (Hs' : Z.sgn (1000000 * Double.den (Double.of_Z 1000000)) = 1)
      by (apply Z.sgn_pos; nia).
    rewrite Hs', (Z.abs_eq (1000000 * Double.den (Double.of_Z 1000000))) by nia.
    apply round_bound; [nia|lia|].
    rewrite !Z.abs_mul, Z.abs_eq by lia.
    rewrite (Z.abs_eq (Double.den (Double.of_Z (_nanoseconds t)))) by lia.
    rewrite (Z.abs_eq (Double.den (Double.of_Z 1000000))) by lia.
    change (Z.abs 1) with 1. nia. }
  destruct Hq as [Hqd Hqn].
  set (q := Double.div _ _) in *.
  assert (Hsum : 0 < Double.den (Double.add p q)
                 /\ Z.abs (Double.num (Double.add p q))
                    <= 2 ^ 49 * Double.den (Double.add p q)).
  { unfold Double.add. apply round_bound; [nia|lia|]. rewrite Hpn. nia. }
  destruct Hsum as [Hd1 Hn1].
  pose proof (truncate_bound _ 49 Hd1 Hn1). lia.
Qed.

(** X16. Dates and store timestamps round-trip: a [Date] turned into a
    store [Timestamp] and read back by the model's [convertToDate] is the
    same date (the sum of the conversion is exact on whole milliseconds),
    and the timestamp is in range, a whole number of milliseconds. Hence a
    status update changes the creation instant of a stored document at most
    once: once written back, it stays what it is. *)
Theorem date_timestamp_round_trip :
  (forall d : Date,
      valid_date d ->
      Donation.convertToDate (TimeOfStore (Timestamp_fromDate d)) = Some d
      /\ 0 <= _nanoseconds (Timestamp_fromDate d) < 1000000000
      /\ _nanoseconds (Timestamp_fromDate d) mod 1000000 = 0)
  /\ (forall status status' doc,
         store_timestamp (Doc.createdAt doc) ->
         Doc.createdAt (restamped status' (restamped status doc))
         = Doc.createdAt (restamped status doc)).
Proof.
  split.
  - intros d Hd. split; [simpl; f_equal; apply newDate_fromDate, Hd|].
    unfold Timestamp_fromDate. simpl.
    pose proof (Z.mod_pos_bound d 1000). split; [lia|].
    apply Z.mod_mul. lia.
  - intros status status' doc Hdoc. unfold restamped. cbn [Doc.createdAt].
    rewrite newDate_fromDate; [reflexivity|]. apply newDate_valid, Hdoc.
Qed.

Lemma date_timestamp_round_trip_witness :
  Donation.convertToDate (TimeOfStore (Timestamp_fromDate 1700000000123))
  = Some 1700000000123
  /\ Doc.createdAt (restamped (Some "PAGA") (restamped (Some "ATIVA") Sample.pending))
     = Doc.createdAt (restamped (Some "ATIVA") Sample.pending).
Proof.
  destruct date_timestamp_round_trip as [Hdate Hdoc]. split.
  - apply (Hdate 1700000000123). unfold valid_date. lia.
  - apply (Hdoc (Some "ATIVA") (Some "PAGA") Sample.pending).
    unfold store_timestamp. simpl. lia.
Defined.

(* ===================================================================== *)
(** * The charge-creation endpoint *)
(* ===================================================================== *)





(** A tax id sent as a number passes the checks and is answered 500. *)
Example postGerar_numeric_cpf :
  DonationRoutes.status ErrorHandler.errorHandler
    (match fst (DonationRoutes.postGerar Sample.paid
                  (Some {| DonationService.donorCPF :=
                             JS.Num (JS.Finite 12345678901 0);
                           DonationService.amount := JS.Str "50.00" |})
                  initial) with
     | Return outcome => outcome
     | Throw e => DonationRoutes.Next e
     end) = 500.
Proof. vm_compute. reflexivity. Qed.

Example postGerar_for_jane :
  fst (DonationRoutes.postGerar Sample.paid (Some request_of_jane) initial)
  = Return
      (DonationRoutes.Responded 201
         {| DonationRoutes.donorName := Some "Jane Doe";
            DonationRoutes.donorCIM := Some "4321";
            DonationRoutes.value := JS.Str "50.00";
            DonationRoutes.txId := "3f2b8c1e9d4a4c6f8e2b7a1d5c9e0f34";
            DonationRoutes.qrCode := "qrcodes.example/abc123";
            DonationRoutes.copyPaste := "00020101021226" |}).
Proof. vm_compute. reflexivity. Qed.

(* ===================================================================== *)
(** * Searching the donations *)
(* ===================================================================== *)

(** ** Trimming *)

Lemma trimEnd_empty s :
  DonationSearch.trimEnd s = EmptyString <-> blank s = true.
Proof.
  induction s as [|c r IH]; simpl; [tauto|].
  destruct (DonationSearch.trimEnd r) as [|c' r'] eqn:E.
  - destruct (JS.is_space c); simpl.
    + split; [intros _; apply IH; reflexivity|reflexivity].
    + split; discriminate.
  - split; [discriminate|]. intros H. apply andb_true_iff in H as [_ H].
    apply IH in H. discriminate.
Qed.

Lemma trimEnd_cons c r :
  DonationSearch.trimEnd (String c r)
  = match DonationSearch.trimEnd r with
    | EmptyString => if JS.is_space c then EmptyString else String c EmptyString
    | r' => String c r'
    end.
Proof. reflexivity. Qed.

Lemma trimEnd_idempotent s :
  DonationSearch.trimEnd (DonationSearch.trimEnd s) = DonationSearch.trimEnd s.
Proof.
  induction s as [|c r IH]; simpl; [reflexivity|].
  destruct (DonationSearch.trimEnd r) as [|c' r'] eqn:E.
  - destruct (JS.is_space c) eqn:Ec; simpl; [reflexivity|]. rewrite Ec. reflexivity.
  - rewrite (trimEnd_cons c (String c' r')), IH. reflexivity.
Qed.

Lemma trimStart_cases s :
  (blank s = true /\ JS.trimStart s = EmptyString)
  \/ (blank s = false
      /\ exists c r, JS.trimStart s = String c r /\ JS.is_space c = false).
Proof.
  induction s as [|c r IH]; simpl; [left; auto|].
  destruct (JS.is_space c) eqn:Ec; simpl; [exact IH|].
  right. split; [reflexivity|]. exists c, r. auto.
Qed.

Lemma trimEnd_head c r :
  JS.is_space c = false ->
  exists r', DonationSearch.trimEnd (String c r) = String c r'.
Proof.
  intros Hc. simpl. destruct (DonationSearch.trimEnd r); [rewrite Hc|]; eauto.
Qed.

Lemma trim_blank s : JS.falsy_string (DonationSearch.trim s) = blank s.
Proof.
  unfold DonationSearch.trim.
  destruct (trimStart_cases s) as [[Hb ->]|[Hb (c & r & -> & Hc)]];
    rewrite Hb; [reflexivity|].
  destruct (trimEnd_head c r Hc) as [r' ->]. reflexivity.
Qed.

Lemma trim_idempotent s :
  DonationSearch.trim (DonationSearch.trim s) = DonationSearch.trim s.
Proof.
  unfold DonationSearch.trim.
  destruct (trimStart_cases s) as [[_ ->]|[_ (c & r & -> & Hc)]]; [reflexivity|].
  destruct (trimEnd_head c r Hc) as [r' Hr]. rewrite Hr.
  simpl JS.trimStart. rewrite Hc. rewrite <- Hr. apply trimEnd_idempotent.
Qed.

(** ** The ordered scan *)

Lemma place_Permutation x l : Permutation (DonationSearch.place x l) (x :: l).
Proof.
  induction l as [|y r IH]; simpl; [reflexivity|].
  destruct (DonationSearch.before x y); [reflexivity|].
  rewrite IH. apply perm_swap.
Qed.

Lemma orderBy_Permutation ds :
  Permutation (DonationSearch.orderByCreatedAtDesc ds) ds.
Proof.
  induction ds as [|x r IH]; simpl; [reflexivity|].
  rewrite place_Permutation, IH. reflexivity.
Qed.

Lemma before_asymmetric a b :
  DonationSearch.before a b = true -> DonationSearch.before b a = false.
Proof.
  unfold DonationSearch.before. intros H.
  repeat match goal with
         | H : _ || _ = true |- _ => apply orb_true_iff in H as [H|H]
         | H : _ && _ = true |- _ => apply andb_true_iff in H as [? H]
         | H : (_ <? _) = true |- _ => apply Z.ltb_lt in H
         | H : (_ =? _) = true |- _ => apply Z.eqb_eq in H
         | H : (_ <? _)%nat = true |- _ => apply Nat.ltb_lt in H
         end;
    repeat match goal with
           | |- _ || _ = false => apply orb_false_iff; split
           | |- _ && _ = false => apply andb_false_iff
           end;
    try (apply Z.ltb_ge; lia);
    try (left; apply Z.eqb_neq; lia);
    try (right; apply orb_false_iff; split; [apply Z.ltb_ge; lia|];
         apply andb_false_iff;
         first [left; apply Z.eqb_neq; lia|right; apply Nat.ltb_ge; lia]).
Qed.

Lemma not_after_transitive a b c :
  not_after a b -> not_after b c -> not_after a c.
Proof.
  unfold not_after, DonationSearch.before. intros H1 H2.
  apply orb_false_iff in H1 as [H1 H1']. apply orb_false_iff in H2 as [H2 H2'].
  apply Z.ltb_ge in H1, H2.
  apply orb_false_iff. split; [apply Z.ltb_ge; lia|].
  destruct (_seconds (Doc.createdAt (snd a)) =? _seconds (Doc.createdAt (snd c)))
    eqn:Eac; [|reflexivity].
  apply Z.eqb_eq in Eac. simpl.
  assert (E1 : _seconds (Doc.createdAt (snd a)) = _seconds (Doc.createdAt (snd b)))
    by lia.
  assert (E2 : _seconds (Doc.createdAt (snd b)) = _seconds (Doc.createdAt (snd c)))
    by lia.
  rewrite E1, Z.eqb_refl in H1'. rewrite E2, Z.eqb_refl in H2'.
  simpl in H1', H2'.
  apply orb_false_iff in H1' as [H1a H1b]. apply orb_false_iff in H2' as [H2a H2b].
  apply Z.ltb_ge in H1a, H2a.
  apply orb_false_iff. split; [apply Z.ltb_ge; lia|].
  destruct (_nanoseconds (Doc.createdAt (snd a))
            =? _nanoseconds (Doc.createdAt (snd c))) eqn:Nac; [|reflexivity].
  apply Z.eqb_eq in Nac. simpl.
  assert (N1 : _nanoseconds (Doc.createdAt (snd a))
               = _nanoseconds (Doc.createdAt (snd b))) by lia.
  assert (N2 : _nanoseconds (Doc.createdAt (snd b))
               = _nanoseconds (Doc.createdAt (snd c))) by lia.
  rewrite N1, Z.eqb_refl in H1b. rewrite N2, Z.eqb_refl in H2b.
  simpl in H1b, H2b. apply Nat.ltb_ge in H1b, H2b. apply Nat.ltb_ge. lia.
Qed.

Lemma place_newest_first x l :
  newest_first l -> newest_first (DonationSearch.place x l).
Proof.
  unfold newest_first. induction 1 as [|y r Hr IH Hy]; simpl.
  - repeat constructor.
  - destruct (DonationSearch.before x y) eqn:E.
    + constructor; [constructor; assumption|].
      assert (Hxy : not_after x y) by (apply before_asymmetric; exact E).
      constructor; [exact Hxy|].
      eapply Forall_impl; [exact Hy|].
      intros z Hz. exact (not_after_transitive x y z Hxy Hz).
    + constructor; [exact IH|].
      rewrite place_Permutation. constructor; [exact E|exact Hy].
Qed.

Lemma orderBy_newest_first ds :
  newest_first (DonationSearch.orderByCreatedAtDesc ds).
Proof.
  induction ds as [|x r IH]; simpl; [constructor|].
  apply place_newest_first. exact IH.
Qed.

Lemma sublist_In {A} (l k : list A) x : sublist l k -> In x l -> In x k.
Proof.
  intros Hs Hx. apply list_elem_of_In. eapply elem_of_sublist; [|exact Hs].
  apply list_elem_of_In. exact Hx.
Qed.

Lemma sublist_newest_first (l k : list (DocId * Doc.t)) :
  sublist l k -> newest_first k -> newest_first l.
Proof.
  unfold newest_first. induction 1 as [|x l k Hs IH|x l k Hs IH]; intros Hk.
  - constructor.
  - inversion Hk as [|? ? Hk' Hx]; subst. constructor; [auto|].
    apply Forall_forall. intros z Hz.
    apply (proj1 (Forall_forall _ _) Hx). eapply elem_of_sublist; eauto.
  - inversion Hk; subst. auto.
Qed.

Lemma filter_sublist_of {A} (f : A -> bool) l : sublist (List.filter f l) l.
Proof.
  induction l as [|x r IH]; simpl; [constructor|].
  destruct (f x); constructor; exact IH.
Qed.

Lemma filter_Forall {A} (f : A -> bool) l :
  Forall (fun x => f x = true) (List.filter f l).
Proof.
  apply Forall_forall. intros x Hx. apply list_elem_of_In, filter_In in Hx. tauto.
Qed.

Lemma slice_sublist {A} (l : list A) a b : sublist (DonationSearch.slice l a b) l.
Proof.
  unfold DonationSearch.slice.
  etransitivity; [apply sublist_take|apply sublist_drop].
Qed.

Lemma sublist_Forall_of {A} (P : A -> Prop) l k :
  sublist l k -> Forall P k -> Forall P l.
Proof.
  intros Hs Hk. apply Forall_forall. intros x Hx.
  apply (proj1 (Forall_forall _ _) Hk). eapply elem_of_sublist; eauto.
Qed.

Lemma slice_models rows a b :
  DonationSearch.slice (DonationSearch.models rows) a b
  = DonationSearch.models (DonationSearch.slice rows a b).
Proof.
  unfold DonationSearch.slice, DonationSearch.models.
  rewrite length_map, skipn_map, firstn_map. reflexivity.
Qed.

Lemma slice_length {A} (l : list A) a b :
  0 <= a -> 0 < b ->
  (List.length (DonationSearch.slice l a (a + b)) <= Z.to_nat b)%nat.
Proof.
  intros Ha Hb. unfold DonationSearch.slice, DonationSearch.relative.
  rewrite length_firstn.
  destruct (a <? 0) eqn:E1; [apply Z.ltb_lt in E1; lia|].
  destruct (a + b <? 0) eqn:E2; [apply Z.ltb_lt in E2; lia|].
  lia.
Qed.

Lemma slice_first {A} (l : list A) b :
  0 < b -> l <> [] -> DonationSearch.slice l 0 b <> [].
Proof.
  intros Hb Hl. unfold DonationSearch.slice, DonationSearch.relative.
  destruct l as [|x r]; [congruence|].
  replace (0 <? 0) with false by reflexivity.
  destruct (b <? 0) eqn:E; [apply Z.ltb_lt in E; lia|].
  simpl Nat.min at 2. simpl skipn.
  destruct (Nat.min (Z.to_nat b) (List.length (x :: r)) - 0)%nat eqn:En;
    [simpl in En; lia|].
  simpl. discriminate.
Qed.

(** ** searchDonations *)

Lemma slice_nil {A} a b : DonationSearch.slice (@nil A) a b = [].
Proof.
  unfold DonationSearch.slice.
  destruct (DonationSearch.relative a _); simpl; apply firstn_nil.
Qed.

Lemma slice_guard {A} (l : list A) a b :
  match l with [] => [] | _ => DonationSearch.slice l a b end
  = DonationSearch.slice l a b.
Proof. destruct l; [symmetry; apply slice_nil|reflexivity]. Qed.

Lemma slice_guard_run {A} (l : list A) a b (w : World) :
  match l with
  | [] => fun w : World => (Return [], w)
  | _ :: _ => fun w : World => (Return (DonationSearch.slice l a b), w)
  end w = (Return (DonationSearch.slice l a b), w).
Proof. destruct l; [rewrite slice_nil|]; reflexivity. Qed.



Lemma searchDonations_unfold term page limit w :
  blank term = false ->
  DonationSearch.searchDonations None term page limit w
  = (Return (page_of page limit
               (DonationSearch.models
                  (first_nonempty (candidates (DonationSearch.trim term)
                                     page limit w)))), w).
Proof.
  intros Hb. unfold DonationSearch.searchDonations.
  rewrite trim_blank, Hb.
  unfold DonationSearch.findByDonorCIM, DonationSearch.findByDonorCPF,
    DonationSearch.findByDonorName, DonationSearch.scan.
  unfold_async. rewrite trim_idempotent.
  unfold candidates, window, page_of.
  rewrite slice_guard, slice_models.
  destruct (DonationSearch.slice (List.filter _ _) _ _) as [|a A'];
    [|reflexivity].
  cbn [DonationSearch.models map first_nonempty].
  rewrite slice_guard_run, slice_models.
  destruct (DonationSearch.slice (List.filter _ _) _ _) as [|b B'];
    [|reflexivity].
  cbn [DonationSearch.models map first_nonempty].
  rewrite slice_guard_run, slice_models.
  destruct (DonationSearch.slice (List.filter _ _) _ _); reflexivity.
Qed.

Lemma first_nonempty_Forall {A} (P : list A -> Prop) ls :
  P [] -> Forall P ls -> P (first_nonempty ls).
Proof.
  intros Hnil. induction 1 as [|l ls Hl _ IH]; simpl; [exact Hnil|].
  destruct l; [exact IH|exact Hl].
Qed.

Lemma first_nonempty_nil {A} (ls : list (list A)) :
  first_nonempty ls = [] -> Forall (fun l => l = []) ls.
Proof.
  induction ls as [|l ls IH]; simpl; [constructor|].
  destruct l; [|discriminate]. intros H. constructor; auto.
Qed.

Lemma offset_nonneg page limit : 0 < limit -> 0 <= (Z.max 1 page - 1) * limit.
Proof. intros H. apply Z.mul_nonneg_nonneg; lia. Qed.

Lemma ceil_div_one_page n limit :
  0 < limit -> (n <= Z.to_nat limit)%nat ->
  DonationSearch.ceil_div (Z.of_nat n) limit
  = JS.Finite (match n with O => 0 | S _ => 1 end) 0.
Proof.
  intros Hl Hn. unfold DonationSearch.ceil_div.
  destruct (limit =? 0) eqn:E; [apply Z.eqb_eq in E; lia|].
  f_equal. destruct n as [|n]; [reflexivity|].
  assert (H1 : -1 <= (- Z.of_nat (S n)) / limit)
    by (apply Z.div_le_lower_bound; lia).
  assert (H2 : (- Z.of_nat (S n)) / limit < 0)
    by (apply Z.div_lt_upper_bound; lia).
  lia.
Qed.

Lemma candidates_windows term page limit w :
  Forall (fun rows =>
            exists f, rows = window page limit
                               (List.filter f
                                  (DonationSearch.orderByCreatedAtDesc (donations w))))
    (candidates term page limit w).
Proof. unfold candidates. repeat (constructor; [eexists; reflexivity|]). constructor. Qed.

Lemma candidates_sound term page limit w :
  Forall (fun rows =>
            sublist rows (DonationSearch.orderByCreatedAtDesc (donations w))
            /\ same_criterion term rows)
    (candidates term page limit w).
Proof.
  unfold candidates, window, same_criterion.
  apply Forall_cons. split.
  { split; [etransitivity; [apply slice_sublist|apply filter_sublist_of]|].
    left. eapply sublist_Forall_of; [apply slice_sublist|apply filter_Forall]. }
  apply Forall_cons. split.
  { split; [etransitivity; [apply slice_sublist|apply filter_sublist_of]|].
    right; left.
    eapply sublist_Forall_of; [apply slice_sublist|apply filter_Forall]. }
  apply Forall_cons. split; [|apply Forall_nil_2].
  split; [etransitivity; [apply slice_sublist|apply filter_sublist_of]|].
  right; right.
  eapply sublist_Forall_of; [apply slice_sublist|].
  apply (filter_Forall (DonationSearch.matchesName _)).
Qed.


(** X19. The page of a search never announces more than what it carries:
    for a positive limit, [totalResults] is the number of donations on the
    page, at most [limit], and [totalPages] is 1, or 0 when the page is
    empty, however many stored donations match the term. *)
Theorem searchDonations_counts_the_page (term : string) (page limit : Z)
    (w : World) :
  blank term = false ->
  0 < limit ->
  exists p,
    DonationSearch.searchDonations None term page limit w = (Return p, w)
    /\ DonationSearch.currentPage p = page
    /\ DonationSearch.totalResults p = List.length (DonationSearch.donations p)
    /\ (DonationSearch.totalResults p <= Z.to_nat limit)%nat
    /\ DonationSearch.totalPages p
       = match DonationSearch.donations p with
         | [] => JS.Finite 0 0
         | _ :: _ => JS.Finite 1 0
         end.
Proof.
  intros Hb Hl. eexists. split; [apply searchDonations_unfold; exact Hb|].
  cbn [page_of DonationSearch.currentPage DonationSearch.totalResults
         DonationSearch.donations DonationSearch.totalPages].
  set (rows := first_nonempty _).
  assert (Hlen : (List.length (DonationSearch.models rows) <= Z.to_nat limit)%nat).
  { unfold DonationSearch.models. rewrite length_map. subst rows.
    apply first_nonempty_Forall; [simpl; lia|].
    eapply Forall_impl; [apply candidates_windows|].
    intros l [f ->]. unfold window.
    apply slice_length; [apply offset_nonneg; exact Hl|exact Hl]. }
  split; [reflexivity|]. split; [reflexivity|]. split; [exact Hlen|].
  rewrite (ceil_div_one_page _ limit Hl Hlen).
  destruct (DonationSearch.models rows); reflexivity.
Qed.

Lemma searchDonations_counts_the_page_witness :
  exists p,
    DonationSearch.searchDonations None " jane " 1 2 ledger = (Return p, ledger)
    /\ DonationSearch.totalResults p = 2%nat
    /\ DonationSearch.totalPages p = JS.Finite 1 0.
Proof.
  destruct (searchDonations_counts_the_page " jane " 1 2 ledger eq_refl eq_refl)
    as (p & Hp & _ & Hn & _ & Ht).
  exists p. split; [exact Hp|].
  vm_compute in Hp. injection Hp as <-. split; reflexivity.
Defined.

(** X20. What a search returns is read from the store: the donations of the
    page are the models of stored documents, the newest first, and all of
    them match the trimmed term by the same field (registry reference, tax
    id, or name). *)
Theorem searchDonations_sound (term : string) (page limit : Z) (w : World) :
  blank term = false ->
  exists p rows,
    DonationSearch.searchDonations None term page limit w = (Return p, w)
    /\ DonationSearch.donations p = DonationSearch.models rows
    /\ newest_first rows
    /\ same_criterion (DonationSearch.trim term) rows
    /\ forall r, In r rows -> In r (donations w).
Proof.
  intros Hb. eexists _, _. split; [apply searchDonations_unfold; exact Hb|].
  split; [reflexivity|].
  set (T := DonationSearch.trim term).
  assert (H : sublist (first_nonempty (candidates T page limit w))
                (DonationSearch.orderByCreatedAtDesc (donations w))
              /\ same_criterion T (first_nonempty (candidates T page limit w))).
  { apply (first_nonempty_Forall
             (fun rows =>
                sublist rows (DonationSearch.orderByCreatedAtDesc (donations w))
                /\ same_criterion T rows)).
    - split; [apply sublist_nil_l|left; constructor].
    - apply candidates_sound. }
  destruct H as [Hs Hc].
  split; [eapply sublist_newest_first; [exact Hs|apply orderBy_newest_first]|].
  split; [exact Hc|].
  intros r Hr. eapply Permutation_in; [apply orderBy_Permutation|].
  eapply sublist_In; eauto.
Qed.

Lemma searchDonations_sound_witness :
  exists p rows,
    DonationSearch.searchDonations None " jane " 1 2 ledger = (Return p, ledger)
    /\ DonationSearch.donations p = DonationSearch.models rows
    /\ map fst rows = [4%nat; 3%nat].
Proof.
  destruct (searchDonations_sound " jane " 1 2 ledger eq_refl)
    as (p & rows & Hp & Hd & _).
  exists p, (first_nonempty (candidates (DonationSearch.trim " jane ") 1 2 ledger)).
  split; [exact Hp|].
  vm_compute in Hp. injection Hp as <-. split; reflexivity.
Defined.

(** X21. The first page of a search is not empty when something matches: if
    a stored document matches the trimmed term by its registry reference,
    its tax id or its name, a search with a positive limit and a page
    number of at most 1 returns at least one donation. *)
Theorem searchDonations_first_page_complete (term : string) (page limit : Z)
    (w : World) (r : DocId * Doc.t) :
  blank term = false ->
  page <= 1 ->
  0 < limit ->
  In r (donations w) ->
  matches (DonationSearch.trim term) r ->
  exists p,
    DonationSearch.searchDonations None term page limit w = (Return p, w)
    /\ DonationSearch.donations p <> [].
Proof.
  intros Hb Hp Hl Hr Hm. eexists. split; [apply searchDonations_unfold; exact Hb|].
  cbn [page_of DonationSearch.donations]. intros Hnil.
  assert (Hrows : first_nonempty
                    (candidates (DonationSearch.trim term) page limit w) = []).
  { destruct (first_nonempty _); [reflexivity|discriminate]. }
  apply first_nonempty_nil in Hrows. unfold candidates, window in Hrows.
  replace ((Z.max 1 page - 1) * limit) with 0 in Hrows by lia.
  assert (Hin : In r (DonationSearch.orderByCreatedAtDesc (donations w))).
  { eapply Permutation_in; [symmetry; apply orderBy_Permutation|exact Hr]. }
  assert (Hempty : forall f, f r = true ->
            DonationSearch.slice
              (List.filter f (DonationSearch.orderByCreatedAtDesc (donations w)))
              0 (0 + limit) <> []).
  { intros f Hf. apply slice_first; [exact Hl|].
    intros E. assert (Hx : In r (List.filter f
                (DonationSearch.orderByCreatedAtDesc (donations w))))
      by (apply filter_In; auto).
    rewrite E in Hx. exact Hx. }
  inversion Hrows as [|? ? H1 Hrows1]; subst.
  inversion Hrows1 as [|? ? H2 Hrows2]; subst.
  inversion Hrows2 as [|? ? H3 _]; subst.
  destruct Hm as [Hm|[Hm|Hm]].
  - exact (Hempty _ Hm H1).
  - exact (Hempty _ Hm H2).
  - exact (Hempty _ Hm H3).
Qed.

Lemma searchDonations_first_page_complete_witness :
  exists p,
    DonationSearch.searchDonations None " jane " 1 2 ledger = (Return p, ledger)
    /\ DonationSearch.donations p <> [].
Proof.
  apply (searchDonations_first_page_complete " jane " 1 2 ledger
           (1%nat, donation_at 1700000100 "Jane Doe" "4321")).
  - reflexivity.
  - lia.
  - lia.
  - simpl. left. reflexivity.
  - right. right. vm_compute. reflexivity.
Defined.

Example search_second_page :
  exists p,
    DonationSearch.searchDonations None " jane " 2 2 ledger = (Return p, ledger)
    /\ map Donation.id (DonationSearch.donations p) = [Some 1%nat]
    /\ DonationSearch.currentPage p = 2
    /\ DonationSearch.totalPages p = JS.Finite 1 0.
Proof. eexists. split; [vm_compute; reflexivity|]. repeat split. Qed.
